(** * GROOPS: GNSS station network preprocessing and signal-bias parametrization

    Shallow embedding of
    - [source/gnss/gnssReceiverGenerator/gnssReceiverGeneratorStationNetwork.cpp]
      (methods [init], [preprocessing] and [simulation]), module [StationNetwork];
    - [source/gnss/gnssParametrization/gnssParametrizationSignalBiases.cpp]
      (methods [init] and [writeResults]), module [SignalBiases].

    Conventions.
    - [Double] is IEEE binary64 ([PrimFloat.float]) wherever the code
      multiplies, divides or compares doubles. In [SignalBiases] the
      wavelength is the binary64 quotient of two doubles; the biases only go
      through [std::remainder], which IEEE arithmetic computes without
      rounding: a bias is the rational number that the double is
      ([Double_value]), and the remainder is taken exactly.
    - [UInt] counters and indices are [nat]: every one of them is bounded by the
      size of a vector held in memory, so the 64-bit wrap-around is never reached.
    - A C++ method that mutates its object and may throw is a computation in the
      monad [M S]: it returns the outcome, the object as the call left it (also
      when it throws) and the events it emitted.
    - Code of the repository that is not part of the two files (GnssReceiver,
      GnssStationInfo, FileName, file readers) is taken as a parameter, bundled
      in a class of collaborators. Where a property is about what such code
      does (the usability mask, the gross-outlier rejection, reduce and
      broadcast), it is modelled from the specification; those definitions say
      so. *)

From Stdlib Require Import ZArith QArith Qround Qabs Lqa Floats.
From stdpp Require Import base list strings gmap pretty.

(** ** Exceptions, events and the method monad *)

(** [std::exception], identified with its [what()] text. *)
Definition Exception := string.

(** The exception of a failed range check of [std::vector::at]
    (std::out_of_range). Its [what()] is a text of the C++ library that
    includes the index and the size, and an exception that leaves a method of
    the two files has gone through GROOPS_RETHROW, which is not part of them.
    The constant stands for that exception; no statement depends on its
    text. *)
Definition out_of_range : Exception := "std::out_of_range".

Inductive Outcome (A : Type) : Type :=
| Returns (a : A)
| Throws (e : Exception).
Arguments Returns {A} a.
Arguments Throws {A} e.

(** Calls of collaborators (methods of GnssReceiver, file readers) made by the
    two files, in the order of their first appearance in the source. *)
Inductive Operation : Type :=
| op_readObservations (fileName : string)
| op_createTracks
| op_estimateInitialClockErrorFromCodeObservations
| op_ObservationEquationList
| op_disableEpochsWithGrossCodeObservationOutliers (threshold factor : float)
| op_writeTracks (fileName : string)
| op_cycleSlipsDetection
| op_removeLowElevationTracks
| op_trackOutlierDetection
| op_cycleSlipsRepairAtSameFrequency
| op_readFileGnssSignalBias (fileName : string).

(** What a run leaves behind besides its state: log lines and (as a ghost
    record used to state ordering properties) the collaborator calls made. *)
Inductive Event : Type :=
| logStatus (msg : string)
| logInfo (msg : string)
| logWarning (msg : string)
| logWarningOnce (msg : string)
| logTimerLoop (i n : nat)
| Call (op : Operation).

Definition M (S A : Type) : Type := S -> Outcome A * S * list Event.

Definition ret {S A} (a : A) : M S A := fun s => (Returns a, s, []).

Definition bind {S A B} (m : M S A) (f : A -> M S B) : M S B :=
  fun s =>
    match m s with
    | (Returns a, s1, ev1) =>
        match f a s1 with
        | (out, s2, ev2) => (out, s2, ev1 ++ ev2)
        end
    | (Throws e, s1, ev1) => (Throws e, s1, ev1)
    end.

Definition throw {S A} (e : Exception) : M S A := fun s => (Throws e, s, []).
Definition emit {S} (ev : Event) : M S unit := fun s => (Returns tt, s, [ev]).
Definition get {S} : M S S := fun s => (Returns s, s, []).
Definition modify {S} (f : S -> S) : M S unit := fun s => (Returns tt, f s, []).

Declare Scope method_scope.
Delimit Scope method_scope with method.
Notation "x <- m ;; k" := (bind m (fun x => k))
  (at level 100, m at next level, right associativity) : method_scope.
Notation "m ;; k" := (bind m (fun _ => k))
  (at level 100, right associativity) : method_scope.

(** A collaborator method: mutates the object, may throw, emits nothing. *)
Definition Method (S A : Type) : Type := S -> Outcome A * S.

(** Calling a collaborator: the call is recorded, then the method runs. *)
Definition call {S A} (op : Operation) (f : Method S A) : M S A :=
  fun s => match f s with (out, s1) => (out, s1, [Call op]) end.

(** [for(UInt i=0; i<n; i++) body(i);] *)
Fixpoint forM_ {S X} (xs : list X) (body : X -> M S unit) : M S unit :=
  match xs with
  | [] => ret tt
  | x :: rest => bind (body x) (fun _ => forM_ rest body)
  end.

(** ** Numbers *)

Definition Double := float.

(** Conversion of an unsigned integer to double: round to nearest, ties to
    even (exact below 2^53). *)
Definition UInt2Double (n : nat) : Double :=
  SF2Prim (binary_normalize prec emax (Z.of_nat n) 0 false).

(** The number that a finite double is. Infinities and NaN are no numbers;
    they are given 0. *)
Definition Double_value (x : Double) : Q :=
  match Prim2SF x with
  | S754_finite s m e => ((if s then -1 else 1) * inject_Z (Z.pos m) * 2 ^ e)%Q
  | _ => 0%Q
  end.

(** ** File names with variables *)

(** [FileName]: a template text; [VariableList]: the variables it may use. *)
Definition FileName := string.
Definition VariableList := gmap string string.

Definition FileName_empty (f : FileName) : bool := bool_decide (f = EmptyString).

(** [fileNameVariableList["station"]->setValue(v)] *)
Definition setValue (var value : string) (vars : VariableList) : VariableList :=
  <[var := value]> vars.

(** [addVariable(name, varList)]: a variable without a value yet. *)
Definition addVariable (var : string) (vars : VariableList) : VariableList :=
  <[var := EmptyString]> vars.

(** * The station network: gnssReceiverGeneratorStationNetwork.cpp *)

Module StationNetwork.

(** Types of the GNSS library that the station network only passes around. *)
Class Carrier : Type := {
  Time : Type;
  Transform3d : Type;
  GnssAntennaDefinition : Type;
  (** observations and tracks held by a GnssReceiver *)
  ObservationStore : Type;
  (** GnssReceiver::ObservationEquationList *)
  ObservationEquationList : Type;
}.

Section Model.
Context `{Carrier}.

Definition Vector3d : Type := Double * Double * Double.

Definition Vector3d_zero : Vector3d := (0, 0, 0)%float.

Definition Vector3d_sub (a b : Vector3d) : Vector3d :=
  match a, b with
  | (ax, ay, az), (bx, by_, bz) => (ax - bx, ay - by_, az - bz)%float
  end.

(** GnssAntennaInfo: the two definitions are shared pointers, [None] is the
    null pointer. *)
Record GnssAntennaInfo : Type := {
  antennaDef : option GnssAntennaDefinition;
  accuracyDef : option GnssAntennaDefinition;
  position : Vector3d;
  local2antennaFrame : Transform3d;
  timeStart : Time;
  timeEnd : Time;
}.

Record GnssStationInfo : Type := {
  markerName : string;
  markerNumber : string;
  approxPosition : Vector3d;
  antenna : list GnssAntennaInfo;
}.

Definition set_approxPosition (p : Vector3d) (info : GnssStationInfo) : GnssStationInfo :=
  {| markerName := markerName info; markerNumber := markerNumber info;
     approxPosition := p; antenna := antenna info |}.

(** The members of GnssReceiver that [init] and [preprocessing] touch. *)
Record GnssReceiver : Type := {
  name : string;
  isMyRank_ : bool;
  info : GnssStationInfo;
  useableEpochs : list bool;
  observationSampling : Double;
  times : list Time;
  clk : list Double;
  pos : list Vector3d;
  vel : list Vector3d;
  offset : list Vector3d;
  global2local : list Transform3d;
  local2antenna : list Transform3d;
  obs : ObservationStore;
}.

Definition set_useableEpochs (m : list bool) (r : GnssReceiver) : GnssReceiver :=
  {| name := name r; isMyRank_ := isMyRank_ r; info := info r;
     useableEpochs := m; observationSampling := observationSampling r;
     times := times r; clk := clk r; pos := pos r; vel := vel r; offset := offset r;
     global2local := global2local r; local2antenna := local2antenna r; obs := obs r |}.

Definition set_offset (o : list Vector3d) (r : GnssReceiver) : GnssReceiver :=
  {| name := name r; isMyRank_ := isMyRank_ r; info := info r;
     useableEpochs := useableEpochs r; observationSampling := observationSampling r;
     times := times r; clk := clk r; pos := pos r; vel := vel r; offset := o;
     global2local := global2local r; local2antenna := local2antenna r; obs := obs r |}.

Definition set_local2antenna (l : list Transform3d) (r : GnssReceiver) : GnssReceiver :=
  {| name := name r; isMyRank_ := isMyRank_ r; info := info r;
     useableEpochs := useableEpochs r; observationSampling := observationSampling r;
     times := times r; clk := clk r; pos := pos r; vel := vel r; offset := offset r;
     global2local := global2local r; local2antenna := l; obs := obs r |}.

(** [std::vector::resize(n, value)] *)
Definition resize {A} (n : nat) (value : A) (v : list A) : list A :=
  take n v ++ replicate (n - length v) value.

(** ** The epoch usability mask

    GnssReceiver::useable(idEpoch), disable(idEpoch), disable() and useable()
    are not part of the file. The specification gives the receiver a per-epoch
    usability mask and lets a station be disabled wholesale (all epochs). *)

(** Modelled from the spec: GnssReceiver::useable(idEpoch) is missing. An
    epoch is usable when its entry of the usability mask is set. *)
Definition useable_epoch (recv : GnssReceiver) (idEpoch : nat) : bool :=
  match useableEpochs recv !! idEpoch with
  | Some b => b
  | None => false
  end.

(** Modelled from the spec: GnssReceiver::disable(idEpoch) is missing.
    Disabling an epoch clears its entry of the usability mask. *)
Definition disable_epoch (idEpoch : nat) (recv : GnssReceiver) : GnssReceiver :=
  set_useableEpochs (<[idEpoch := false]> (useableEpochs recv)) recv.

(** Modelled from the spec: GnssReceiver::disable() is missing. The receiver
    is disabled wholesale: all epochs, not just flagged ones. *)
Definition disable (recv : GnssReceiver) : GnssReceiver :=
  set_useableEpochs (replicate (length (useableEpochs recv)) false) recv.

(** Modelled from the spec: GnssReceiver::useable() is missing. A receiver
    is usable while one of its epochs is; a disabled receiver has none. *)
Definition useable (recv : GnssReceiver) : bool :=
  existsb (fun b => b) (useableEpochs recv).

(** ** The gross-outlier rejection *)

(** Modelled from the spec: GnssReceiver::disableEpochsWithGrossCodeObservationOutliers
    is missing. Using the residuals of the observation equations, it disables
    any epoch whose code residual exceeds the threshold scaled by the tolerance
    factor. [residual eqn idEpoch] is the code residual of the epoch. *)
Definition grossOutlierRejector (residual : ObservationEquationList -> nat -> Double)
    (eqn : ObservationEquationList) (threshold factor : Double) :
    Method GnssReceiver ObservationEquationList :=
  fun recv =>
    (Returns eqn,
     foldl (fun r idEpoch =>
              if (threshold * factor <? residual eqn idEpoch)%float
              then disable_epoch idEpoch r else r)
           recv (seq 0 (length (useableEpochs recv)))).

(** ** Collaborators

    Functions of the repository that the two methods call and that are defined
    outside the file. Arguments that are the same in every call of a run
    (transmitters, rotation and reduction functions, type lists) are part of
    the collaborator. *)
Class Collaborators : Type := {
  (** FileName::operator()(VariableList) *)
  expand : FileName -> VariableList -> string;
  (** System::exists *)
  System_exists : string -> bool;
  readFileGnssStationInfo : string -> Outcome GnssStationInfo;
  fillAntennaPattern : GnssStationInfo -> Outcome GnssStationInfo;
  fillReceiverDefinition : GnssStationInfo -> Outcome GnssStationInfo;
  fillAntennaAccuracy : GnssStationInfo -> Outcome GnssStationInfo;
  (** InstrumentFile::read of the position file and the search for the epoch
      inside the interval of [times]; [None] when the read throws or no epoch
      is found. *)
  readStationPosition : string -> list Time -> option Vector3d;
  (** GnssStationInfo::findAntenna; [None] is NULLINDEX. *)
  findAntenna : GnssStationInfo -> Time -> option nat;
  referencePoint : GnssStationInfo -> Time -> Vector3d;
  (** inverse(localNorthEastUp(position, Ellipsoid())) *)
  inverse_localNorthEastUp : Vector3d -> Transform3d;
  Transform3d_default : Transform3d;
  (** medianSampling(times).seconds() *)
  medianSampling_seconds : list Time -> Double;
  (** the observation store and the sampling of a newly constructed receiver *)
  ObservationStore_empty : ObservationStore;
  observationSampling_initial : Double;
  readObservations : string -> Method GnssReceiver unit;
  createTracks : nat -> Method GnssReceiver unit;
  estimateInitialClockErrorFromCodeObservations :
    Double -> Double -> Double -> bool -> Method GnssReceiver unit;
  (** constructor of GnssReceiver::ObservationEquationList *)
  newObservationEquationList : Method GnssReceiver ObservationEquationList;
  disableEpochsWithGrossCodeObservationOutliers :
    ObservationEquationList -> Double -> Double -> Method GnssReceiver ObservationEquationList;
  writeTracks : FileName -> ObservationEquationList -> Method GnssReceiver unit;
  cycleSlipsDetection :
    ObservationEquationList -> nat -> Double -> nat -> Double ->
    Method GnssReceiver ObservationEquationList;
  removeLowElevationTracks :
    ObservationEquationList -> Double -> Method GnssReceiver ObservationEquationList;
  trackOutlierDetection :
    ObservationEquationList -> Double -> Double -> Method GnssReceiver ObservationEquationList;
  cycleSlipsRepairAtSameFrequency :
    ObservationEquationList -> Method GnssReceiver ObservationEquationList;
  (** the code residual of an epoch in the observation equations *)
  codeResidual : ObservationEquationList -> nat -> Double;
  (** Time::operator> and Time::operator<= *)
  Time_gt : Time -> Time -> bool;
  Time_le : Time -> Time -> bool;
  (** GnssAntennaInfo::str *)
  GnssAntennaInfo_str : GnssAntennaInfo -> string;
}.

Context `{Collaborators}.

(** ** Configuration of one station network (the members read by readConfig) *)
Record Config : Type := {
  fileNameStationInfo : FileName;
  fileNameStationPosition : FileName;
  fileNameObs : FileName;
  maxStationCount : nat;
  elevationTrackMinimum : Double;
  minObsCountPerTrack : nat;
  minEstimableEpochsRatio : Double;
  huber : Double;
  huberPower : Double;
  codeMaxPosDiff : Double;
  denoisingLambda : Double;
  tecWindowSize : nat;
  tecSigmaFactor : Double;
  fileNameTrackBefore : FileName;
  fileNameTrackAfter : FileName;
}.

Variable cfg : Config.

(** ** Counting usable epochs and the estimable-epochs test

    [[
    UInt countEpochs = 0;
    for(UInt idEpoch=0; idEpoch<times.size(); idEpoch++)
      if(recv->useable(idEpoch))
        countEpochs++;
    if(countEpochs*recv->observationSampling < minEstimableEpochsRatio*times.size()*medianSampling(times).seconds())
    ]] *)
Definition countEpochs (recv : GnssReceiver) (nTimes : nat) : nat :=
  foldl (fun count idEpoch => if useable_epoch recv idEpoch then S count else count)
        0 (seq 0 nTimes).

Definition estimableLhs (recv : GnssReceiver) (ts : list Time) : Double :=
  (UInt2Double (countEpochs recv (length ts)) * observationSampling recv)%float.

Definition estimableRhs (ts : list Time) : Double :=
  (minEstimableEpochsRatio cfg * UInt2Double (length ts) * medianSampling_seconds ts)%float.

Definition tooFewEpochs (recv : GnssReceiver) (ts : list Time) : bool :=
  (estimableLhs recv ts <? estimableRhs ts)%float.

(** ** preprocessing: the pipeline of one station

    The body of the [try] block of the lambda, lines 322-344. The receiver is
    the state; the observation equations [eqn] are a local object handed from
    stage to stage. The value returned tells whether the usability test
    disabled the station (the caller then counts it). *)
Definition evaluateUsability (gnssTimes : list Time) : M GnssReceiver bool :=
  (recv <- get ;;
   if tooFewEpochs recv gnssTimes
   then (modify disable ;; ret true)
   else ret false)%method.

(** Lines 324-326: tracks, initial clock, observation equations. *)
Definition initialClock : M GnssReceiver ObservationEquationList :=
  (call op_createTracks (createTracks (minObsCountPerTrack cfg)) ;;
   call op_estimateInitialClockErrorFromCodeObservations
        (estimateInitialClockErrorFromCodeObservations
           (huber cfg) (huberPower cfg) (codeMaxPosDiff cfg) false) ;;
   call op_ObservationEquationList newObservationEquationList)%method.

(** Line 327. *)
Definition rejectGrossOutliers (eqn : ObservationEquationList) :
    M GnssReceiver ObservationEquationList :=
  call (op_disableEpochsWithGrossCodeObservationOutliers (codeMaxPosDiff cfg) 0.5%float)
       (disableEpochsWithGrossCodeObservationOutliers eqn (codeMaxPosDiff cfg) 0.5%float).

(** Lines 328-333. *)
Definition slipsAndOutliers (eqn : ObservationEquationList) : M GnssReceiver unit :=
  (call (op_writeTracks (fileNameTrackBefore cfg)) (writeTracks (fileNameTrackBefore cfg) eqn) ;;
   eqn <- call op_cycleSlipsDetection
               (cycleSlipsDetection eqn (minObsCountPerTrack cfg) (denoisingLambda cfg)
                                    (tecWindowSize cfg) (tecSigmaFactor cfg)) ;;
   eqn <- call op_removeLowElevationTracks
               (removeLowElevationTracks eqn (elevationTrackMinimum cfg)) ;;
   eqn <- call op_trackOutlierDetection
               (trackOutlierDetection eqn (huber cfg) (huberPower cfg)) ;;
   eqn <- call op_cycleSlipsRepairAtSameFrequency (cycleSlipsRepairAtSameFrequency eqn) ;;
   call (op_writeTracks (fileNameTrackAfter cfg)) (writeTracks (fileNameTrackAfter cfg) eqn))%method.

Definition runStages : M GnssReceiver unit :=
  (eqn <- initialClock ;;
   eqn <- rejectGrossOutliers eqn ;;
   slipsAndOutliers eqn)%method.

Definition stationPipeline (gnssTimes : list Time) : M GnssReceiver bool :=
  (runStages ;; evaluateUsability gnssTimes)%method.

(** ** The components of the pipeline

    The components named by the specification and the calls that realise
    them: createTracks is the TrackSegmenter, the clock estimation from code
    observations the ClockInitializer, and so on. The usability evaluation is
    no call but the last statements of the pipeline; it leaves no event. The
    list of the stages of a run ends with it when the run returns; that a run
    returns exactly when the seven calls have returned, and then with the
    evaluation applied to the receiver as they left it, is part of the
    theorem on the order. *)
Inductive Component : Type :=
| TrackSegmenter
| ClockInitializer
| GrossOutlierRejector
| CycleSlipDetector
| TrackFilter
| TrackOutlierDetector
| CycleSlipRepairer
| UsabilityEvaluator.

Definition component_of (ev : Event) : option Component :=
  match ev with
  | Call op_createTracks => Some TrackSegmenter
  | Call op_estimateInitialClockErrorFromCodeObservations => Some ClockInitializer
  | Call (op_disableEpochsWithGrossCodeObservationOutliers _ _) => Some GrossOutlierRejector
  | Call op_cycleSlipsDetection => Some CycleSlipDetector
  | Call op_removeLowElevationTracks => Some TrackFilter
  | Call op_trackOutlierDetection => Some TrackOutlierDetector
  | Call op_cycleSlipsRepairAtSameFrequency => Some CycleSlipRepairer
  | _ => None
  end.

Definition stagesOfRun (run : Outcome bool * GnssReceiver * list Event) : list Component :=
  omap component_of run.2 ++
  match run.1.1 with
  | Returns _ => [UsabilityEvaluator]
  | Throws _ => []
  end.

(** The order of the components in the code. *)
Definition codeOrder : list Component :=
  [TrackSegmenter; ClockInitializer; GrossOutlierRejector; CycleSlipDetector;
   TrackFilter; TrackOutlierDetector; CycleSlipRepairer; UsabilityEvaluator].

(** The order of the components as the specification states it. *)
Definition specOrder : list Component :=
  [ClockInitializer; GrossOutlierRejector; TrackSegmenter; CycleSlipDetector;
   TrackFilter; TrackOutlierDetector; CycleSlipRepairer; UsabilityEvaluator].

Definition isWarning (ev : Event) : bool :=
  match ev with
  | logWarning _ => true
  | _ => false
  end.

Definition isTimerLoop (ev : Event) : bool :=
  match ev with
  | logTimerLoop _ _ => true
  | _ => false
  end.

Definition isCall (ev : Event) : bool :=
  match ev with
  | Call _ => true
  | _ => false
  end.

(** ** preprocessing: one worker

    The state of a worker inside [preprocessing]: the member [receivers] and
    the local counter [disabledStations]. *)
Record Worker : Type := {
  receivers : list GnssReceiver;
  disabledStations : nat;
}.

Definition disabledMessage (recv : GnssReceiver) (e : Exception) : string :=
  name recv +:+ " disabled: " +:+ e.

(** The lambda given to [Single::forEach]:
    [[
    if(receivers.at(idRecv)->isMyRank())
    {
      try { ...pipeline...; if(tooFew) {recv->disable(); disabledStations++;} }
      catch(std::exception &e)
      {
        logWarning<<receivers.at(idRecv)->name()<<" disabled: "<<e.what()<<Log::endl;
        receivers.at(idRecv)->disable();
        disabledStations++;
      }
    }
    ]]
    [receivers.at] throws when the index is out of range; that throw is outside
    the [try]. [Parallel::peek] only polls the communicator and is left out, as
    is the variable list of the file names, which no statement of the lambda
    reads. *)
Definition processStation (gnssTimes : list Time) (idRecv : nat) : M Worker unit :=
  fun w =>
    match receivers w !! idRecv with
    | None => (Throws out_of_range, w, [])
    | Some recv =>
        if isMyRank_ recv then
          match stationPipeline gnssTimes recv with
          | (Returns disabled, recv1, ev) =>
              (Returns tt,
               {| receivers := <[idRecv := recv1]> (receivers w);
                  disabledStations :=
                    if disabled then S (disabledStations w) else disabledStations w |},
               ev)
          | (Throws e, recv1, ev) =>
              (Returns tt,
               {| receivers := <[idRecv := disable recv1]> (receivers w);
                  disabledStations := S (disabledStations w) |},
               ev ++ [logWarning (disabledMessage recv1 e)])
          end
        else (Returns tt, w, [])
    end.

(** [Single::forEach(receivers.size(), lambda)] *)
Definition forEachStation (gnssTimes : list Time) : M Worker unit :=
  fun w => forM_ (seq 0 (length (receivers w))) (processStation gnssTimes) w.

(** The part of [preprocessing] that a worker runs on its own, up to the
    reduction. *)
Definition preprocessingLocal (gnssTimes : list Time) (rs : list GnssReceiver) :
    Outcome unit * Worker * list Event :=
  (emit (logStatus "init observations") ;;
   forEachStation gnssTimes)%method {| receivers := rs; disabledStations := 0 |}.

(** What the lambda makes of a receiver on its own worker, and whether it
    counts the station as disabled. *)
Definition stationResult (gnssTimes : list Time) (recv : GnssReceiver) : GnssReceiver :=
  match stationPipeline gnssTimes recv with
  | (Returns _, recv1, _) => recv1
  | (Throws _, recv1, _) => disable recv1
  end.

Definition stationDisabled (gnssTimes : list Time) (recv : GnssReceiver) : bool :=
  match stationPipeline gnssTimes recv with
  | (Returns disabled, _, _) => disabled
  | (Throws _, _, _) => true
  end.

(** The stations that a worker disables: its own stations whose pipeline
    throws or ends below the ratio. *)
Definition localCount (gnssTimes : list Time) (rs : list GnssReceiver) : nat :=
  length (List.filter (fun recv => isMyRank_ recv && stationDisabled gnssTimes recv) rs).

(** ** init: creating the receivers of the station list (lines 112-163) *)

(** The variable list of the file names holds the single variable
    [station]; it is set before every use. *)
Definition stationVariables (stationName : string) : VariableList :=
  setValue "station" stationName (addVariable "station" ∅).

(** [std::make_shared<GnssReceiver>(FALSE, TRUE, name, info, noPatternFoundAction,
    Vector(times.size(), TRUE), TRUE, 1.)]: not on my rank, all epochs usable,
    no data yet. *)
Definition newReceiver (ts : list Time) (stationName : string) (i : GnssStationInfo) :
    GnssReceiver :=
  {| name := stationName; isMyRank_ := false; info := i;
     useableEpochs := replicate (length ts) true;
     observationSampling := observationSampling_initial;
     times := []; clk := []; pos := []; vel := []; offset := [];
     global2local := []; local2antenna := []; obs := ObservationStore_empty |}.

Definition loadStationInfo (ts : list Time) (vars : VariableList) : Outcome GnssStationInfo :=
  match readFileGnssStationInfo (expand (fileNameStationInfo cfg) vars) with
  | Throws e => Throws e
  | Returns i0 =>
  match fillAntennaPattern i0 with
  | Throws e => Throws e
  | Returns i1 =>
  match fillReceiverDefinition i1 with
  | Throws e => Throws e
  | Returns i2 =>
  match fillAntennaAccuracy i2 with
  | Throws e => Throws e
  | Returns i3 =>
      (* approximate station position; a failure of the read is ignored *)
      if FileName_empty (fileNameStationPosition cfg) then Returns i3
      else match readStationPosition (expand (fileNameStationPosition cfg) vars) ts with
           | Some p => Returns (set_approxPosition p i3)
           | None => Returns i3
           end
  end end end end.

(** Lines 147-150, the test of the completeness of the antennas:
    [[
    for(const auto &antenna : info.antenna)
      if(antenna.timeEnd > times.front() && antenna.timeStart <= times.back() && (!antenna.antennaDef || !antenna.accuracyDef))
        logWarningOnce<<info.markerName<<"."<<info.markerNumber<<": No "<<(!antenna.antennaDef ? "antenna" : "accuracy")<<" definition found for "<<antenna.str()<<Log::endl;
    ]]
    [times.front()] and [times.back()] are undefined for an empty time axis;
    the model writes no warning then. *)
Definition lacksDefinition (ant : GnssAntennaInfo) : bool :=
  match antennaDef ant, accuracyDef ant with
  | Some _, Some _ => false
  | _, _ => true
  end.

Definition incompleteWarning (i : GnssStationInfo) (ant : GnssAntennaInfo) : Event :=
  logWarningOnce
    (markerName i +:+ "." +:+ markerNumber i +:+ ": No "
       +:+ match antennaDef ant with None => "antenna" | Some _ => "accuracy" end
       +:+ " definition found for " +:+ GnssAntennaInfo_str ant).

Definition completenessWarnings (ts : list Time) (i : GnssStationInfo) : list Event :=
  match head ts, last ts with
  | Some front, Some back =>
      omap (fun ant =>
              if Time_gt (timeEnd ant) front && Time_le (timeStart ant) back
                 && lacksDefinition ant
              then Some (incompleteWarning i ant)
              else None) (antenna i)
  | _, _ => []
  end.

(** One pass of the loop over the alternatives [k] of a station: [None] when
    the observation file does not exist ([continue]) or when an exception was
    caught. A receiver that is created comes with the warnings of the
    completeness test of its antennas. *)
Definition createReceiver (ts : list Time) (stationName : string) :
    option GnssReceiver * list Event :=
  let vars := stationVariables stationName in
  if negb (FileName_empty (fileNameObs cfg)) && negb (System_exists (expand (fileNameObs cfg) vars))
  then (None, [])
  else match loadStationInfo ts vars with
       | Returns i => (Some (newReceiver ts stationName i), completenessWarnings ts i)
       | Throws e => (None, [logWarningOnce (stationName +:+ " disabled: " +:+ e)])
       end.

Fixpoint createAlternatives (ts : list Time) (names : list string) :
    list GnssReceiver * list Event :=
  match names with
  | [] => ([], [])
  | stationName :: rest =>
      match createReceiver ts stationName, createAlternatives ts rest with
      | (Some recv, ev), (recvs, evs) => (recv :: recvs, ev ++ evs)
      | (None, ev), (recvs, evs) => (recvs, ev ++ evs)
      end
  end.

Fixpoint createStations (ts : list Time) (stationName : list (list string)) :
    list (list GnssReceiver) * list Event :=
  match stationName with
  | [] => ([], [])
  | names :: rest =>
      match createAlternatives ts names, createStations ts rest with
      | (alts, ev), (stations, evs) => (alts :: stations, ev ++ evs)
      end
  end.

(** remove empty stations *)
Definition removeEmptyStations (stations : list (list GnssReceiver)) :
    list (list GnssReceiver) :=
  filter (fun alts => alts <> []) stations.

(** ** init: reading the observations (lines 170-229) *)

(** [v.at(i) = x] *)
Definition at_put {A} (i : nat) (x : A) (v : list A) : Outcome (list A) :=
  if decide (i < length v) then Returns (<[i := x]> v) else Throws out_of_range.

Definition antennaComplete (ant : GnssAntennaInfo) : bool :=
  match antennaDef ant, accuracyDef ant with
  | Some _, Some _ => true
  | _, _ => false
  end.

(** The antenna that serves the receiver at a time, if there is one, and
    whether it comes with both definitions. *)
Definition antennaAt (i : GnssStationInfo) (t : Time) : option GnssAntennaInfo :=
  match findAntenna i t with
  | Some idAnt => antenna i !! idAnt
  | None => None
  end.

Definition completeAt (i : GnssStationInfo) (t : Time) : bool :=
  match antennaAt i t with
  | Some ant => antennaComplete ant
  | None => false
  end.

(** The body of the loop over the epochs, lines 191-198. *)
Definition setupEpoch (ts : list Time) (idEpoch : nat) : M GnssReceiver unit :=
  fun recv =>
    match ts !! idEpoch with
    | None => (Throws out_of_range, recv, [])
    | Some t =>
        match findAntenna (info recv) t with
        | None => (Returns tt, disable_epoch idEpoch recv, [])
        | Some idAnt =>
            match antenna (info recv) !! idAnt with
            | None => (Throws out_of_range, recv, [])
            | Some ant =>
                if antennaComplete ant then
                  match at_put idEpoch
                          (Vector3d_sub (position ant) (referencePoint (info recv) t))
                          (offset recv) with
                  | Throws e => (Throws e, recv, [])
                  | Returns o =>
                      match at_put idEpoch (local2antennaFrame ant)
                                   (local2antenna (set_offset o recv)) with
                      | Throws e => (Throws e, set_offset o recv, [])
                      | Returns l => (Returns tt, set_local2antenna l (set_offset o recv), [])
                      end
                  end
                else (Returns tt, disable_epoch idEpoch recv, [])
            end
        end
    end.

(** Lines 180-188: the receiver is marked as mine and its series are sized to
    the epochs. *)
Definition sizeToEpochs (ts : list Time) (r : GnssReceiver) : GnssReceiver :=
  let n := length ts in
  {| name := name r; isMyRank_ := true; info := info r;
     useableEpochs := useableEpochs r; observationSampling := observationSampling r;
     times := ts;
     clk := resize n 0%float (clk r);
     pos := resize n (approxPosition (info r)) (pos r);
     vel := resize n Vector3d_zero (vel r);
     offset := resize n Vector3d_zero (offset r);
     global2local := resize n (inverse_localNorthEastUp (approxPosition (info r))) (global2local r);
     local2antenna := resize n Transform3d_default (local2antenna r);
     obs := obs r |}.

Definition setupReceiver (ts : list Time) : M GnssReceiver unit :=
  (modify (sizeToEpochs ts) ;;
   forM_ (seq 0 (length ts)) (setupEpoch ts))%method.

(** What the epoch loop has established after its first [n] passes. *)
Definition setupInvariant (ts : list Time) (n : nat) (r0 r1 : GnssReceiver) : Prop :=
  info r1 = info r0 /\ name r1 = name r0 /\ isMyRank_ r1 = isMyRank_ r0
  /\ length (offset r1) = length (offset r0)
  /\ length (local2antenna r1) = length (local2antenna r0)
  /\ (forall j, n <= j -> useable_epoch r1 j = useable_epoch r0 j)
  /\ (forall j t, j < n -> ts !! j = Some t ->
        useable_epoch r1 j = useable_epoch r0 j && completeAt (info r0) t)
  /\ (forall j t ant, j < n -> ts !! j = Some t ->
        antennaAt (info r0) t = Some ant -> antennaComplete ant = true ->
        offset r1 !! j = Some (Vector3d_sub (position ant) (referencePoint (info r0) t))
        /\ local2antenna r1 !! j = Some (local2antennaFrame ant)).

(** Lines 201-222. The value returned is what the pass assigns to
    [receiverAlternative(i)] before it leaves the loop with [break]; [None] is
    [continue]. *)
Definition readAndCount (ts : list Time) (k : nat) : M GnssReceiver (option nat) :=
  (if FileName_empty (fileNameObs cfg) then ret (Some 1)  (* simulation case *)
   else
     recv <- get ;;
     let fileName := expand (fileNameObs cfg) (stationVariables (name recv)) in
     call (op_readObservations fileName) (readObservations fileName) ;;
     recv <- get ;;
     if tooFewEpochs recv ts then ret None
     else ret (Some (k + 1)))%method.

Definition testAlternative (ts : list Time) (k : nat) : M GnssReceiver (option nat) :=
  (setupReceiver ts ;; readAndCount ts k)%method.

(** The loop over the alternatives of one station. It yields the receivers as
    the loop left them, the value of [receiverAlternative(i)] (0 when no pass
    assigned it) and the events. *)
Fixpoint testAlternatives (ts : list Time) (k : nat) (alts : list GnssReceiver) :
    list GnssReceiver * nat * list Event :=
  match alts with
  | [] => ([], 0, [])
  | recv :: rest =>
      match testAlternative ts k recv with
      | (Returns (Some v), recv1, ev) => (recv1 :: rest, v, ev)
      | (Returns None, recv1, ev) =>
          match testAlternatives ts (S k) rest with
          | (rest1, v, evs) => (recv1 :: rest1, v, ev ++ evs)
          end
      | (Throws e, recv1, ev) =>
          match testAlternatives ts (S k) rest with
          | (rest1, v, evs) =>
              (recv1 :: rest1, v, ev ++ logWarning (disabledMessage recv1 e) :: evs)
          end
      end
  end.

(** The loop over the stations on the worker [rank] of [size] workers;
    [i] is the index of the first station of [stations], [n] the number of all
    stations. *)
Fixpoint stationsLoop (ts : list Time) (size rank n i : nat)
    (stations : list (list GnssReceiver)) :
    list (list GnssReceiver) * list nat * list Event :=
  match stations with
  | [] => ([], [], [])
  | alts :: rest =>
      match (if decide (i mod size = rank)
             then match testAlternatives ts 0 alts with
                  | (alts1, v, ev) => (alts1, v, logTimerLoop i n :: ev)
                  end
             else (alts, 0, [])),
            stationsLoop ts size rank n (S i) rest with
      | (alts1, v, ev), (rest1, vs, evs) => (alts1 :: rest1, v :: vs, ev ++ evs)
      end
  end.

(** ** The choice among the alternatives, stated on its own

    An alternative qualifies when the pass over it does not throw (setup and
    reading of the observations) and the receiver then has enough usable
    epochs. The station takes the first alternative that qualifies;
    [selectAlternative] is its position counted from 1, or 0 when there is
    none. *)
Definition observationFile (recv : GnssReceiver) : string :=
  expand (fileNameObs cfg) (stationVariables (name recv)).

Definition qualifies (ts : list Time) (recv : GnssReceiver) : bool :=
  match setupReceiver ts recv with
  | (Returns _, recv1, _) =>
      match readObservations (observationFile recv1) recv1 with
      | (Returns _, recv2) => negb (tooFewEpochs recv2 ts)
      | (Throws _, _) => false
      end
  | (Throws _, _, _) => false
  end.

Definition selectAlternative (ts : list Time) (alts : list GnssReceiver) : nat :=
  match list_find (fun recv => qualifies ts recv = true) alts with
  | Some (k, _) => S k
  | None => 0
  end.

(** The receiver that [receiverAlternative(i)] designates, and the receivers
    designated over all stations. *)
Definition selectedReceiver (alts : list GnssReceiver) (v : nat) : option GnssReceiver :=
  if decide (0 < v) then alts !! (v - 1) else None.

Definition selectedReceivers (stations : list (list GnssReceiver)) (vs : list nat) :
    list GnssReceiver :=
  omap (fun p => selectedReceiver p.1 p.2) (zip stations vs).

(** A station name for which [init] creates a receiver. *)
Definition createsReceiver (ts : list Time) (stationName : string) : bool :=
  match (createReceiver ts stationName).1 with
  | Some _ => true
  | None => false
  end.

(** ** Collective operations

    The Parallel layer is not part of the file. A list indexed by rank holds
    the value of a variable on every worker. *)

(** Modelled from the spec: Parallel::reduceSum(x, root, comm) is missing.
    The reduce sums across the workers and leaves the sum on [root]; the other
    workers keep what they had. *)
Definition reduceSum {A} (sum : list A -> A) (root : nat) (xs : list A) : list A :=
  imap (fun rank x => if decide (rank = root) then sum xs else x) xs.

(** Modelled from the spec: Parallel::broadCast(x, root, comm) is missing.
    The broadcast hands the value of [root] back to all workers. *)
Definition broadCast {A} (root : nat) (xs : list A) : list A :=
  match xs !! root with
  | Some x => replicate (length xs) x
  | None => xs
  end.

(** Sum of vectors with [n] rows. *)
Definition Vector_sum (n : nat) (vs : list (list nat)) : list nat :=
  foldr (zip_with Nat.add) (replicate n 0) vs.

(** ** init: storing the valid receivers (lines 237-243)

    [[
    for(UInt i=0; i<receiversWithAlternatives.size(); i++)
      if(receiverAlternative(i) > 0)
      {
        receivers.push_back(receiversWithAlternatives.at(i).at(receiverAlternative(i)-1));
        if(receivers.size() >= maxStationCount)
          break;
      }
    ]] *)
Fixpoint storeValid (stations : list (list GnssReceiver)) (receiverAlternative : list nat)
    (receivers : list GnssReceiver) : Outcome (list GnssReceiver) :=
  match stations, receiverAlternative with
  | alts :: rest, v :: vs =>
      if decide (0 < v) then
        match alts !! (v - 1) with
        | None => Throws out_of_range
        | Some recv =>
            if decide (maxStationCount cfg <= length (receivers ++ [recv]))
            then Returns (receivers ++ [recv])
            else storeValid rest vs (receivers ++ [recv])
        end
      else storeValid rest vs receivers
  | _, _ => Returns receivers
  end.

(** ** init on all workers

    What a worker holds when the receivers are stored. *)
Record InitState : Type := {
  receiversWithAlternatives : list (list GnssReceiver);
  receiverAlternative : list nat;
  storedReceivers : Outcome (list GnssReceiver);
  initEvents : list Event;
}.

(** The run of [init] on [size] workers up to the stored receivers. Every
    worker creates the receivers of the whole station list, reads the
    observations of its own stations, and takes part in the reduce and the
    broadcast of [receiverAlternative]; the member [receivers] is empty when
    [init] starts. The statements behind the loop that stores the receivers
    are not modelled: the copy into [receiversAll], the log line, and the
    displacements of tides and loading, which change the offsets of the
    receivers with [isMyRank] only. *)
Definition init (ts : list Time) (stationName : list (list string)) (size : nat) :
    list InitState :=
  let created := createStations ts stationName in
  let stations := removeEmptyStations created.1 in
  let n := length stations in
  let locals := (fun rank => stationsLoop ts size rank n 0 stations) <$> seq 0 size in
  let vectors := broadCast 0 (reduceSum (Vector_sum n) 0 ((fun l => l.1.2) <$> locals)) in
  zip_with
    (fun l v =>
       {| receiversWithAlternatives := l.1.1;
          receiverAlternative := v;
          storedReceivers := storeValid l.1.1 v [];
          initEvents := logStatus "init station network" :: created.2
                          ++ logStatus "read observations" :: l.2 |})
    locals vectors.

(** The stations of a run, the receivers of the stations as worker [rank]
    leaves them, and the vector of the selected alternatives. *)
Definition stationsOf (ts : list Time) (stationName : list (list string)) :
    list (list GnssReceiver) :=
  removeEmptyStations (createStations ts stationName).1.

Definition stationsAfter (ts : list Time) (size rank : nat)
    (stations : list (list GnssReceiver)) : list (list GnssReceiver) :=
  imap (fun j alts => if decide (j mod size = rank)
                      then (testAlternatives ts 0 alts).1.1 else alts) stations.

Definition selectedVector (ts : list Time) (stations : list (list GnssReceiver)) : list nat :=
  (fun alts => (testAlternatives ts 0 alts).1.2) <$> stations.

(** ** preprocessing on all workers

    Every worker runs the loop over the stations; the counters are then summed
    onto worker 0 ([Parallel::reduceSum(disabledStations, 0, comm)]), and every
    worker executes the [logInfo] statement with the counter it holds. *)
Definition preprocessing (gnssTimes : list Time) (workers : list (list GnssReceiver)) :
    list (Outcome unit * Worker * list Event) :=
  let runs := preprocessingLocal gnssTimes <$> workers in
  let counts := reduceSum sum_list 0 ((fun run => disabledStations run.1.2) <$> runs) in
  zip_with
    (fun run count =>
       match run with
       | (Returns _, w, ev) =>
           (Returns tt,
            {| receivers := receivers w; disabledStations := count |},
            ev ++ [logInfo ("  " +:+ pretty count +:+ " disabled stations")])
       | (Throws e, w, ev) => (Throws e, w, ev)
       end)
    runs counts.

(** The number of stations disabled on all workers together. *)
Definition globalCount (gnssTimes : list Time) (workers : list (list GnssReceiver)) : nat :=
  sum_list (localCount gnssTimes <$> workers).

(** ** init: the stations and the log, stated on their own *)

(** The observation file of a station name is looked for and does not
    exist (line 123). *)
Definition observationsMissing (stationName : string) : bool :=
  negb (FileName_empty (fileNameObs cfg))
  && negb (System_exists (expand (fileNameObs cfg) (stationVariables stationName))).

(** The lines that the creation of the receiver of a station name writes:
    none when the observation file is missing, the warnings of the
    completeness test when the station info is loaded, and the warning of the
    catch block when it is not. *)
Definition creationEvents (ts : list Time) (stationName : string) : list Event :=
  if observationsMissing stationName then []
  else match loadStationInfo ts (stationVariables stationName) with
       | Returns i => completenessWarnings ts i
       | Throws e => [logWarningOnce (stationName +:+ " disabled: " +:+ e)]
       end.

(** The alternatives of a station that the loop over the alternatives goes
    through: those up to the first one that qualifies. *)
Definition triedAlternatives (ts : list Time) (alts : list GnssReceiver) : list GnssReceiver :=
  match list_find (fun recv => qualifies ts recv = true) alts with
  | Some (k, _) => take (S k) alts
  | None => alts
  end.

(** The events of the pass over one alternative when observation files are
    given. *)
Definition alternativeEvents (ts : list Time) (recv : GnssReceiver) : list Event :=
  match setupReceiver ts recv with
  | (Returns _, recv1, _) =>
      Call (op_readObservations (observationFile recv)) ::
      match readObservations (observationFile recv) recv1 with
      | (Returns _, _) => []
      | (Throws e, recv2) => [logWarning (disabledMessage recv2 e)]
      end
  | (Throws e, recv1, _) => [logWarning (disabledMessage recv1 e)]
  end.

(** ** preprocessing: the log of a worker, stated on its own *)

(** The events that the lambda leaves for a receiver. *)
Definition stationEvents (gnssTimes : list Time) (recv : GnssReceiver) : list Event :=
  if isMyRank_ recv then
    match stationPipeline gnssTimes recv with
    | (Returns _, _, ev) => ev
    | (Throws e, recv1, ev) => ev ++ [logWarning (disabledMessage recv1 e)]
    end
  else [].

(** The warning written for a receiver: one for a station on this rank whose
    pipeline throws, none otherwise. *)
Definition thrownWarning (gnssTimes : list Time) (recv : GnssReceiver) : option Event :=
  if isMyRank_ recv then
    match stationPipeline gnssTimes recv with
    | (Returns _, _, _) => None
    | (Throws e, recv1, _) => Some (logWarning (disabledMessage recv1 e))
    end
  else None.

(** A station on this rank whose pipeline returns and ends below the ratio of
    estimable epochs. *)
Definition droppedByRatio (gnssTimes : list Time) (recv : GnssReceiver) : bool :=
  isMyRank_ recv &&
  match stationPipeline gnssTimes recv with
  | (Returns disabled, _, _) => disabled
  | (Throws _, _, _) => false
  end.

(** ** init: the series of a receiver (lines 182-188) *)

(** All series of the receiver have one entry per epoch. *)
Definition sizedToEpochs (ts : list Time) (r : GnssReceiver) : Prop :=
  times r = ts
  /\ length (clk r) = length ts /\ length (pos r) = length ts
  /\ length (vel r) = length ts /\ length (offset r) = length ts
  /\ length (global2local r) = length ts /\ length (local2antenna r) = length ts.

(** ** Collaborators of simulation and of the tides and loading

    Functions called by [simulation] and by the last part of [init]. The
    signal types, the noise generators, the transmitters, the elevation
    cut-off, the Earth rotation and the ephemerides are part of the
    collaborator. *)
Class Environment : Type := {
  Rotary3d : Type;
  (** GnssReceiver::simulateObservations(..., minObsCountPerTrack,
      elevationCutOff, elevationTrackMinimum, ...) *)
  simulateObservations : nat -> Double -> Method GnssReceiver unit;
  (** readFileMatrix(deformationName, love) with love.column(0) and
      love.column(1) *)
  readDeformationLoveNumbers : FileName -> Outcome (list Double * list Double);
  (** readFileMatrix(potentialName, kn) *)
  readPotentialLoveNumbers : FileName -> Outcome (list Double);
  (** GnssReceiver::position(idEpoch) *)
  receiverPosition : GnssReceiver -> nat -> Vector3d;
  (** Planets::normalGravity *)
  normalGravity : Vector3d -> Double;
  (** EarthRotation::rotaryMatrix *)
  rotaryMatrix : Time -> Rotary3d;
  (** Tides::deformation(times, positions, rotEarth, earthRotation,
      ephemerides, gravity, hn, ln, disp): the displacements as the call
      leaves them *)
  tidesDeformation :
    list Time -> list Vector3d -> list Rotary3d -> list Double -> list Double -> list Double ->
    list (list Vector3d) -> Outcome (list (list Vector3d));
  (** Gravityfield::deformation(times, positions, gravity, hn, ln, disp) *)
  gravityfieldDeformation :
    list Time -> list Vector3d -> list Double -> list Double -> list Double ->
    list (list Vector3d) -> Outcome (list (list Vector3d));
  (** GnssReceiver::global2localFrame(idEpoch) and Transform3d::transform *)
  global2localFrame : GnssReceiver -> nat -> Transform3d;
  transform : Transform3d -> Vector3d -> Vector3d;
}.

Context `{Environment}.

(** ** simulation (lines 366-397)

    The lambda given to [Single::forEach]; the state is the member
    [receivers]:
    [[
    if(receivers.at(idRecv)->isMyRank())
    {
      try { receivers.at(idRecv)->simulateObservations(...); }
      catch(std::exception &e)
      {
        logWarning<<receivers.at(idRecv)->name()<<" disabled: "<<e.what()<<Log::endl;
        receivers.at(idRecv)->disable();
      }
    }
    ]]
    As in [preprocessing], [receivers.at] is outside the [try] and
    [Parallel::peek] is left out. There is no counter of disabled stations
    here. *)
Definition simulateStation (idRecv : nat) : M (list GnssReceiver) unit :=
  fun rs =>
    match rs !! idRecv with
    | None => (Throws out_of_range, rs, [])
    | Some recv =>
        if isMyRank_ recv then
          match simulateObservations (minObsCountPerTrack cfg) (elevationTrackMinimum cfg) recv with
          | (Returns _, recv1) => (Returns tt, <[idRecv := recv1]> rs, [])
          | (Throws e, recv1) =>
              (Returns tt, <[idRecv := disable recv1]> rs,
               [logWarning (disabledMessage recv1 e)])
          end
        else (Returns tt, rs, [])
    end.

Definition simulation : M (list GnssReceiver) unit :=
  (emit (logStatus "simulate observations") ;;
   rs <- get ;;
   forM_ (seq 0 (length rs)) simulateStation)%method.

(** What [simulation] makes of a receiver and the warning it writes for it,
    stated on their own. *)
Definition simulatedReceiver (recv : GnssReceiver) : GnssReceiver :=
  if isMyRank_ recv then
    match simulateObservations (minObsCountPerTrack cfg) (elevationTrackMinimum cfg) recv with
    | (Returns _, recv1) => recv1
    | (Throws _, recv1) => disable recv1
    end
  else recv.

Definition simulationWarning (recv : GnssReceiver) : list Event :=
  if isMyRank_ recv then
    match simulateObservations (minObsCountPerTrack cfg) (elevationTrackMinimum cfg) recv with
    | (Returns _, _) => []
    | (Throws e, recv1) => [logWarning (disabledMessage recv1 e)]
    end
  else [].

(** ** init: the load Love numbers (lines 250-268) *)

(** [hn(n) /= (1.+kn(n));] *)
Definition reduceLoveNumber (kn hn : list Double) (n : nat) : list Double :=
  match hn !! n, kn !! n with
  | Some h, Some k => <[n := (h / (1 + k))%float]> hn
  | _, _ => hn
  end.

(** [for(UInt n=2; n<std::min(kn.rows(), hn.rows()); n++) hn(n) /= (1.+kn(n));] *)
Definition reduceLoveNumbers (kn hn : list Double) : list Double :=
  foldl (reduceLoveNumber kn) hn (seq 2 (min (length kn) (length hn) - 2)).

(** The vectors [hn] and [ln] that are handed to the deformation models. *)
Definition loveNumbers (deformationName potentialName : FileName) :
    Outcome (list Double * list Double) :=
  if FileName_empty deformationName then Returns ([], [])
  else match readDeformationLoveNumbers deformationName with
       | Throws e => Throws e
       | Returns (hn, ln) =>
           if FileName_empty potentialName then Returns (hn, ln)
           else match readPotentialLoveNumbers potentialName with
                | Throws e => Throws e
                | Returns kn => Returns (reduceLoveNumbers kn hn, reduceLoveNumbers kn ln)
                end
       end.

(** The Love number of a degree as the loop leaves it. *)
Definition reducedLoveNumber (kn : list Double) (n : nat) (h : Double) : Double :=
  if decide (2 <= n) then
    match kn !! n with
    | Some k => (h / (1 + k))%float
    | None => h
    end
  else h.

(** ** init: tides and loading (lines 270-297) *)

Definition Vector3d_add (a b : Vector3d) : Vector3d :=
  match a, b with
  | (ax, ay, az), (bx, by_, bz) => (ax + bx, ay + by_, az + bz)%float
  end.

(** [recv->offset.at(idEpoch) += recv->global2localFrame(idEpoch).transform(disp.at(idx).at(idEpoch));] *)
Definition addDisplacement (disp : list (list Vector3d)) (idx idEpoch : nat) :
    M GnssReceiver unit :=
  fun recv =>
    match disp !! idx with
    | None => (Throws out_of_range, recv, [])
    | Some row =>
        match row !! idEpoch with
        | None => (Throws out_of_range, recv, [])
        | Some d =>
            match offset recv !! idEpoch with
            | None => (Throws out_of_range, recv, [])
            | Some o =>
                (Returns tt,
                 set_offset (<[idEpoch := Vector3d_add o (transform (global2localFrame recv idEpoch) d)]>
                               (offset recv)) recv,
                 [])
            end
        end
    end.

(** Lines 290-297: the loop over the receivers with the running index [idx]
    of the receivers on this rank. *)
Fixpoint addDisplacements (ts : list Time) (disp : list (list Vector3d)) (idx : nat)
    (receivers : list GnssReceiver) : Outcome (list GnssReceiver) :=
  match receivers with
  | [] => Returns []
  | recv :: rest =>
      if isMyRank_ recv then
        match forM_ (seq 0 (length ts)) (addDisplacement disp idx) recv with
        | (Returns _, recv1, _) =>
            match addDisplacements ts disp (S idx) rest with
            | Returns rest1 => Returns (recv1 :: rest1)
            | Throws e => Throws e
            end
        | (Throws e, _, _) => Throws e
        end
      else
        match addDisplacements ts disp idx rest with
        | Returns rest1 => Returns (recv :: rest1)
        | Throws e => Throws e
        end
  end.

(** Lines 270-273: the positions of the receivers on this rank. *)
Definition positionsOfMine (receivers : list GnssReceiver) : list Vector3d :=
  (fun recv => receiverPosition recv 0) <$> List.filter isMyRank_ receivers.

(** Lines 247-297 as a whole, on the member [receivers]: the last part of
    [init], behind the loop that stores the receivers. A vector of Vector3d
    is created with zeros. *)
Definition tidesAndLoading (ts : list Time) (deformationName potentialName : FileName)
    (receivers : list GnssReceiver) : Outcome (list GnssReceiver) :=
  match loveNumbers deformationName potentialName with
  | Throws e => Throws e
  | Returns (hn, ln) =>
      let positions := positionsOfMine receivers in
      let gravity := normalGravity <$> positions in
      let rotEarth := rotaryMatrix <$> ts in
      let disp := replicate (length positions) (replicate (length ts) Vector3d_zero) in
      match tidesDeformation ts positions rotEarth gravity hn ln disp with
      | Throws e => Throws e
      | Returns disp1 =>
          match gravityfieldDeformation ts positions gravity hn ln disp1 with
          | Throws e => Throws e
          | Returns disp2 => addDisplacements ts disp2 0 receivers
          end
      end
  end.

(** The offsets of a receiver after the displacements of the row [row] were
    added, and the receivers after the loop, stated on their own. *)
Definition displacedReceiver (ts : list Time) (row : list Vector3d) (recv : GnssReceiver) :
    GnssReceiver :=
  set_offset
    (imap (fun idEpoch o =>
             match row !! idEpoch with
             | Some d =>
                 if decide (idEpoch < length ts)
                 then Vector3d_add o (transform (global2localFrame recv idEpoch) d)
                 else o
             | None => o
             end) (offset recv)) recv.

(** The number of receivers on this rank among the first [i]. *)
Definition mineBefore (receivers : list GnssReceiver) (i : nat) : nat :=
  length (List.filter isMyRank_ (take i receivers)).

Definition displacedReceivers (ts : list Time) (disp : list (list Vector3d))
    (receivers : list GnssReceiver) : list GnssReceiver :=
  imap (fun i recv =>
          if isMyRank_ recv
          then displacedReceiver ts (default [] (disp !! mineBefore receivers i)) recv
          else recv) receivers.

End Model.

(** ** A small station network

    A concrete carrier and concrete collaborators on which the model runs.
    Times are epoch numbers; the observation store and the observation
    equations hold one code residual per epoch; a file name is its template
    followed by the station name. The behaviour of a station depends on its
    name:
    - the observation file of GONE does not exist;
    - the station info of NOINFO cannot be read;
    - readObservations throws for BADF and leaves no usable epoch for FEWO;
    - the clock estimation throws for CLCK.
    The first antenna of a station serves the epochs up to 4, the second
    one epoch 5, and later epochs have no antenna; the second antenna of the
    station info has no accuracy definition. The first antenna is in place
    from epoch 0 to epoch 5 and the second one from epoch 5 to epoch 6. *)
Module Toy.

#[export] Instance carrier : Carrier := {|
  Time := nat;
  Transform3d := unit;
  GnssAntennaDefinition := unit;
  ObservationStore := list Double;
  ObservationEquationList := list Double;
|}.

Definition stationInfo (marker : string) : GnssStationInfo :=
  {| markerName := marker;
     markerNumber := "00000M000";
     approxPosition := Vector3d_zero;
     antenna :=
       [ {| antennaDef := Some tt; accuracyDef := Some tt;
            position := (1, 2, 3)%float; local2antennaFrame := tt;
            timeStart := 0; timeEnd := 5 |};
         {| antennaDef := Some tt; accuracyDef := None;
            position := (1, 2, 3)%float; local2antennaFrame := tt;
            timeStart := 5; timeEnd := 6 |} ] |}.

Definition set_observations (sampling : Double) (residuals : list Double)
    (r : GnssReceiver) : GnssReceiver :=
  {| name := name r; isMyRank_ := isMyRank_ r; info := info r;
     useableEpochs := useableEpochs r; observationSampling := sampling;
     times := times r; clk := clk r; pos := pos r; vel := vel r; offset := offset r;
     global2local := global2local r; local2antenna := local2antenna r; obs := residuals |}.

Definition residualAt (eqn : list Double) (idEpoch : nat) : Double :=
  nth idEpoch eqn 0%float.

#[export] Instance collaborators : Collaborators := {|
  expand := fun f vars => f +:+ default EmptyString (vars !! "station");
  System_exists := fun path => negb (String.eqb path "obs.GONE");
  readFileGnssStationInfo := fun path =>
    if String.eqb path "info.NOINFO" then Throws "station info not found"
    else Returns (stationInfo path);
  fillAntennaPattern := Returns;
  fillReceiverDefinition := Returns;
  fillAntennaAccuracy := Returns;
  readStationPosition := fun _ _ => None;
  findAntenna := fun i t =>
    if decide (t <= 4) then (if decide (0 < length (antenna i)) then Some 0 else None)
    else if decide (t = 5) then (if decide (1 < length (antenna i)) then Some 1 else None)
    else None;
  referencePoint := fun _ _ => Vector3d_zero;
  inverse_localNorthEastUp := fun _ => tt;
  Transform3d_default := tt;
  medianSampling_seconds := fun _ => 30%float;
  ObservationStore_empty := [];
  observationSampling_initial := 0%float;
  readObservations := fun fileName recv =>
    if String.eqb fileName "obs.BADF" then (Throws "unable to read observations", recv)
    else if String.eqb fileName "obs.FEWO"
         then (Returns tt, disable (set_observations 30%float [] recv))
         else (Returns tt, set_observations 30%float [10; 150; 20; 5]%float recv);
  createTracks := fun _ recv => (Returns tt, recv);
  estimateInitialClockErrorFromCodeObservations := fun _ _ _ _ recv =>
    if String.eqb (name recv) "CLCK" then (Throws "no clock solution", recv)
    else (Returns tt, recv);
  newObservationEquationList := fun recv => (Returns (obs recv), recv);
  disableEpochsWithGrossCodeObservationOutliers := grossOutlierRejector residualAt;
  writeTracks := fun _ _ recv => (Returns tt, recv);
  cycleSlipsDetection := fun eqn _ _ _ _ recv => (Returns eqn, recv);
  removeLowElevationTracks := fun eqn _ recv => (Returns eqn, recv);
  trackOutlierDetection := fun eqn _ _ recv => (Returns eqn, recv);
  cycleSlipsRepairAtSameFrequency := fun eqn recv => (Returns eqn, recv);
  codeResidual := residualAt;
  Time_gt := fun a b => Nat.ltb b a;
  Time_le := Nat.leb;
  GnssAntennaInfo_str := fun ant => "antenna from epoch " +:+ pretty (timeStart ant);
|}.

(** The reference configuration: the defaults of the constructor. *)
Definition cfg : Config :=
  {| fileNameStationInfo := "info.";
     fileNameStationPosition := EmptyString;
     fileNameObs := "obs.";
     maxStationCount := 100;
     elevationTrackMinimum := 15%float;
     minObsCountPerTrack := 60;
     minEstimableEpochsRatio := 0.75%float;
     huber := 2.5%float;
     huberPower := 1.5%float;
     codeMaxPosDiff := 100%float;
     denoisingLambda := 5%float;
     tecWindowSize := 15;
     tecSigmaFactor := 3.5%float;
     fileNameTrackBefore := EmptyString;
     fileNameTrackAfter := EmptyString |}.

(** Four epochs. *)
Definition epochs : list Time := [0; 1; 2; 3].

(** A receiver as [init] leaves it on its own worker: observations read,
    sampling 30 s, all four epochs usable. *)
Definition receiver (stationName : string) (mine : bool) : GnssReceiver :=
  {| name := stationName; isMyRank_ := mine; info := stationInfo stationName;
     useableEpochs := [true; true; true; true]; observationSampling := 30%float;
     times := epochs; clk := []; pos := []; vel := []; offset := [];
     global2local := []; local2antenna := []; obs := [10; 150; 20; 5]%float |}.

(** The configuration of a simulation: no observation files, and at most one
    station. *)
Definition cfgSimulation : Config :=
  {| fileNameStationInfo := "info.";
     fileNameStationPosition := EmptyString;
     fileNameObs := EmptyString;
     maxStationCount := 1;
     elevationTrackMinimum := 15%float;
     minObsCountPerTrack := 60;
     minEstimableEpochsRatio := 0.75%float;
     huber := 2.5%float;
     huberPower := 1.5%float;
     codeMaxPosDiff := 100%float;
     denoisingLambda := 5%float;
     tecWindowSize := 15;
     tecSigmaFactor := 3.5%float;
     fileNameTrackBefore := EmptyString;
     fileNameTrackAfter := EmptyString |}.

(** The environment: simulateObservations throws for the station NOSIM; the
    potential file holds kn of the degrees 0 to 2; the tidal displacement of
    a position is the position itself at every epoch and the loading adds
    nothing; the local frame is the global frame. *)
#[export] Instance environment : Environment := {|
  Rotary3d := unit;
  simulateObservations := fun _ _ recv =>
    if String.eqb (name recv) "NOSIM" then (Throws "no transmitter in view", recv)
    else (Returns tt, set_observations 30%float [1; 2; 3; 4]%float recv);
  readDeformationLoveNumbers := fun _ =>
    Returns ([1; 2; 3; 4]%float, [5; 6; 7; 8]%float);
  readPotentialLoveNumbers := fun _ => Returns [0; 0; 1]%float;
  receiverPosition := fun recv idEpoch => default Vector3d_zero (pos recv !! idEpoch);
  normalGravity := fun _ => 9.75%float;
  rotaryMatrix := fun _ => tt;
  tidesDeformation := fun _ positions _ _ _ _ disp =>
    Returns (zip_with (fun p row => (fun d => Vector3d_add d p) <$> row) positions disp);
  gravityfieldDeformation := fun _ _ _ _ _ disp => Returns disp;
  global2localFrame := fun _ _ => tt;
  transform := fun _ d => d;
|}.

(** A receiver as init holds it before tides and loading: one position and
    one offset per epoch. *)
Definition positioned (stationName : string) (mine : bool) (p o : Vector3d) : GnssReceiver :=
  {| name := stationName; isMyRank_ := mine; info := stationInfo stationName;
     useableEpochs := [true; true; true; true]; observationSampling := 30%float;
     times := epochs; clk := replicate 4 0%float; pos := replicate 4 p;
     vel := replicate 4 Vector3d_zero; offset := replicate 4 o;
     global2local := replicate 4 tt; local2antenna := replicate 4 tt;
     obs := [10; 150; 20; 5]%float |}.

End Toy.
End StationNetwork.

(** * The signal biases: gnssParametrizationSignalBiases.cpp *)

Module SignalBiases.

Class Carrier : Type := {
  GnssType : Type;
}.

Section Model.
Context `{Carrier}.

(** GnssSignalBias: the bias of each signal type, in meters. A bias is a
    double; it is held as the rational number that the double is. *)
Record GnssSignalBias : Type := {
  types : list GnssType;
  biases : list Q;
}.

(** The members of a transmitter or receiver that the parametrization
    touches; [id] is idTrans() or idRecv(). *)
Record GnssTransceiver : Type := {
  name : string;
  id : nat;
  isMyRank : bool;
  useableEpochs : list bool;
  signalBias : GnssSignalBias;
}.

Definition set_signalBias (sb : GnssSignalBias) (t : GnssTransceiver) : GnssTransceiver :=
  {| name := name t; id := id t; isMyRank := isMyRank t;
     useableEpochs := useableEpochs t; signalBias := sb |}.

(** Modelled from the spec: useable() of a transmitter or receiver is
    missing. The object is usable while one of its epochs is. *)
Definition useable (t : GnssTransceiver) : bool :=
  existsb (fun b => b) (useableEpochs t).

(** Modelled from the spec: disable() of a transmitter or receiver is missing.
    The object is disabled wholesale: all epochs are cleared. *)
Definition disable (t : GnssTransceiver) : GnssTransceiver :=
  {| name := name t; id := id t; isMyRank := isMyRank t;
     useableEpochs := replicate (length (useableEpochs t)) false;
     signalBias := signalBias t |}.

Record Gnss : Type := {
  transmitters : list GnssTransceiver;
  receivers : list GnssTransceiver;
}.

Definition set_transmitters (ts : list GnssTransceiver) (g : Gnss) : Gnss :=
  {| transmitters := ts; receivers := receivers g |}.

Definition set_receivers (rs : list GnssTransceiver) (g : Gnss) : Gnss :=
  {| transmitters := transmitters g; receivers := rs |}.

(** Collaborators of the parametrization. *)
Class Collaborators : Type := {
  (** FileName::operator()(VariableList) and FileName::appendBaseName *)
  expand : FileName -> VariableList -> string;
  appendBaseName : string -> string -> string;
  (** selectTransmitters->select and selectReceivers->select *)
  selectTransmitters : list GnssTransceiver -> list bool;
  selectReceivers : list GnssTransceiver -> list bool;
  (** readFileGnssSignalBias: the content of the file, or an exception *)
  readFileGnssSignalBias : string -> Outcome GnssSignalBias;
  (** type == GnssType::PHASE and type.frequency() *)
  isPhase : GnssType -> bool;
  frequency : GnssType -> Double;
  LIGHT_VELOCITY : Double;
}.

Context `{Collaborators}.

Record Config : Type := {
  fileNameOutTransmitter : FileName;
  fileNameOutReceiver : FileName;
  fileNameInTransmitter : FileName;
  fileNameInReceiver : FileName;
}.

Variable cfg : Config.

(** ** init *)

Definition unableToRead (fileName kind : string) : string :=
  "Unable to read signal bias file <" +:+ fileName +:+ ">, disabling " +:+ kind +:+ ".".

(** The variable list of a block: one variable, set to the name of the
    object. *)
Definition variables (var value : string) : VariableList :=
  setValue var value (addVariable var ∅).

(** One pass of the loop over the transmitters, lines 55-67. When the read
    throws, the stored bias is taken to be as it was. *)
Definition initTransmitter (selected : list bool) (idTrans : nat) : M Gnss unit :=
  fun gnss =>
    match selected !! idTrans with
    | None => (Throws out_of_range, gnss, [])
    | Some sel =>
        match transmitters gnss !! idTrans with
        | None => (Throws out_of_range, gnss, [])
        | Some trans =>
            if sel && useable trans then
              let vars := variables "prn" (name trans) in
              let fileName := expand (fileNameInTransmitter cfg) vars in
              match readFileGnssSignalBias fileName with
              | Returns sb =>
                  (Returns tt,
                   set_transmitters (<[idTrans := set_signalBias sb trans]> (transmitters gnss)) gnss,
                   [Call (op_readFileGnssSignalBias fileName)])
              | Throws _ =>
                  (Returns tt,
                   set_transmitters (<[idTrans := disable trans]> (transmitters gnss)) gnss,
                   [Call (op_readFileGnssSignalBias fileName);
                    logWarningOnce
                      (unableToRead (expand (fileNameInTransmitter cfg) vars) "transmitter")])
              end
            else (Returns tt, gnss, [])
        end
    end.

(** One pass of the loop over the receivers, lines 76-88: the file that is
    read is named by [fileNameInTransmitter], the warning names the file of
    [fileNameInReceiver]. *)
Definition initReceiver (selected : list bool) (idRecv : nat) : M Gnss unit :=
  fun gnss =>
    match selected !! idRecv with
    | None => (Throws out_of_range, gnss, [])
    | Some sel =>
        match receivers gnss !! idRecv with
        | None => (Throws out_of_range, gnss, [])
        | Some recv =>
            if sel && useable recv then
              let vars := variables "station" (name recv) in
              let fileName := expand (fileNameInTransmitter cfg) vars in
              match readFileGnssSignalBias fileName with
              | Returns sb =>
                  (Returns tt,
                   set_receivers (<[idRecv := set_signalBias sb recv]> (receivers gnss)) gnss,
                   [Call (op_readFileGnssSignalBias fileName)])
              | Throws _ =>
                  (Returns tt,
                   set_receivers (<[idRecv := disable recv]> (receivers gnss)) gnss,
                   [Call (op_readFileGnssSignalBias fileName);
                    logWarningOnce
                      (unableToRead (expand (fileNameInReceiver cfg) vars) "receiver")])
              end
            else (Returns tt, gnss, [])
        end
    end.

Definition initTransmitters : M Gnss unit :=
  fun gnss =>
    if FileName_empty (fileNameInTransmitter cfg) then (Returns tt, gnss, [])
    else forM_ (seq 0 (length (transmitters gnss)))
               (initTransmitter (selectTransmitters (transmitters gnss))) gnss.

Definition initReceivers : M Gnss unit :=
  fun gnss =>
    if FileName_empty (fileNameInReceiver cfg) then (Returns tt, gnss, [])
    else forM_ (seq 0 (length (receivers gnss)))
               (initReceiver (selectReceivers (receivers gnss))) gnss.

Definition init : M Gnss unit :=
  (initTransmitters ;; initReceivers)%method.

(** What a pass of the receiver loop makes of a receiver and which events it
    leaves, stated on its own. *)
Definition receiverBiasFile (recv : GnssTransceiver) : string :=
  expand (fileNameInTransmitter cfg) (variables "station" (name recv)).

Definition receiverAfterInit (sel : bool) (recv : GnssTransceiver) : GnssTransceiver :=
  if sel && useable recv then
    match readFileGnssSignalBias (receiverBiasFile recv) with
    | Returns sb => set_signalBias sb recv
    | Throws _ => disable recv
    end
  else recv.

Definition receiverInitEvents (sel : bool) (recv : GnssTransceiver) : list Event :=
  if sel && useable recv then
    Call (op_readFileGnssSignalBias (receiverBiasFile recv)) ::
    match readFileGnssSignalBias (receiverBiasFile recv) with
    | Returns _ => []
    | Throws _ =>
        [logWarningOnce
           (unableToRead (expand (fileNameInReceiver cfg) (variables "station" (name recv)))
                         "receiver")]
    end
  else [].

(** ** writeResults *)

(** [std::remainder(x, y)]: x - n*y, where n is the integer nearest to the
    exact quotient x/y, the even one of two nearest. For finite doubles x and
    y <> 0 the result is a double, so the function of the C library returns
    it without rounding. For y = 0 or a NaN the function of the C library
    yields NaN; the model is meant for finite operands and y <> 0. *)
Definition roundHalfEven (q : Q) : Z :=
  let f := Qfloor q in
  match Qcompare (q - inject_Z f) (1 # 2) with
  | Lt => f
  | Gt => (f + 1)%Z
  | Eq => if Z.even f then f else (f + 1)%Z
  end.

Definition remainder (x y : Q) : Q :=
  (x - inject_Z (roundHalfEven (x / y)) * y)%Q.

(** [LIGHT_VELOCITY/signalBias.types.at(idType).frequency()]: the quotient
    of two doubles, rounded to a double. *)
Definition wavelength (type : GnssType) : Q :=
  Double_value (LIGHT_VELOCITY / frequency type)%float.

(** The body of the loop over the types, lines 117-118, on the local copy. *)
Definition wrapBias (idType : nat) (sb : GnssSignalBias) : Outcome GnssSignalBias :=
  match types sb !! idType with
  | None => Throws out_of_range
  | Some type =>
      if isPhase type then
        match biases sb !! idType with
        | None => Throws out_of_range
        | Some b =>
            Returns {| types := types sb;
                       biases := <[idType := remainder b (wavelength type)]> (biases sb) |}
        end
      else Returns sb
  end.

Fixpoint wrapBiases (ids : list nat) (sb : GnssSignalBias) : Outcome GnssSignalBias :=
  match ids with
  | [] => Returns sb
  | idType :: rest =>
      match wrapBias idType sb with
      | Returns sb1 => wrapBiases rest sb1
      | Throws e => Throws e
      end
  end.

Definition wrapPhaseBiases (sb : GnssSignalBias) : Outcome GnssSignalBias :=
  wrapBiases (seq 0 (length (types sb))) sb.

(** The biases as they are written, stated on their own. *)
Definition wrappedBias (stored : GnssSignalBias) (idType : nat) (b : Q) : Q :=
  match types stored !! idType with
  | Some type => if isPhase type then remainder b (wavelength type) else b
  | None => b
  end.

(** The biases of the local copy after the first [m] types. *)
Definition wrappedUpTo (stored : GnssSignalBias) (m : nat) : list Q :=
  imap (fun idType b => if decide (idType < m) then wrappedBias stored idType b else b)
       (biases stored).

(** The copy that is written: the types of the stored bias, and every bias
    taken through [wrappedBias]. *)
Definition writtenBias (stored : GnssSignalBias) : GnssSignalBias :=
  {| types := types stored; biases := imap (wrappedBias stored) (biases stored) |}.

(** What [writeResults] reads of the normal equation info. *)
Record GnssNormalEquationInfo : Type := {
  isEnabled : bool;
  isEachReceiverSeparately : bool;
  isMaster : bool;
  estimateReceiver : list bool;
}.

(** The state that [writeResults] runs in: the GNSS objects and the files
    written. *)
Record World : Type := {
  gnss : Gnss;
  files : list (string * GnssSignalBias);
}.

(** What holds of a world reached from [w0] by [writeResults]: the GNSS
    objects are those of [w0], and every file added holds the written copy of
    the stored bias of one of them. *)
Definition writtenFrom (w0 w : World) : Prop :=
  gnss w = gnss w0
  /\ exists new,
       files w = files w0 ++ new
       /\ Forall (fun file =>
                    exists t, (t ∈ transmitters (gnss w0) \/ t ∈ receivers (gnss w0))
                              /\ file.2 = writtenBias (signalBias t)) new.

Definition writeFileGnssSignalBias (fileName : string) (sb : GnssSignalBias) : M World unit :=
  modify (fun w => {| gnss := gnss w; files := files w ++ [(fileName, sb)] |}).

(** Lines 113-121. *)
Definition writeTransmitter (selected : list bool) (suffix : string) (trans : GnssTransceiver) :
    M World unit :=
  if useable trans then
    match selected !! id trans with
    | None => throw out_of_range
    | Some true =>
        match wrapPhaseBiases (signalBias trans) with
        | Throws e => throw e
        | Returns sb =>
            writeFileGnssSignalBias
              (appendBaseName (expand (fileNameOutTransmitter cfg)
                                      (setValue "prn" (name trans) (<["prn" := "***"]> ∅)))
                              suffix) sb
        end
    | Some false => ret tt
    end
  else ret tt.

(** Lines 131-139. *)
Definition writeReceiver (info : GnssNormalEquationInfo) (selected : list bool)
    (suffix : string) (recv : GnssTransceiver) : M World unit :=
  if isMyRank recv then
    match selected !! id recv with
    | None => throw out_of_range
    | Some true =>
        match estimateReceiver info !! id recv with
        | None => throw out_of_range
        | Some true =>
            match wrapPhaseBiases (signalBias recv) with
            | Throws e => throw e
            | Returns sb =>
                writeFileGnssSignalBias
                  (appendBaseName (expand (fileNameOutReceiver cfg)
                                          (setValue "station" (name recv)
                                                    (<["station" := "****"]> ∅)))
                                  suffix) sb
            end
        | Some false => ret tt
        end
    | Some false => ret tt
    end
  else ret tt.

Definition writeTransmitters (info : GnssNormalEquationInfo) (suffix : string) : M World unit :=
  if negb (FileName_empty (fileNameOutTransmitter cfg))
     && negb (isEachReceiverSeparately info) && isMaster info
  then
    (emit (logStatus ("write transmitter signal biases to files <"
                        +:+ appendBaseName (expand (fileNameOutTransmitter cfg)
                                                   (<["prn" := "***"]> ∅)) suffix
                        +:+ ">")) ;;
     w <- get ;;
     forM_ (transmitters (gnss w))
           (writeTransmitter (selectTransmitters (transmitters (gnss w))) suffix))%method
  else ret tt.

Definition writeReceivers (info : GnssNormalEquationInfo) (suffix : string) : M World unit :=
  if negb (FileName_empty (fileNameOutReceiver cfg))
  then
    (emit (logStatus ("write receiver signal biases to files <"
                        +:+ appendBaseName (expand (fileNameOutReceiver cfg)
                                                   (<["station" := "****"]> ∅)) suffix
                        +:+ ">")) ;;
     w <- get ;;
     forM_ (receivers (gnss w))
           (writeReceiver info (selectReceivers (receivers (gnss w))) suffix))%method
  else ret tt.

Definition writeResults (info : GnssNormalEquationInfo) (suffix : string) : M World unit :=
  if negb (isEnabled info) then ret tt
  else (writeTransmitters info suffix ;; writeReceivers info suffix)%method.

(** ** init and writeResults, stated on their own *)

(** What a pass of the transmitter loop makes of a transmitter and which
    events it leaves. *)
Definition transmitterBiasFile (trans : GnssTransceiver) : string :=
  expand (fileNameInTransmitter cfg) (variables "prn" (name trans)).

Definition transmitterAfterInit (sel : bool) (trans : GnssTransceiver) : GnssTransceiver :=
  if sel && useable trans then
    match readFileGnssSignalBias (transmitterBiasFile trans) with
    | Returns sb => set_signalBias sb trans
    | Throws _ => disable trans
    end
  else trans.

Definition transmitterInitEvents (sel : bool) (trans : GnssTransceiver) : list Event :=
  if sel && useable trans then
    Call (op_readFileGnssSignalBias (transmitterBiasFile trans)) ::
    match readFileGnssSignalBias (transmitterBiasFile trans) with
    | Returns _ => []
    | Throws _ => [logWarningOnce (unableToRead (transmitterBiasFile trans) "transmitter")]
    end
  else [].

(** The transmitters, the receivers and the events after [init], when both
    selections cover their lists. *)
Definition transmittersAfterInit (g : Gnss) : list GnssTransceiver :=
  if FileName_empty (fileNameInTransmitter cfg) then transmitters g
  else zip_with transmitterAfterInit (selectTransmitters (transmitters g)) (transmitters g).

Definition receiversAfterInit (g : Gnss) : list GnssTransceiver :=
  if FileName_empty (fileNameInReceiver cfg) then receivers g
  else zip_with receiverAfterInit (selectReceivers (receivers g)) (receivers g).

Definition initLog (g : Gnss) : list Event :=
  (if FileName_empty (fileNameInTransmitter cfg) then []
   else concat (zip_with transmitterInitEvents (selectTransmitters (transmitters g))
                         (transmitters g)))
  ++ (if FileName_empty (fileNameInReceiver cfg) then []
      else concat (zip_with receiverInitEvents (selectReceivers (receivers g)) (receivers g))).

(** The stored bias holds a value for each of its types. *)
Definition complete (sb : GnssSignalBias) : Prop :=
  length (types sb) <= length (biases sb).

(** The files of [writeResults]: their names and what decides whether the
    file of a transmitter or receiver is written. *)
Definition transmitterFileName (suffix : string) (trans : GnssTransceiver) : string :=
  appendBaseName (expand (fileNameOutTransmitter cfg)
                         (setValue "prn" (name trans) (<["prn" := "***"]> ∅))) suffix.

Definition receiverFileName (suffix : string) (recv : GnssTransceiver) : string :=
  appendBaseName (expand (fileNameOutReceiver cfg)
                         (setValue "station" (name recv) (<["station" := "****"]> ∅))) suffix.

Definition writesTransmitters (info : GnssNormalEquationInfo) : bool :=
  negb (FileName_empty (fileNameOutTransmitter cfg))
  && negb (isEachReceiverSeparately info) && isMaster info.

Definition transmitterFile (selected : list bool) (suffix : string) (trans : GnssTransceiver) :
    option (string * GnssSignalBias) :=
  if useable trans && default false (selected !! id trans)
  then Some (transmitterFileName suffix trans, writtenBias (signalBias trans))
  else None.

Definition receiverFile (info : GnssNormalEquationInfo) (selected : list bool)
    (suffix : string) (recv : GnssTransceiver) : option (string * GnssSignalBias) :=
  if isMyRank recv && default false (selected !! id recv)
     && default false (estimateReceiver info !! id recv)
  then Some (receiverFileName suffix recv, writtenBias (signalBias recv))
  else None.

Definition filesWritten (info : GnssNormalEquationInfo) (suffix : string) (g : Gnss) :
    list (string * GnssSignalBias) :=
  if isEnabled info then
    (if writesTransmitters info
     then omap (transmitterFile (selectTransmitters (transmitters g)) suffix) (transmitters g)
     else [])
    ++ (if FileName_empty (fileNameOutReceiver cfg) then []
        else omap (receiverFile info (selectReceivers (receivers g)) suffix) (receivers g))
  else [].

Definition statusLines (info : GnssNormalEquationInfo) (suffix : string) : list Event :=
  if isEnabled info then
    (if writesTransmitters info
     then [logStatus ("write transmitter signal biases to files <"
                        +:+ appendBaseName (expand (fileNameOutTransmitter cfg)
                                                   (<["prn" := "***"]> ∅)) suffix
                        +:+ ">")]
     else [])
    ++ (if FileName_empty (fileNameOutReceiver cfg) then []
        else [logStatus ("write receiver signal biases to files <"
                           +:+ appendBaseName (expand (fileNameOutReceiver cfg)
                                                      (<["station" := "****"]> ∅)) suffix
                           +:+ ">")])
  else [].

End Model.

(** ** A small constellation

    Signal types L1 and L2 (phase) and C1 (code). A file name is its template
    followed by the value of the variable. The bias files of the transmitter
    G01 and of the station GRAZ exist. *)
Module Toy.

Inductive SignalType : Type := L1 | L2 | C1.

#[export] Instance carrier : Carrier := {| GnssType := SignalType |}.

Definition bias (l1 c1 : Q) : GnssSignalBias :=
  {| types := [L1; C1]; biases := [l1; c1] |}.

#[export] Instance collaborators : Collaborators := {|
  expand := fun f vars =>
    f +:+ default (default EmptyString (vars !! "prn")) (vars !! "station");
  appendBaseName := fun fileName suffix => fileName +:+ suffix;
  selectTransmitters := fun l => (fun _ => true) <$> l;
  selectReceivers := fun l => (fun _ => true) <$> l;
  readFileGnssSignalBias := fun fileName =>
    if String.eqb fileName "biasTransmitter.G01" then Returns (bias 3 4)
    else if String.eqb fileName "biasReceiver.GRAZ" then Returns (bias 5 6)
    else Throws "file not found";
  isPhase := fun type => match type with C1 => false | _ => true end;
  frequency := fun type =>
    match type with L2 => 1227600000%float | _ => 1575420000%float end;
  LIGHT_VELOCITY := 299792458%float;
|}.

Definition cfg : Config :=
  {| fileNameOutTransmitter := "outTransmitter.";
     fileNameOutReceiver := "outReceiver.";
     fileNameInTransmitter := "biasTransmitter.";
     fileNameInReceiver := "biasReceiver." |}.

Definition G01 : GnssTransceiver :=
  {| name := "G01"; id := 0; isMyRank := true; useableEpochs := [true; true];
     signalBias := bias 1 25 |}.

Definition GRAZ : GnssTransceiver :=
  {| name := "GRAZ"; id := 0; isMyRank := true; useableEpochs := [true; true];
     signalBias := bias 0 0 |}.

Definition constellation : Gnss :=
  {| transmitters := [G01]; receivers := [GRAZ] |}.

(** A second transmitter, without a bias file. *)
Definition G02 : GnssTransceiver :=
  {| name := "G02"; id := 1; isMyRank := true; useableEpochs := [true; true];
     signalBias := bias 2 26 |}.

(** The same collaborators with a transmitter selector that answers for the
    first transmitter only. *)
Definition shortSelection : Collaborators :=
  {| expand := fun f vars =>
       f +:+ default (default EmptyString (vars !! "prn")) (vars !! "station");
     appendBaseName := fun fileName suffix => fileName +:+ suffix;
     selectTransmitters := fun l => take 1 ((fun _ => true) <$> l);
     selectReceivers := fun l => (fun _ => true) <$> l;
     readFileGnssSignalBias := fun fileName =>
       if String.eqb fileName "biasTransmitter.G01" then Returns (bias 3 4)
       else Throws "file not found";
     isPhase := fun type => match type with C1 => false | _ => true end;
     frequency := fun type =>
       match type with L2 => 1227600000%float | _ => 1575420000%float end;
     LIGHT_VELOCITY := 299792458%float |}.

End Toy.
End SignalBiases.

(** * Properties *)

Import StationNetwork.

(** ** Facts about loops in the method monad *)

Lemma forM_snoc {S X} (xs : list X) (x : X) (body : X -> M S unit) (s s1 s2 : S)
    (ev1 ev2 : list Event) :
  forM_ xs body s = (Returns tt, s1, ev1) ->
  body x s1 = (Returns tt, s2, ev2) ->
  forM_ (xs ++ [x]) body s = (Returns tt, s2, ev1 ++ ev2).
Proof.
  revert s ev1. induction xs as [|y xs IH]; intros s ev1 Hxs Hx; simpl in *.
  - unfold ret in Hxs. injection Hxs as <- <-.
    unfold bind, ret. rewrite Hx. by rewrite app_nil_r.
  - unfold bind in *.
    destruct (body y s) as [[[u|e] s0] ev0]; [|done].
    destruct (forM_ xs body s0) as [[o s3] ev3] eqn:Hrest.
    injection Hxs as -> -> <-.
    rewrite (IH s0 ev3 Hrest Hx). by rewrite app_assoc.
Qed.

Lemma forM_preserves {S X} (P : S -> Prop) (body : X -> M S unit) (xs : list X) (s : S) :
  (forall x s0, P s0 -> P (body x s0).1.2) ->
  P s -> P (forM_ xs body s).1.2.
Proof.
  intros Hbody. revert s. induction xs as [|x xs IH]; intros s Hs; simpl; [done|].
  unfold bind. specialize (Hbody x s Hs).
  destruct (body x s) as [[[u|e] s1] ev1]; simpl in *; [|done].
  specialize (IH s1 Hbody).
  by destruct (forM_ xs body s1) as [[o s2] ev2].
Qed.

Lemma forM_preserves_elem {S X} (P : S -> Prop) (body : X -> M S unit) (xs : list X) (s : S) :
  (forall x s0, x ∈ xs -> P s0 -> P (body x s0).1.2) ->
  P s -> P (forM_ xs body s).1.2.
Proof.
  revert s. induction xs as [|x xs IH]; intros s Hbody Hs; simpl; [done|].
  unfold bind. pose proof (Hbody x s (list_elem_of_here _ _) Hs) as Hx.
  destruct (body x s) as [[[u|e] s1] ev1]; simpl in *; [|done].
  assert (IH' : P (forM_ xs body s1).1.2).
  { apply IH; [|done]. intros y s0 Hy. apply Hbody. by apply list_elem_of_further. }
  by destruct (forM_ xs body s1) as [[o s2] ev2].
Qed.

(** A loop over the indices of a list whose pass [i] rewrites entry [i] alone:
    after [m] passes the first [m] entries are rewritten, in order, and the
    events are those of the passes. *)
Lemma forM_in_place {A} (f : A -> A) (g : A -> list Event) (body : nat -> M (list A) unit)
    (rs : list A) (m : nat) :
  (forall i rs0 x, rs0 !! i = Some x -> body i rs0 = (Returns tt, <[i := f x]> rs0, g x)) ->
  m <= length rs ->
  forM_ (seq 0 m) body rs =
  (Returns tt, (f <$> take m rs) ++ drop m rs, concat (g <$> take m rs)).
Proof.
  intros Hbody. induction m as [|m IH]; intros Hm.
  - simpl. by rewrite drop_0.
  - destruct (lookup_lt_is_Some_2 rs m) as [x Hx]; [lia|].
    rewrite seq_S. simpl.
    erewrite forM_snoc; [|apply IH; lia|apply (Hbody _ _ x)].
    + rewrite (take_S_r _ _ _ Hx), !fmap_app, concat_app. simpl. rewrite app_nil_r.
      do 2 f_equal.
      rewrite insert_app_r_alt by (rewrite length_fmap, length_take; lia).
      rewrite length_fmap, length_take. replace (m - m `min` length rs) with 0 by lia.
      rewrite (drop_S _ _ _ Hx). simpl. by rewrite <- app_assoc.
    + rewrite lookup_app_r by (rewrite length_fmap, length_take; lia).
      rewrite length_fmap, length_take. replace (m - m `min` length rs) with 0 by lia.
      by rewrite lookup_drop, Nat.add_0_r.
Qed.

Lemma forM_app {S X} (xs ys : list X) (body : X -> M S unit) (s : S) :
  forM_ (xs ++ ys) body s = bind (forM_ xs body) (fun _ => forM_ ys body) s.
Proof.
  revert s. induction xs as [|x xs IH]; intros s; simpl.
  - unfold bind, ret. by destruct (forM_ ys body s) as [[o s1] ev].
  - unfold bind in *. destruct (body x s) as [[[u|e] s1] ev1]; [|done].
    rewrite IH. destruct (forM_ xs body s1) as [[[u2|e2] s2] ev2]; [|done].
    destruct (forM_ ys body s2) as [[o s3] ev3]. by rewrite app_assoc.
Qed.

(** ** Facts about doubles and the usability mask *)

(** Two doubles that compare equal are not strictly ordered. *)
Lemma Double_eqb_not_ltb (x y : Double) :
  (x =? y)%float = true -> (x <? y)%float = false.
Proof.
  rewrite FloatAxioms.eqb_spec, FloatAxioms.ltb_spec.
  unfold SFeqb, SFltb.
  destruct (SFcompare _ _) as [[]|]; congruence.
Qed.

Lemma SFcompare_antisym (x y : spec_float) :
  SFcompare y x = option_map CompOpp (SFcompare x y).
Proof.
  destruct x as [sx|sx| |sx mx ex], y as [sy|sy| |sy my ey]; simpl; try done;
    try (by destruct sx); try (by destruct sy); try (by destruct sx, sy).
  destruct sx, sy; simpl; try done.
  - rewrite (Z.compare_antisym ey ex).
    destruct (ey ?= ex)%Z; simpl; try done.
    f_equal. f_equal. symmetry. apply (Pos.compare_cont_antisym mx my Eq).
  - rewrite (Z.compare_antisym ey ex).
    destruct (ey ?= ex)%Z; simpl; try done.
    f_equal. symmetry. apply (Pos.compare_cont_antisym mx my Eq).
Qed.

Lemma SFcompare_Some (x y : spec_float) :
  SFeqb x x = true -> SFeqb y y = true -> exists c, SFcompare x y = Some c.
Proof.
  destruct x as [sx|sx| |sx mx ex], y as [sy|sy| |sy my ey]; simpl; try done; eauto.
Qed.

(** For doubles that are numbers (x == x holds for every double but NaN),
    "not x < y" is "x >= y". *)
Lemma Double_not_ltb (x y : Double) :
  (x =? x)%float = true -> (y =? y)%float = true ->
  negb (x <? y)%float = (y <=? x)%float.
Proof.
  rewrite !FloatAxioms.eqb_spec, FloatAxioms.ltb_spec, FloatAxioms.leb_spec.
  intros Hx Hy. destruct (SFcompare_Some _ _ Hx Hy) as [c Hc].
  unfold SFltb, SFleb. rewrite (SFcompare_antisym (Prim2SF x) (Prim2SF y)), Hc.
  by destruct c.
Qed.

Section MaskFacts.
Context `{Carrier}.

Lemma useable_epoch_disable (recv : GnssReceiver) (idEpoch : nat) :
  useable_epoch (disable recv) idEpoch = false.
Proof.
  unfold useable_epoch, disable; simpl.
  destruct (replicate _ _ !! idEpoch) as [b|] eqn:E; [|done].
  by apply lookup_replicate in E as [-> _].
Qed.

Lemma useable_disable (recv : GnssReceiver) : useable (disable recv) = false.
Proof.
  unfold useable, disable; simpl.
  induction (length (useableEpochs recv)) as [|n IH]; [done|]. by simpl.
Qed.

Lemma useable_epoch_disable_epoch (recv : GnssReceiver) (i j : nat) :
  useable_epoch (disable_epoch i recv) j =
  if decide (i = j) then false else useable_epoch recv j.
Proof.
  unfold useable_epoch, disable_epoch; simpl.
  destruct (decide (i = j)) as [->|Hne].
  - destruct (decide (j < length (useableEpochs recv))).
    + by rewrite list_lookup_insert_eq.
    + rewrite list_insert_ge by lia. by rewrite lookup_ge_None_2 by lia.
  - by rewrite list_lookup_insert_ne.
Qed.

End MaskFacts.

(** ** preprocessing *)

Section PreprocessingProperties.
Context `{Collaborators}.
Variable cfg : Config.

Lemma evaluateUsability_run (ts : list Time) (recv : GnssReceiver) :
  evaluateUsability cfg ts recv =
  (Returns (tooFewEpochs cfg recv ts),
   if tooFewEpochs cfg recv ts then disable recv else recv, []).
Proof.
  unfold evaluateUsability, bind, get, modify, ret.
  by destruct (tooFewEpochs cfg recv ts).
Qed.

(** The pipeline applies the usability test to the receiver as the stages
    left it. *)
Lemma stationPipeline_run (ts : list Time) (recv : GnssReceiver) :
  stationPipeline cfg ts recv =
  match runStages cfg recv with
  | (Returns _, recv1, ev) =>
      (Returns (tooFewEpochs cfg recv1 ts),
       if tooFewEpochs cfg recv1 ts then disable recv1 else recv1, ev)
  | (Throws e, recv1, ev) => (Throws e, recv1, ev)
  end.
Proof.
  unfold stationPipeline, bind.
  destruct (runStages cfg recv) as [[[u|e] recv1] ev]; [|done].
  by rewrite evaluateUsability_run, app_nil_r.
Qed.

(** C3. After the stages of a station have returned, the station is disabled
    exactly when countEpochs*observationSampling is strictly less than
    minEstimableEpochsRatio*times.size()*medianSampling; it is then disabled
    wholesale (no epoch stays usable, the receiver is not usable any more) and
    counted; when the two sides compare equal the receiver is retained as it
    is. *)
Theorem usability_gate_strict (ts : list Time) (w : Worker) (idRecv : nat)
    (recv recv1 : GnssReceiver) (ev : list Event) :
  receivers w !! idRecv = Some recv ->
  isMyRank_ recv = true ->
  runStages cfg recv = (Returns tt, recv1, ev) ->
  let below := (estimableLhs recv1 ts <? estimableRhs cfg ts)%float in
  processStation cfg ts idRecv w =
    (Returns tt,
     {| receivers := <[idRecv := if below then disable recv1 else recv1]> (receivers w);
        disabledStations := if below then S (disabledStations w) else disabledStations w |},
     ev)
  /\ (forall idEpoch, useable_epoch (disable recv1) idEpoch = false)
  /\ useable (disable recv1) = false
  /\ ((estimableLhs recv1 ts =? estimableRhs cfg ts)%float = true -> below = false).
Proof.
  intros Hlook Hmine Hrun below.
  split; [|split; [|split]].
  - unfold processStation. rewrite Hlook, Hmine, stationPipeline_run, Hrun.
    unfold tooFewEpochs. fold below. by destruct below.
  - apply useable_epoch_disable.
  - apply useable_disable.
  - apply Double_eqb_not_ltb.
Qed.

Ltac run_calls :=
  repeat match goal with
         | |- context [match ?f ?r with (_, _) => _ end] =>
             destruct (f r) as [[?|?] ?]; simpl
         end.

(** Every event of the stages is a call of a collaborator. *)
Lemma runStages_calls (recv : GnssReceiver) :
  Forall (fun ev => isCall ev = true) (runStages cfg recv).2.
Proof.
  unfold runStages, initialClock, rejectGrossOutliers, slipsAndOutliers, bind, call.
  run_calls; repeat constructor.
Qed.

Lemma stationPipeline_events (ts : list Time) (recv : GnssReceiver) :
  (stationPipeline cfg ts recv).2 = (runStages cfg recv).2.
Proof.
  rewrite stationPipeline_run.
  by destruct (runStages cfg recv) as [[[u|e] recv1] ev].
Qed.

(** C1 (as the code has it). The components of a station run in the order
    TrackSegmenter, ClockInitializer, GrossOutlierRejector, CycleSlipDetector,
    TrackFilter, TrackOutlierDetector, CycleSlipRepairer, UsabilityEvaluator:
    every run of the pipeline goes through a prefix of that list, and a run
    that returns goes through all of it. The tracks are created first; the
    gross-outlier rejection comes after the track segmentation and before the
    cycle-slip detection. The usability evaluation is the last step: when the
    seven calls have returned, and only then, the pipeline applies the test
    of the estimable epochs to the receiver as the calls left it, disables
    the receiver when the test says so, returns what the test said and makes
    no further call; when a call throws, the pipeline ends with that
    exception and the receiver as the call left it, without the test. *)
Theorem pipeline_order (ts : list Time) (recv : GnssReceiver) :
  stagesOfRun (stationPipeline cfg ts recv) `prefix_of` codeOrder
  /\ (forall b, (stationPipeline cfg ts recv).1.1 = Returns b ->
       stagesOfRun (stationPipeline cfg ts recv) = codeOrder)
  /\ stationPipeline cfg ts recv =
     match runStages cfg recv with
     | (Returns _, recv1, ev) =>
         (Returns (tooFewEpochs cfg recv1 ts),
          if tooFewEpochs cfg recv1 ts then disable recv1 else recv1, ev)
     | (Throws e, recv1, ev) => (Throws e, recv1, ev)
     end
  /\ (forall u recv1 ev, runStages cfg recv = (Returns u, recv1, ev) ->
        omap component_of ev =
        [TrackSegmenter; ClockInitializer; GrossOutlierRejector; CycleSlipDetector;
         TrackFilter; TrackOutlierDetector; CycleSlipRepairer])
  /\ (forall e recv1 ev, runStages cfg recv = (Throws e, recv1, ev) ->
        omap component_of ev `prefix_of`
        [TrackSegmenter; ClockInitializer; GrossOutlierRejector; CycleSlipDetector;
         TrackFilter; TrackOutlierDetector; CycleSlipRepairer]).
Proof.
  split; [|split; [|split; [apply stationPipeline_run|split]]].
  - unfold stagesOfRun. rewrite stationPipeline_run.
    unfold runStages, initialClock, rejectGrossOutliers, slipsAndOutliers, bind, call.
    run_calls; by (eexists; simpl; reflexivity).
  - unfold stagesOfRun. rewrite stationPipeline_run.
    unfold runStages, initialClock, rejectGrossOutliers, slipsAndOutliers, bind, call.
    run_calls; intros b Hb; simpl in *; first [discriminate | reflexivity].
  - unfold runStages, initialClock, rejectGrossOutliers, slipsAndOutliers, bind, call.
    run_calls; intros u recv1 ev Hrun; simpl in *;
      first [discriminate | by injection Hrun as <- <- <-].
  - unfold runStages, initialClock, rejectGrossOutliers, slipsAndOutliers, bind, call.
    run_calls; intros e0 recv1 ev Hrun; simpl in *;
      first [discriminate | injection Hrun as <- <- <-; by (eexists; simpl; reflexivity)].
Qed.

Lemma processStation_returns (ts : list Time) (idRecv : nat) (w : Worker) :
  idRecv < length (receivers w) ->
  exists w1 ev, processStation cfg ts idRecv w = (Returns tt, w1, ev)
                /\ length (receivers w1) = length (receivers w).
Proof.
  intros Hlt. unfold processStation.
  destruct (lookup_lt_is_Some_2 _ _ Hlt) as [recv ->].
  destruct (isMyRank_ recv); [|by eauto].
  destruct (stationPipeline cfg ts recv) as [[[b|e] recv1] ev];
    eexists _, _; (split; [reflexivity|]); simpl; by rewrite length_insert.
Qed.

Lemma forM_processStation_returns (ts : list Time) (ids : list nat) (w : Worker) :
  Forall (fun idRecv => idRecv < length (receivers w)) ids ->
  exists w1 ev, forM_ ids (processStation cfg ts) w = (Returns tt, w1, ev).
Proof.
  revert w. induction ids as [|idRecv ids IH]; intros w Hall.
  - by eexists _, _.
  - apply Forall_cons in Hall as [Hlt Hall].
    destruct (processStation_returns ts idRecv w Hlt) as (w1 & ev1 & Hrun & Hlen).
    destruct (IH w1) as (w2 & ev2 & Hrest).
    { by rewrite Hlen. }
    simpl. unfold bind. rewrite Hrun, Hrest. by eexists _, _.
Qed.

(** No exception leaves the loop over the stations of a worker. *)
Lemma preprocessingLocal_returns (ts : list Time) (rs : list GnssReceiver) :
  exists w ev, preprocessingLocal cfg ts rs = (Returns tt, w, ev).
Proof.
  unfold preprocessingLocal, bind, emit, forEachStation; simpl.
  destruct (forM_processStation_returns ts (seq 0 (length rs))
              {| receivers := rs; disabledStations := 0 |}) as (w & ev & Hrun).
  { apply Forall_forall. intros i Hi%elem_of_seq. simpl. lia. }
  rewrite Hrun. by eexists _, _.
Qed.

(** C4. When the pipeline of a station throws, the lambda of the station
    catches the exception: it returns normally, the receiver is disabled, one
    warning with the reason is written, the counter of disabled stations is
    incremented, and the loop goes on with the stations that remain. No run of
    the loop of a worker ends with an exception. *)
Theorem station_exception_is_contained (ts : list Time) (w : Worker) (idRecv : nat)
    (recv recv1 : GnssReceiver) (e : Exception) (ev : list Event) :
  receivers w !! idRecv = Some recv ->
  isMyRank_ recv = true ->
  stationPipeline cfg ts recv = (Throws e, recv1, ev) ->
  let w1 := {| receivers := <[idRecv := disable recv1]> (receivers w);
               disabledStations := S (disabledStations w) |} in
  let ev1 := ev ++ [logWarning (disabledMessage recv1 e)] in
  processStation cfg ts idRecv w = (Returns tt, w1, ev1)
  /\ receivers w1 !! idRecv = Some (disable recv1)
  /\ useable (disable recv1) = false
  /\ filter (fun x => isWarning x) ev1 = [logWarning (disabledMessage recv1 e)]
  /\ (forall rest,
        forM_ (idRecv :: rest) (processStation cfg ts) w =
        match forM_ rest (processStation cfg ts) w1 with
        | (out, w2, ev2) => (out, w2, ev1 ++ ev2)
        end)
  /\ (forall rs, exists w2 ev2, preprocessingLocal cfg ts rs = (Returns tt, w2, ev2)).
Proof.
  intros Hlook Hmine Hrun w1 ev1.
  assert (Hstep : processStation cfg ts idRecv w = (Returns tt, w1, ev1)).
  { unfold processStation. by rewrite Hlook, Hmine, Hrun. }
  split; [exact Hstep|]. split; [|split; [|split; [|split]]].
  - simpl. apply list_lookup_insert_eq. by eapply lookup_lt_Some.
  - apply useable_disable.
  - unfold ev1. rewrite filter_app.
    assert (Hcalls : Forall (fun x => isCall x = true) ev).
    { pose proof (runStages_calls recv) as Hc.
      rewrite <- stationPipeline_events with (ts := ts) in Hc. by rewrite Hrun in Hc. }
    replace (filter (fun x => isWarning x) ev) with (@nil Event); [done|].
    symmetry. clear -Hcalls.
    induction Hcalls as [|x l Hx _ IH]; [done|].
    rewrite filter_cons, IH. by destruct x.
  - intros rest. simpl. unfold bind. by rewrite Hstep.
  - intros rs. apply preprocessingLocal_returns.
Qed.

End PreprocessingProperties.

(** ** preprocessing: the loop over the stations *)

Section LoopProperties.
Context `{Collaborators}.
Variable cfg : Config.

Lemma processStation_run (ts : list Time) (idRecv : nat) (w : Worker) (recv : GnssReceiver) :
  receivers w !! idRecv = Some recv ->
  exists ev,
    processStation cfg ts idRecv w =
    (Returns tt,
     {| receivers :=
          if isMyRank_ recv then <[idRecv := stationResult cfg ts recv]> (receivers w)
          else receivers w;
        disabledStations :=
          if isMyRank_ recv && stationDisabled cfg ts recv
          then S (disabledStations w) else disabledStations w |},
     ev).
Proof.
  intros Hlook. unfold processStation, stationResult, stationDisabled. rewrite Hlook.
  destruct (isMyRank_ recv); simpl; [|destruct w; by eexists].
  destruct (stationPipeline cfg ts recv) as [[[b|e] recv1] ev]; by eexists.
Qed.

(** After the first [m] passes of the loop, the first [m] receivers are
    processed when they are on this rank and all others are as they were. *)
Lemma forEachStation_prefix (ts : list Time) (rs : list GnssReceiver) (m : nat) :
  m <= length rs ->
  exists ev,
    forM_ (seq 0 m) (processStation cfg ts) {| receivers := rs; disabledStations := 0 |} =
    (Returns tt,
     {| receivers :=
          imap (fun i recv => if decide (i < m)
                              then (if isMyRank_ recv then stationResult cfg ts recv else recv)
                              else recv) rs;
        disabledStations := localCount cfg ts (take m rs) |},
     ev).
Proof.
  induction m as [|m IH]; intros Hm.
  - exists []. simpl. unfold ret. do 2 f_equal. f_equal.
    apply list_eq. intros i. rewrite list_lookup_imap. by destruct (rs !! i).
  - destruct IH as [ev Hrun]; [lia|].
    destruct (lookup_lt_is_Some_2 rs m) as [recv Hrecv]; [lia|].
    edestruct (processStation_run ts m) as [ev2 Hstep]; [|
      rewrite seq_S; simpl; rewrite (forM_snoc _ _ _ _ _ _ _ _ Hrun Hstep) ].
    { simpl. rewrite list_lookup_imap, Hrecv. simpl. by rewrite decide_False by lia. }
    cbn [receivers disabledStations].
    eexists. do 2 f_equal. f_equal.
    + apply list_eq. intros i.
      destruct (isMyRank_ recv) eqn:Hmine.
      * destruct (decide (i = m)) as [->|Hne].
        -- rewrite list_lookup_insert_eq by (rewrite length_imap; lia).
           rewrite list_lookup_imap, Hrecv. simpl.
           by rewrite decide_True, Hmine by lia.
        -- rewrite list_lookup_insert_ne by done. rewrite !list_lookup_imap.
           destruct (rs !! i); simpl; [|done].
           destruct (decide (i < m)); [by rewrite decide_True by lia|].
           by rewrite decide_False by lia.
      * rewrite !list_lookup_imap.
        destruct (rs !! i) as [r|] eqn:Hr; simpl; [|done].
        destruct (decide (i = m)) as [->|Hne].
        -- rewrite Hrecv in Hr. injection Hr as <-.
           by rewrite decide_False, decide_True, Hmine by lia.
        -- destruct (decide (i < m)); [by rewrite decide_True by lia|].
           by rewrite decide_False by lia.
    + rewrite (take_S_r rs m recv Hrecv). unfold localCount.
      rewrite List.filter_app, length_app. simpl.
      destruct (isMyRank_ recv && stationDisabled cfg ts recv); simpl; lia.
Qed.

(** The loop of a worker: it returns; the receivers on its rank have gone
    through the pipeline, the others are untouched; the counter holds the
    number of its own stations that were disabled. *)
Lemma preprocessingLocal_spec (ts : list Time) (rs : list GnssReceiver) :
  exists ev,
    preprocessingLocal cfg ts rs =
    (Returns tt,
     {| receivers := (fun recv => if isMyRank_ recv then stationResult cfg ts recv else recv) <$> rs;
        disabledStations := localCount cfg ts rs |},
     ev).
Proof.
  destruct (forEachStation_prefix ts rs (length rs)) as [ev Hrun]; [done|].
  unfold preprocessingLocal, bind, emit, forEachStation. simpl. rewrite Hrun.
  eexists. do 2 f_equal. f_equal.
  - apply list_eq. intros i. rewrite list_lookup_imap, list_lookup_fmap.
    destruct (rs !! i) eqn:Hi; simpl; [|done].
    by rewrite decide_True by (by eapply lookup_lt_Some).
  - by rewrite firstn_all.
Qed.

End LoopProperties.

(** ** The gross-outlier rejection *)

Section GrossOutlierProperties.
Context `{Collaborators}.
Variable cfg : Config.

Lemma useable_epoch_useable (recv : GnssReceiver) (idEpoch : nat) :
  useable_epoch recv idEpoch = true -> useable recv = true.
Proof.
  unfold useable_epoch, useable.
  destruct (useableEpochs recv !! idEpoch) as [b|] eqn:E; [|done].
  intros ->. apply existsb_exists. exists true. split; [|done].
  apply list_elem_of_In. by eapply list_elem_of_lookup_2.
Qed.

Lemma grossOutlier_fold (residual : ObservationEquationList -> nat -> Double)
    (eqn : ObservationEquationList) (limit : Double) (ids : list nat)
    (recv : GnssReceiver) (j : nat) :
  useable_epoch
    (foldl (fun r idEpoch =>
              if (limit <? residual eqn idEpoch)%float then disable_epoch idEpoch r else r)
           recv ids) j =
  useable_epoch recv j && negb (bool_decide (j ∈ ids) && (limit <? residual eqn j)%float).
Proof.
  revert recv. induction ids as [|i ids IH]; intros recv; simpl.
  - by rewrite andb_true_r.
  - rewrite IH. destruct (decide (i = j)) as [->|Hne].
    + rewrite (bool_decide_eq_true_2 (j ∈ j :: ids)) by apply list_elem_of_here.
      destruct (limit <? residual eqn j)%float eqn:E; simpl.
      * rewrite useable_epoch_disable_epoch, decide_True by done.
        by rewrite andb_false_r.
      * by rewrite andb_false_r, !andb_true_r.
    + assert (bool_decide (j ∈ i :: ids) = bool_decide (j ∈ ids)) as ->.
      { apply bool_decide_ext. rewrite elem_of_cons. intuition congruence. }
      destruct (limit <? residual eqn i)%float; [|done].
      by rewrite useable_epoch_disable_epoch, decide_False.
Qed.

Lemma grossOutlierRejector_mask (residual : ObservationEquationList -> nat -> Double)
    (eqn : ObservationEquationList) (threshold factor : Double)
    (recv : GnssReceiver) (j : nat) :
  useable_epoch (grossOutlierRejector residual eqn threshold factor recv).2 j =
  useable_epoch recv j && negb (threshold * factor <? residual eqn j)%float.
Proof.
  unfold grossOutlierRejector; simpl. rewrite grossOutlier_fold.
  destruct (decide (j < length (useableEpochs recv))) as [Hlt|Hge].
  - rewrite bool_decide_eq_true_2; [done|]. apply elem_of_seq. lia.
  - unfold useable_epoch. by rewrite lookup_ge_None_2 by lia.
Qed.

(** The collaborator is the gross-outlier rejection that the specification
    describes. *)
Hypothesis gross_spec :
  forall eqn threshold factor recv,
    disableEpochsWithGrossCodeObservationOutliers eqn threshold factor recv =
    grossOutlierRejector codeResidual eqn threshold factor recv.

(** C5. The gross-outlier rejection is called with the threshold
    codeMaxPosDiff and the factor 0.5. An epoch stays usable exactly when it
    was usable and its code residual does not exceed 0.5*codeMaxPosDiff:
    an epoch with a larger residual is disabled on its own, and the station
    stays usable as long as one usable epoch is within the limit. *)
Theorem gross_outlier_disables_epoch (eqn : ObservationEquationList) (recv : GnssReceiver) :
  let run := rejectGrossOutliers cfg eqn recv in
  let limit := (codeMaxPosDiff cfg * 0.5)%float in
  run.2 = [Call (op_disableEpochsWithGrossCodeObservationOutliers (codeMaxPosDiff cfg) 0.5%float)]
  /\ run.1.1 = Returns eqn
  /\ (forall idEpoch,
        useable_epoch run.1.2 idEpoch =
        useable_epoch recv idEpoch && negb (limit <? codeResidual eqn idEpoch)%float)
  /\ (forall idEpoch,
        (limit <? codeResidual eqn idEpoch)%float = true ->
        useable_epoch run.1.2 idEpoch = false)
  /\ (forall idEpoch,
        useable_epoch recv idEpoch = true ->
        (limit <? codeResidual eqn idEpoch)%float = false ->
        useable run.1.2 = true).
Proof.
  intros run limit.
  assert (Hmask : forall idEpoch,
             useable_epoch run.1.2 idEpoch =
             useable_epoch recv idEpoch && negb (limit <? codeResidual eqn idEpoch)%float).
  { intros idEpoch. unfold run, rejectGrossOutliers, call.
    rewrite gross_spec.
    rewrite <- (grossOutlierRejector_mask codeResidual eqn (codeMaxPosDiff cfg) 0.5%float recv).
    by destruct (grossOutlierRejector _ _ _ _ _) as [o r]. }
  split; [|split; [|split; [|split]]].
  - unfold run, rejectGrossOutliers, call.
    by destruct (disableEpochsWithGrossCodeObservationOutliers _ _ _ _) as [o r].
  - unfold run, rejectGrossOutliers, call. by rewrite gross_spec.
  - exact Hmask.
  - intros idEpoch Hex. by rewrite Hmask, Hex, andb_false_r.
  - intros idEpoch Hus Hin. apply (useable_epoch_useable _ idEpoch).
    by rewrite Hmask, Hus, Hin.
Qed.

End GrossOutlierProperties.

(** ** init: the setup of the epochs *)

Section SetupProperties.
Context `{Collaborators}.

(** The index that findAntenna returns is an index of the antenna list. *)
Hypothesis findAntenna_valid :
  forall i t idAnt, findAntenna i t = Some idAnt -> idAnt < length (antenna i).

Lemma setupEpoch_step (ts : list Time) (n : nat) (t : Time) (r0 r1 : GnssReceiver) :
  ts !! n = Some t ->
  n < length (offset r0) -> n < length (local2antenna r0) ->
  setupInvariant ts n r0 r1 ->
  exists r2, setupEpoch ts n r1 = (Returns tt, r2, []) /\ setupInvariant ts (S n) r0 r2.
Proof.
  intros Ht Hoff Hloc (Hinfo & Hname & Hrank & Hlo & Hll & Hrest & Hmask & Hser).
  unfold setupEpoch. rewrite Ht, Hinfo.
  assert (Hdis : completeAt (info r0) t = false ->
                 setupInvariant ts (S n) r0 (disable_epoch n r1)).
  { intros Hc. unfold setupInvariant; simpl.
    split; [done|]. split; [done|]. split; [done|]. split; [done|]. split; [done|].
    split; [|split].
    - intros j Hj. rewrite useable_epoch_disable_epoch, decide_False by lia.
      apply Hrest. lia.
    - intros j t' Hj Ht'. rewrite useable_epoch_disable_epoch.
      destruct (decide (n = j)) as [<-|Hne].
      + rewrite Ht in Ht'. injection Ht' as <-. by rewrite Hc, andb_false_r.
      + apply Hmask; [lia|done].
    - intros j t' ant Hj Ht' Hant Hcomp.
      destruct (decide (n = j)) as [<-|Hne].
      + rewrite Ht in Ht'. injection Ht' as <-.
        unfold completeAt in Hc. rewrite Hant in Hc. congruence.
      + apply (Hser j t' ant); [lia|done..]. }
  unfold completeAt, antennaAt in Hdis.
  destruct (findAntenna (info r0) t) as [idAnt|] eqn:Hfind; [|by eexists; eauto].
  destruct (lookup_lt_is_Some_2 _ _ (findAntenna_valid _ _ _ Hfind)) as [ant Hant].
  rewrite Hant in *.
  destruct (antennaComplete ant) eqn:Hc; [|by eexists; eauto].
  unfold at_put. rewrite decide_True by lia. simpl.
  rewrite decide_True by lia.
  eexists. split; [reflexivity|].
  unfold setupInvariant; simpl.
  split; [done|]. split; [done|]. split; [done|].
  split; [by rewrite length_insert|]. split; [by rewrite length_insert|].
  split; [|split].
  - intros j Hj. unfold useable_epoch; simpl. apply Hrest. lia.
  - intros j t' Hj Ht'. unfold useable_epoch at 1; simpl.
    destruct (decide (n = j)) as [<-|Hne].
    + rewrite Ht in Ht'. injection Ht' as <-.
      unfold completeAt, antennaAt. rewrite Hfind, Hant, Hc, andb_true_r.
      by apply Hrest.
    + apply Hmask; [lia|done].
  - intros j t' ant' Hj Ht' Hant' Hcomp.
    destruct (decide (n = j)) as [<-|Hne].
    + rewrite Ht in Ht'. injection Ht' as <-.
      unfold antennaAt in Hant'. rewrite Hfind, Hant in Hant'. injection Hant' as <-.
      split; apply list_lookup_insert_eq; lia.
    + rewrite !list_lookup_insert_ne by done. apply (Hser j t' ant'); [lia|done..].
Qed.

Lemma length_resize {A} (n : nat) (value : A) (v : list A) :
  length (resize n value v) = n.
Proof. unfold resize. rewrite length_app, length_take, length_replicate. lia. Qed.

Lemma setup_loop (ts : list Time) (n : nat) (r0 : GnssReceiver) :
  n <= length ts ->
  length ts <= length (offset r0) -> length ts <= length (local2antenna r0) ->
  exists r1, forM_ (seq 0 n) (setupEpoch ts) r0 = (Returns tt, r1, [])
             /\ setupInvariant ts n r0 r1.
Proof.
  intros Hn Hoff Hloc. induction n as [|n IH].
  - exists r0. split; [done|].
    unfold setupInvariant. repeat split; try done; intros; lia.
  - destruct IH as (r1 & Hrun & Hinv); [lia|].
    destruct (lookup_lt_is_Some_2 ts n) as [t Ht]; [lia|].
    destruct (setupEpoch_step ts n t r0 r1 Ht) as (r2 & Hstep & Hinv2); [lia|lia|done|].
    exists r2. split; [|done].
    rewrite seq_S. simpl.
    by rewrite (forM_snoc _ _ _ _ _ _ _ _ Hrun Hstep).
Qed.

(** C8. The setup of a receiver in init returns normally, whatever the
    antennas are. An epoch at which the receiver has no antenna, or an antenna
    without antenna definition or without accuracy definition, is disabled;
    every other epoch keeps its state and gets its antenna offset and antenna
    frame; the epochs beyond the time axis are not touched. The station is not
    disabled by this: the pass goes on with the observations of the same
    receiver. *)
Theorem missing_antenna_disables_epoch (ts : list Time) (recv : GnssReceiver) :
  exists recv1,
    setupReceiver ts recv = (Returns tt, recv1, [])
    /\ (forall idEpoch t, ts !! idEpoch = Some t ->
          useable_epoch recv1 idEpoch =
          useable_epoch recv idEpoch && completeAt (info recv) t)
    /\ (forall idEpoch, length ts <= idEpoch ->
          useable_epoch recv1 idEpoch = useable_epoch recv idEpoch)
    /\ (forall idEpoch t ant, ts !! idEpoch = Some t ->
          antennaAt (info recv) t = Some ant -> antennaComplete ant = true ->
          offset recv1 !! idEpoch =
            Some (Vector3d_sub (position ant) (referencePoint (info recv) t))
          /\ local2antenna recv1 !! idEpoch = Some (local2antennaFrame ant))
    /\ name recv1 = name recv /\ info recv1 = info recv /\ isMyRank_ recv1 = true
    /\ (forall cfg k, testAlternative cfg ts k recv = readAndCount cfg ts k recv1).
Proof.
  destruct (setup_loop ts (length ts) (sizeToEpochs ts recv)) as (recv1 & Hrun & Hinv).
  { done. }
  { simpl. by rewrite length_resize. }
  { simpl. by rewrite length_resize. }
  destruct Hinv as (Hinfo & Hname & Hrank & _ & _ & Hrest & Hmask & Hser).
  simpl in Hinfo, Hname, Hrank.
  exists recv1.
  assert (Hsetup : setupReceiver ts recv = (Returns tt, recv1, [])).
  { unfold setupReceiver, bind, modify. by rewrite Hrun. }
  split; [done|]. split.
  { intros idEpoch t Ht.
    rewrite (Hmask idEpoch t); [done| by eapply lookup_lt_Some |done]. }
  split.
  { intros idEpoch Hge. by rewrite Hrest. }
  split.
  { intros idEpoch t ant Ht Hant Hc.
    apply (Hser idEpoch t ant); [by eapply lookup_lt_Some|done..]. }
  split; [done|]. split; [done|]. split; [done|].
  intros cfg k. unfold testAlternative, bind. rewrite Hsetup.
  by destruct (readAndCount cfg ts k recv1) as [[o r] ev].
Qed.

End SetupProperties.

(** ** init: the receivers of the station list *)

Section CreateProperties.
Context `{Collaborators}.
Variable cfg : Config.

(** The completeness test writes nothing but logWarningOnce lines. *)
Lemma completenessWarnings_once (ts : list Time) (i : GnssStationInfo) :
  Forall (fun ev => exists msg, ev = logWarningOnce msg) (completenessWarnings ts i).
Proof.
  unfold completenessWarnings. destruct (head ts) as [front|]; [|done].
  destruct (last ts) as [back|]; [|done].
  induction (antenna i) as [|ant ants IH]; [done|].
  cbn [omap list_omap]. destruct (_ && _); [|done].
  constructor; [by eexists|done].
Qed.

Lemma createReceiver_once (ts : list Time) (stationName : string) :
  Forall (fun ev => exists msg, ev = logWarningOnce msg) (createReceiver cfg ts stationName).2.
Proof.
  unfold createReceiver. destruct (_ && _); [done|].
  destruct (loadStationInfo cfg ts _); simpl.
  - apply completenessWarnings_once.
  - constructor; [by eexists|done].
Qed.

Lemma createReceiver_Some (ts : list Time) (stationName : string) (recv : GnssReceiver) :
  (createReceiver cfg ts stationName).1 = Some recv ->
  name recv = stationName /\ isMyRank_ recv = false
  /\ useableEpochs recv = replicate (length ts) true
  /\ (FileName_empty (fileNameObs cfg) = false ->
      System_exists (observationFile cfg recv) = true).
Proof.
  unfold createReceiver, observationFile.
  destruct (FileName_empty (fileNameObs cfg)) eqn:Hempty; simpl.
  - destruct (loadStationInfo cfg ts _) as [i|e]; simpl; [|done].
    intros [= <-]. by simpl.
  - destruct (System_exists _) eqn:Hex; simpl; [|done].
    destruct (loadStationInfo cfg ts _) as [i|e]; simpl; [|done].
    intros [= <-]. by simpl.
Qed.

Lemma createAlternatives_spec (ts : list Time) (names : list string) :
  name <$> (createAlternatives cfg ts names).1 = List.filter (createsReceiver cfg ts) names
  /\ Forall (fun recv =>
               isMyRank_ recv = false
               /\ useableEpochs recv = replicate (length ts) true
               /\ (FileName_empty (fileNameObs cfg) = false ->
                   System_exists (observationFile cfg recv) = true))
            (createAlternatives cfg ts names).1.
Proof.
  induction names as [|nm names [IHn IHf]]; simpl; [done|].
  unfold createsReceiver at 1.
  pose proof (createReceiver_Some ts nm) as Hsome.
  destruct (createReceiver cfg ts nm) as [[recv|] ev];
    destruct (createAlternatives cfg ts names) as [recvs evs]; simpl in *; [|done].
  destruct (Hsome recv eq_refl) as (Hname & Hrest).
  split; [f_equal; [exact Hname|exact IHn]|]. by constructor.
Qed.

(** Every station that is left after the empty ones are removed stems from a
    line of the station list: its alternatives are, in the order of the line,
    the names for which a receiver was created. *)
Lemma removeEmptyStations_spec (ts : list Time) (stationName : list (list string))
    (alts : list GnssReceiver) :
  alts ∈ removeEmptyStations (createStations cfg ts stationName).1 ->
  alts <> []
  /\ (exists names, names ∈ stationName
                    /\ name <$> alts = List.filter (createsReceiver cfg ts) names)
  /\ Forall (fun recv =>
               isMyRank_ recv = false
               /\ useableEpochs recv = replicate (length ts) true
               /\ (FileName_empty (fileNameObs cfg) = false ->
                   System_exists (observationFile cfg recv) = true)) alts.
Proof.
  unfold removeEmptyStations. rewrite list_elem_of_filter. intros [Hne Hin].
  split; [done|].
  induction stationName as [|names rest IH]; simpl in Hin.
  - by apply elem_of_nil in Hin.
  - pose proof (createAlternatives_spec ts names) as [Hn Hf].
    destruct (createAlternatives cfg ts names) as [alts0 ev];
      destruct (createStations cfg ts rest) as [stations evs]; simpl in *.
    apply elem_of_cons in Hin as [->|Hin].
    + split; [|done]. exists names. split; [apply list_elem_of_here|done].
    + destruct (IH Hin) as ((names' & Hin' & Hnames) & Hall).
      split; [|done]. exists names'. split; [by apply list_elem_of_further|done].
Qed.

End CreateProperties.

(** ** init: the loop over the alternatives *)

Section ReadProperties.
Context `{Collaborators}.
Variable cfg : Config.

Lemma setupEpoch_isMyRank (ts : list Time) (idEpoch : nat) (recv : GnssReceiver) :
  isMyRank_ (setupEpoch ts idEpoch recv).1.2 = isMyRank_ recv.
Proof.
  unfold setupEpoch.
  destruct (ts !! idEpoch) as [t|]; [|done].
  destruct (findAntenna (info recv) t) as [idAnt|]; [|done].
  destruct (antenna (info recv) !! idAnt) as [ant|]; [|done].
  destruct (antennaComplete ant); [|done].
  destruct (at_put idEpoch _ (offset recv)) as [o|e]; [|done].
  by destruct (at_put idEpoch _ (local2antenna _)) as [l|e].
Qed.

Lemma setupReceiver_isMyRank (ts : list Time) (recv : GnssReceiver) :
  isMyRank_ (setupReceiver ts recv).1.2 = true.
Proof.
  unfold setupReceiver, bind, modify.
  pose proof (forM_preserves (fun r => isMyRank_ r = true) (setupEpoch ts)
                (seq 0 (length ts)) (sizeToEpochs ts recv)) as Hloop.
  destruct (forM_ _ _ _) as [[o r] ev]; simpl in *.
  apply Hloop; [|done]. intros x s0 Hs0. by rewrite setupEpoch_isMyRank.
Qed.

Lemma testAlternative_value (ts : list Time) (k v : nat) (recv recv1 : GnssReceiver)
    (ev : list Event) :
  testAlternative cfg ts k recv = (Returns (Some v), recv1, ev) -> v = k + 1 \/ v = 1.
Proof.
  unfold testAlternative, bind.
  destruct (setupReceiver ts recv) as [[[u|e] r1] ev1]; [|done].
  unfold readAndCount. destruct (FileName_empty (fileNameObs cfg)).
  - unfold ret. intros [= <- _ _]. by right.
  - unfold bind, get, call. simpl.
    destruct (readObservations _ r1) as [[u2|e] r2]; simpl; [|done].
    unfold ret. destruct (tooFewEpochs cfg r2 ts); [done|]. intros [= <- _ _]. by left.
Qed.

Lemma testAlternatives_bound (ts : list Time) (alts : list GnssReceiver) (k : nat) :
  length (testAlternatives cfg ts k alts).1.1 = length alts
  /\ (testAlternatives cfg ts k alts).1.2 <= k + length alts.
Proof.
  revert k. induction alts as [|recv rest IH]; intros k; simpl; [split; [done|lia]|].
  destruct (IH (S k)) as [Hlen Hv]. clear IH.
  pose proof (fun v recv1 ev => testAlternative_value ts k v recv recv1 ev) as Hval.
  destruct (testAlternative cfg ts k recv) as [[[[v|]|e] recv1] ev].
  - simpl. split; [done|]. destruct (Hval v recv1 ev eq_refl); lia.
  - destruct (testAlternatives cfg ts (S k) rest) as [[rest1 v] evs]; simpl in *.
    split; [by rewrite Hlen|lia].
  - destruct (testAlternatives cfg ts (S k) rest) as [[rest1 v] evs]; simpl in *.
    split; [by rewrite Hlen|lia].
Qed.

Section Mine.

(** Reading the observations does not change the rank flag. *)
Hypothesis readObservations_isMyRank :
  forall fileName recv, isMyRank_ (readObservations fileName recv).2 = isMyRank_ recv.

Lemma testAlternative_isMyRank (ts : list Time) (k : nat) (recv : GnssReceiver) :
  isMyRank_ (testAlternative cfg ts k recv).1.2 = true.
Proof.
  unfold testAlternative, bind.
  pose proof (setupReceiver_isMyRank ts recv) as Hset.
  destruct (setupReceiver ts recv) as [[[u|e] r1] ev1]; simpl in *; [|done].
  unfold readAndCount. destruct (FileName_empty (fileNameObs cfg)); [done|].
  unfold bind, get, call. simpl.
  pose proof (readObservations_isMyRank (expand (fileNameObs cfg) (stationVariables (name r1))) r1)
    as Hread.
  destruct (readObservations _ r1) as [[u2|e] r2]; simpl in *; [|congruence].
  unfold ret. destruct (tooFewEpochs cfg r2 ts); simpl; congruence.
Qed.

(** The alternatives in front of the position assigned by the loop were all
    tried by this worker. *)
Lemma testAlternatives_mine (ts : list Time) (alts : list GnssReceiver) (k idx : nat)
    (r : GnssReceiver) :
  (testAlternatives cfg ts k alts).1.1 !! idx = Some r ->
  k + idx < (testAlternatives cfg ts k alts).1.2 ->
  isMyRank_ r = true.
Proof.
  revert k idx. induction alts as [|recv rest IH]; intros k idx; simpl; [done|].
  pose proof (testAlternative_isMyRank ts k recv) as Hmine.
  pose proof (fun v recv1 ev => testAlternative_value ts k v recv recv1 ev) as Hval.
  specialize (IH (S k)).
  destruct (testAlternative cfg ts k recv) as [[[[v|]|e] recv1] ev]; simpl in *.
  - destruct (Hval v recv1 ev eq_refl) as [->| ->]; intros Hr Hlt;
      (assert (idx = 0) as -> by lia); simpl in Hr; congruence.
  - destruct (testAlternatives cfg ts (S k) rest) as [[rest1 v] evs]; simpl in *.
    destruct idx as [|idx]; simpl; [congruence|].
    intros Hr Hlt. apply (IH idx Hr). lia.
  - destruct (testAlternatives cfg ts (S k) rest) as [[rest1 v] evs]; simpl in *.
    destruct idx as [|idx]; simpl; [congruence|].
    intros Hr Hlt. apply (IH idx Hr). lia.
Qed.

End Mine.

(** The loop over the stations, station by station: a worker runs the loop over
    the alternatives for the stations whose index is its rank modulo the number
    of workers, and passes over the other stations. *)
Lemma stationsLoop_spec (ts : list Time) (size rank n i0 : nat)
    (stations : list (list GnssReceiver)) :
  stationsLoop cfg ts size rank n i0 stations =
  (imap (fun j alts => if decide ((i0 + j) mod size = rank)
                       then (testAlternatives cfg ts 0 alts).1.1 else alts) stations,
   imap (fun j alts => if decide ((i0 + j) mod size = rank)
                       then (testAlternatives cfg ts 0 alts).1.2 else 0) stations,
   concat (imap (fun j alts => if decide ((i0 + j) mod size = rank)
                               then logTimerLoop (i0 + j) n :: (testAlternatives cfg ts 0 alts).2
                               else []) stations)).
Proof.
  revert i0. induction stations as [|alts rest IH]; intros i0; [done|].
  cbn [stationsLoop]. rewrite IH, !imap_cons, concat_cons, Nat.add_0_r.
  do 3 (erewrite (imap_ext (_ ∘ S) _ rest);
        [|intros j a _; cbn [compose];
          replace (i0 + S j) with (S i0 + j) by lia; reflexivity]).
  destruct (decide (i0 mod size = rank)); [|done].
  by destruct (testAlternatives cfg ts 0 alts) as [[alts1 v] ev].
Qed.

(** The observation files are given (no simulation). *)
Hypothesis observations_given : FileName_empty (fileNameObs cfg) = false.

Lemma testAlternative_qualifies (ts : list Time) (k : nat) (recv : GnssReceiver) :
  match (testAlternative cfg ts k recv).1.1 with
  | Returns (Some v) => qualifies cfg ts recv = true /\ v = k + 1
  | Returns None => qualifies cfg ts recv = false
  | Throws _ => qualifies cfg ts recv = false
  end.
Proof.
  unfold testAlternative, qualifies, bind.
  destruct (setupReceiver ts recv) as [[[u|e] recv1] ev1]; [|done].
  unfold readAndCount. rewrite observations_given.
  unfold bind, get, call, observationFile; simpl.
  destruct (readObservations _ recv1) as [[u2|e] recv2]; simpl; [|done].
  unfold ret. by destruct (tooFewEpochs cfg recv2 ts).
Qed.

(** The loop over the alternatives of a station assigns the position of the
    first alternative that qualifies, and stops there: the alternatives behind
    it play no part in the run and are left as they were. *)
Lemma testAlternatives_first (ts : list Time) (alts : list GnssReceiver) (k : nat) :
  length (testAlternatives cfg ts k alts).1.1 = length alts
  /\ match list_find (fun recv => qualifies cfg ts recv = true) alts with
     | Some (j, _) =>
         (testAlternatives cfg ts k alts).1.2 = k + S j
         /\ testAlternatives cfg ts k alts =
            match testAlternatives cfg ts k (take (S j) alts) with
            | (alts1, v, ev) => (alts1 ++ drop (S j) alts, v, ev)
            end
     | None => (testAlternatives cfg ts k alts).1.2 = 0
     end.
Proof.
  revert k. induction alts as [|recv rest IH]; intros k; [done|].
  pose proof (testAlternative_qualifies ts k recv) as Hq.
  destruct (IH (S k)) as [Hlen Hfind]. clear IH.
  cbn [list_find firstn skipn testAlternatives].
  destruct (testAlternative cfg ts k recv) as [[[[v|]|e] recv1] ev] eqn:Hrun; simpl in Hq.
  - destruct Hq as [Hq ->]. rewrite decide_True by done.
    cbn [firstn skipn testAlternatives].
    split; [done|]. split; [done|]. by rewrite take_0, drop_0.
  - rewrite decide_False by congruence.
    destruct (list_find _ rest) as [[j r]|]; cbn [fmap option_fmap option_map prod_map fst snd id].
    + destruct Hfind as [Hv Heq]. cbn [firstn skipn testAlternatives]. rewrite ?Hrun.
      rewrite Heq in *.
      destruct (testAlternatives cfg ts (S k) (take (S j) rest)) as [[rest1 v] evs].
      simpl in *. split; [by rewrite Hlen|]. split; [lia|done].
    + destruct (testAlternatives cfg ts (S k) rest) as [[rest1 v] evs].
      simpl in *. split; [by rewrite Hlen|done].
  - rewrite decide_False by congruence.
    destruct (list_find _ rest) as [[j r]|]; cbn [fmap option_fmap option_map prod_map fst snd id].
    + destruct Hfind as [Hv Heq]. cbn [firstn skipn testAlternatives]. rewrite ?Hrun.
      rewrite Heq in *.
      destruct (testAlternatives cfg ts (S k) (take (S j) rest)) as [[rest1 v] evs].
      simpl in *. split; [by rewrite Hlen|]. split; [lia|done].
    + destruct (testAlternatives cfg ts (S k) rest) as [[rest1 v] evs].
      simpl in *. split; [by rewrite Hlen|done].
Qed.

End ReadProperties.

(** ** Reduce and broadcast *)

Lemma reduceSum_root {A} (sum : list A -> A) (xs : list A) :
  xs <> [] -> reduceSum sum 0 xs !! 0 = Some (sum xs).
Proof. destruct xs as [|x xs]; [done|]. by intros _. Qed.

Lemma reduceSum_other {A} (sum : list A -> A) (xs : list A) (rank : nat) :
  rank <> 0 -> reduceSum sum 0 xs !! rank = xs !! rank.
Proof.
  intros Hne. unfold reduceSum. rewrite list_lookup_imap.
  destruct (xs !! rank); simpl; [|done]. by rewrite decide_False.
Qed.

Lemma length_reduceSum {A} (sum : list A -> A) (root : nat) (xs : list A) :
  length (reduceSum sum root xs) = length xs.
Proof. unfold reduceSum. by rewrite length_imap. Qed.

(** After a reduce onto worker 0 and a broadcast from worker 0, every worker
    holds the sum. *)
Lemma broadCast_reduceSum {A} (sum : list A -> A) (xs : list A) :
  xs <> [] -> broadCast 0 (reduceSum sum 0 xs) = replicate (length xs) (sum xs).
Proof.
  intros Hne. unfold broadCast.
  by rewrite (reduceSum_root sum xs Hne), length_reduceSum.
Qed.

Lemma sum_indicator (a x s len : nat) :
  sum_list ((fun r => if decide (a = r) then x else 0) <$> seq s len) =
  if decide (s <= a < s + len) then x else 0.
Proof.
  revert s. induction len as [|len IH]; intros s; simpl.
  - rewrite decide_False; [done|lia].
  - rewrite IH.
    destruct (decide (a = s)) as [->|Hne].
    + rewrite decide_False by lia. rewrite decide_True by lia. lia.
    + destruct (decide (S s <= a < S s + len)).
      * rewrite decide_True by lia. lia.
      * rewrite decide_False by lia. lia.
Qed.

Lemma length_Vector_sum (n : nat) (vs : list (list nat)) :
  Forall (fun v => length v = n) vs -> length (Vector_sum n vs) = n.
Proof.
  unfold Vector_sum. induction 1 as [|v vs Hv _ IH]; cbn [foldr].
  - by rewrite length_replicate.
  - rewrite length_zip_with, IH, Hv. lia.
Qed.

Lemma Vector_sum_lookup (n : nat) (vs : list (list nat)) (j : nat) :
  Forall (fun v => length v = n) vs -> j < n ->
  Vector_sum n vs !! j = Some (sum_list ((fun v => default 0 (v !! j)) <$> vs)).
Proof.
  intros Hall Hj. unfold Vector_sum.
  induction Hall as [|v vs Hv _ IH]; cbn [foldr fmap list_fmap sum_list].
  - by rewrite lookup_replicate_2.
  - rewrite lookup_zip_with, IH.
    destruct (lookup_lt_is_Some_2 v j) as [x ->]; [lia|]. done.
Qed.

(** The sum of the vectors of the workers, when every entry is assigned by
    the worker that owns the station and is 0 on all others. *)
Lemma Vector_sum_owner {A} (f : A -> nat) (size : nat) (stations : list A) :
  0 < size ->
  Vector_sum (length stations)
    ((fun rank => imap (fun j a => if decide (j mod size = rank) then f a else 0) stations)
       <$> seq 0 size) = f <$> stations.
Proof.
  intros Hsize.
  assert (Hall : Forall (fun v => length v = length stations)
                   ((fun rank => imap (fun j a => if decide (j mod size = rank) then f a else 0)
                                      stations) <$> seq 0 size)).
  { apply Forall_fmap, Forall_forall. intros rank _. simpl. by rewrite length_imap. }
  apply list_eq. intros j.
  destruct (decide (j < length stations)) as [Hj|Hj].
  - rewrite Vector_sum_lookup by done.
    rewrite list_lookup_fmap.
    destruct (lookup_lt_is_Some_2 stations j Hj) as [a Ha]. rewrite Ha. simpl. f_equal.
    rewrite <- list_fmap_compose.
    rewrite (list_fmap_ext _ (fun r => if decide (j mod size = r) then f a else 0) (seq 0 size)).
    + rewrite sum_indicator. rewrite decide_True; [done|].
      pose proof (Nat.mod_upper_bound j size). lia.
    + intros i rank _. simpl. rewrite list_lookup_imap, Ha. simpl.
      by destruct (decide (j mod size = rank)).
  - rewrite !lookup_ge_None_2; [done| |].
    + rewrite length_fmap. lia.
    + rewrite length_Vector_sum by done. lia.
Qed.

(** ** init: the stored receivers and the run on all workers *)

Section InitProperties.
Context `{Collaborators}.
Variable cfg : Config.

Lemma storeValid_spec (stations : list (list GnssReceiver)) (vs : list nat)
    (acc : list GnssReceiver) :
  Forall2 (fun alts v => v <= length alts) stations vs ->
  storeValid cfg stations vs acc =
  Returns (acc ++ take (max 1 (maxStationCount cfg - length acc))
                       (selectedReceivers stations vs)).
Proof.
  intros Hall. revert acc.
  induction Hall as [|alts v stations vs Hv _ IH]; intros acc.
  - unfold selectedReceivers. simpl. by rewrite take_nil, app_nil_r.
  - cbn [storeValid]. unfold selectedReceivers. cbn [zip zip_with omap list_omap fst snd].
    unfold selectedReceiver at 1.
    destruct (decide (0 < v)) as [Hpos|Hzero]; [|apply IH].
    destruct (lookup_lt_is_Some_2 alts (v - 1)) as [recv Hrecv]; [lia|].
    rewrite Hrecv. rewrite length_app. cbn [length].
    destruct (decide (maxStationCount cfg <= length acc + 1)) as [Hfull|Hroom].
    + replace (max 1 (maxStationCount cfg - length acc)) with 1 by lia. by simpl; rewrite take_0.
    + rewrite IH, length_app. cbn [length].
      replace (max 1 (maxStationCount cfg - length acc))
        with (S (max 1 (maxStationCount cfg - (length acc + 1)))) by lia.
      cbn [take firstn]. by rewrite <- app_assoc.
Qed.

Lemma init_lookup (ts : list Time) (stationName : list (list string)) (size rank : nat) :
  rank < size ->
  init cfg ts stationName size !! rank =
  Some {| receiversWithAlternatives := stationsAfter cfg ts size rank (stationsOf cfg ts stationName);
          receiverAlternative := selectedVector cfg ts (stationsOf cfg ts stationName);
          storedReceivers :=
            storeValid cfg (stationsAfter cfg ts size rank (stationsOf cfg ts stationName))
                       (selectedVector cfg ts (stationsOf cfg ts stationName)) [];
          initEvents :=
            logStatus "init station network" :: (createStations cfg ts stationName).2
              ++ logStatus "read observations"
              :: concat (imap (fun j alts =>
                                 if decide (j mod size = rank)
                                 then logTimerLoop j (length (stationsOf cfg ts stationName))
                                        :: (testAlternatives cfg ts 0 alts).2
                                 else [])
                              (stationsOf cfg ts stationName)) |}.
Proof.
  intros Hrank. unfold init. fold (stationsOf cfg ts stationName).
  set (stations := stationsOf cfg ts stationName).
  rewrite (list_fmap_ext _ (fun rank0 =>
             (stationsAfter cfg ts size rank0 stations,
              imap (fun j alts => if decide (j mod size = rank0)
                                  then (testAlternatives cfg ts 0 alts).1.2 else 0) stations,
              concat (imap (fun j alts => if decide (j mod size = rank0)
                                          then logTimerLoop j (length stations)
                                                 :: (testAlternatives cfg ts 0 alts).2
                                          else []) stations))) (seq 0 size));
    [|intros i rank0 _; by rewrite stationsLoop_spec].
  rewrite <- list_fmap_compose.
  rewrite broadCast_reduceSum; [|destruct size; [lia|done]].
  rewrite length_fmap, length_seq.
  rewrite (list_fmap_ext _ (fun rank0 =>
             imap (fun j alts => if decide (j mod size = rank0)
                                 then (fun a => (testAlternatives cfg ts 0 a).1.2) alts else 0)
                  stations) (seq 0 size)) by done.
  rewrite Vector_sum_owner by lia.
  rewrite lookup_zip_with, list_lookup_fmap, lookup_seq_lt by done.
  cbn [fmap option_fmap option_map mbind option_bind].
  rewrite lookup_replicate_2 by done. by cbn [mbind option_bind fst snd].
Qed.

Lemma init_lookup_rank (ts : list Time) (stationName : list (list string)) (size rank : nat)
    (st : InitState) :
  init cfg ts stationName size !! rank = Some st -> rank < size.
Proof.
  intros Hst. apply lookup_lt_Some in Hst. unfold init in Hst.
  rewrite length_zip_with, !length_fmap, length_seq in Hst. lia.
Qed.

Lemma init_stored (ts : list Time) (size rank : nat) (stations : list (list GnssReceiver)) :
  storeValid cfg (stationsAfter cfg ts size rank stations) (selectedVector cfg ts stations) [] =
  Returns (take (max 1 (maxStationCount cfg))
                (selectedReceivers (stationsAfter cfg ts size rank stations)
                                   (selectedVector cfg ts stations))).
Proof.
  rewrite storeValid_spec.
  - simpl. by rewrite Nat.sub_0_r.
  - apply Forall2_same_length_lookup_2.
    + unfold stationsAfter, selectedVector. by rewrite length_imap, length_fmap.
    + intros j alts1 v. unfold stationsAfter, selectedVector.
      rewrite list_lookup_imap, list_lookup_fmap.
      destruct (stations !! j) as [alts|]; simpl; [|done].
      intros [= <-] [= <-].
      destruct (testAlternatives_bound cfg ts alts 0) as [Hlen Hv].
      destruct (decide (j mod size = rank)); [rewrite Hlen|]; lia.
Qed.

Lemma elem_of_selectedReceivers (stations : list (list GnssReceiver)) (vs : list nat)
    (r : GnssReceiver) :
  r ∈ selectedReceivers stations vs ->
  exists j alts v, stations !! j = Some alts /\ vs !! j = Some v
                   /\ 0 < v /\ alts !! (v - 1) = Some r.
Proof.
  unfold selectedReceivers. rewrite list_elem_of_omap.
  intros ([alts v] & Hin & Hsel).
  apply list_elem_of_lookup in Hin as [j Hj].
  apply lookup_zip_with_Some in Hj as (alts' & v' & [= <- <-] & Halts & Hv).
  unfold selectedReceiver in Hsel. simpl in Hsel.
  destruct (decide (0 < v)); [|done]. by exists j, alts, v.
Qed.

End InitProperties.

(** ** init: the choice among the alternatives *)

Section SelectionProperties.
Context `{Collaborators}.
Variable cfg : Config.

(** The observation files are given (no simulation). *)
Hypothesis observations_given : FileName_empty (fileNameObs cfg) = false.

Lemma selectedVector_select (ts : list Time) (stations : list (list GnssReceiver)) :
  selectedVector cfg ts stations = selectAlternative cfg ts <$> stations.
Proof.
  unfold selectedVector. apply list_fmap_ext. intros _ alts _.
  unfold selectAlternative.
  destruct (testAlternatives_first cfg observations_given ts alts 0) as [_ Hfind].
  destruct (list_find _ alts) as [[k r]|]; [|done]. by destruct Hfind as [-> _].
Qed.

(** C9. With observation files given, on every worker and for every station:
    the entry of receiverAlternative after the reduce and the broadcast is the
    position of the first alternative, in the order of the station list, that
    qualifies (its pass does not throw and countEpochs*observationSampling is
    not below minEstimableEpochsRatio*times.size()*medianSampling, which for
    doubles that are numbers is ">="), or 0 when none does. The alternatives of a station are the names of its line whose
    observation file exists and whose station info could be loaded. The loop
    stops at the selected alternative: the ones behind it are not tried. The
    stored receivers are the selected receivers of the stations with a
    positive entry, in the order of the stations, up to maxStationCount; a
    station with entry 0 contributes none. *)
Theorem init_selects_first_qualifying (ts : list Time) (stationName : list (list string))
    (size rank : nat) (st : InitState) :
  init cfg ts stationName size !! rank = Some st ->
  let stations := stationsOf cfg ts stationName in
  receiverAlternative st = selectAlternative cfg ts <$> stations
  /\ (forall alts, alts ∈ stations ->
        (exists names, names ∈ stationName
                       /\ name <$> alts = List.filter (createsReceiver cfg ts) names)
        /\ Forall (fun recv => System_exists (observationFile cfg recv) = true) alts)
  /\ (forall alts k, selectAlternative cfg ts alts = S k ->
        (exists recv, alts !! k = Some recv /\ qualifies cfg ts recv = true)
        /\ (forall k' recv', k' < k -> alts !! k' = Some recv' ->
              qualifies cfg ts recv' = false)
        /\ testAlternatives cfg ts 0 alts =
           match testAlternatives cfg ts 0 (take (S k) alts) with
           | (alts1, v, ev) => (alts1 ++ drop (S k) alts, v, ev)
           end)
  /\ (forall alts, selectAlternative cfg ts alts = 0 ->
        Forall (fun recv => qualifies cfg ts recv = false) alts
        /\ selectedReceiver alts 0 = None)
  /\ (forall recv,
        (estimableLhs recv ts =? estimableLhs recv ts)%float = true ->
        (estimableRhs cfg ts =? estimableRhs cfg ts)%float = true ->
        negb (tooFewEpochs cfg recv ts) = (estimableRhs cfg ts <=? estimableLhs recv ts)%float)
  /\ storedReceivers st =
     Returns (take (max 1 (maxStationCount cfg))
                   (selectedReceivers (receiversWithAlternatives st) (receiverAlternative st))).
Proof.
  intros Hst stations.
  rewrite (init_lookup cfg ts stationName size rank) in Hst
    by (by eapply init_lookup_rank).
  injection Hst as <-. simpl.
  split; [apply selectedVector_select|].
  split.
  { intros alts Hin.
    destruct (removeEmptyStations_spec cfg ts stationName alts Hin) as (_ & Hnames & Hall).
    split; [done|]. eapply Forall_impl; [exact Hall|]. simpl. intros recv (_ & _ & Hex).
    by apply Hex. }
  split.
  { intros alts k Hsel. unfold selectAlternative in Hsel.
    destruct (testAlternatives_first cfg observations_given ts alts 0) as [_ Hfind].
    destruct (list_find _ alts) as [[k0 r]|] eqn:Hlf; [|done].
    injection Hsel as ->.
    apply list_find_Some in Hlf as (Hr & Hq & Hbefore).
    split; [by exists r|]. split; [|by destruct Hfind].
    intros k' recv' Hlt Hrecv'. specialize (Hbefore k' recv' Hrecv' Hlt).
    by destruct (qualifies cfg ts recv'). }
  split.
  { intros alts Hsel. split; [|done]. unfold selectAlternative in Hsel.
    destruct (list_find _ alts) as [[k0 r]|] eqn:Hlf; [done|].
    apply list_find_None in Hlf. eapply Forall_impl; [exact Hlf|]. simpl.
    intros recv Hn. by destruct (qualifies cfg ts recv). }
  split; [intros recv; apply Double_not_ltb|].
  apply init_stored.
Qed.

End SelectionProperties.

(** ** The aggregates of the workers *)

Section AggregateProperties.
Context `{Collaborators}.
Variable cfg : Config.

(** C6 (as the code has it). In init, after the loop, the barrier, the reduce
    and the broadcast, the vector of the selected alternatives is the same on
    every worker: it holds, for every station, what the worker of the station
    assigned. In preprocessing the counter of disabled stations is reduced onto
    worker 0 and not broadcast: worker 0 holds the number of stations disabled
    on all workers, every other worker holds the number of its own. *)
Theorem aggregates_after_reduce (ts : list Time) (stationName : list (list string))
    (size : nat) (workers : list (list GnssReceiver)) :
  (forall rank st, init cfg ts stationName size !! rank = Some st ->
     receiverAlternative st = selectedVector cfg ts (stationsOf cfg ts stationName))
  /\ (forall rank rs, workers !! rank = Some rs ->
        exists w ev,
          preprocessing cfg ts workers !! rank = Some (Returns tt, w, ev)
          /\ disabledStations w =
             if decide (rank = 0) then globalCount cfg ts workers else localCount cfg ts rs).
Proof.
  split.
  - intros rank st Hst.
    rewrite (init_lookup cfg ts stationName size rank) in Hst by (by eapply init_lookup_rank).
    by injection Hst as <-.
  - intros rank rs Hrs. unfold preprocessing.
    rewrite <- list_fmap_compose.
    rewrite (list_fmap_ext _ (localCount cfg ts) workers);
      [|intros i rs0 _; simpl; by destruct (preprocessingLocal_spec cfg ts rs0) as [ev ->]].
    rewrite lookup_zip_with, list_lookup_fmap, Hrs. simpl.
    destruct (preprocessingLocal_spec cfg ts rs) as [ev ->].
    destruct (decide (rank = 0)) as [->|Hne].
    + rewrite reduceSum_root
        by (intros Hnil; apply fmap_nil_inv in Hnil; by rewrite Hnil in Hrs).
      simpl. by eexists _, _.
    + rewrite reduceSum_other, list_lookup_fmap, Hrs by done.
      simpl. by eexists _, _.
Qed.

End AggregateProperties.

(** ** The partition of the stations *)

Section PartitionProperties.
Context `{Collaborators}.
Variable cfg : Config.

Lemma forM_no_events {S X} (body : X -> M S unit) (xs : list X) (s : S) :
  (forall x s0, (body x s0).2 = []) -> (forM_ xs body s).2 = [].
Proof.
  intros Hbody. revert s. induction xs as [|x xs IH]; intros s; simpl; [done|].
  unfold bind. specialize (Hbody x s).
  destruct (body x s) as [[[u|e] s1] ev1]; simpl in *; [|done].
  specialize (IH s1). destruct (forM_ xs body s1) as [[o s2] ev2]; simpl in *.
  by rewrite Hbody, IH.
Qed.

Lemma setupReceiver_events (ts : list Time) (recv : GnssReceiver) :
  (setupReceiver ts recv).2 = [].
Proof.
  unfold setupReceiver, bind, modify.
  pose proof (forM_no_events (setupEpoch ts) (seq 0 (length ts)) (sizeToEpochs ts recv)) as Hev.
  destruct (forM_ _ _ _) as [[o r] ev]; simpl in *. apply Hev.
  intros idEpoch r0. unfold setupEpoch.
  destruct (ts !! idEpoch) as [t|]; [|done].
  destruct (findAntenna (info r0) t) as [idAnt|]; [|done].
  destruct (antenna (info r0) !! idAnt) as [ant|]; [|done].
  destruct (antennaComplete ant); [|done].
  destruct (at_put idEpoch _ (offset r0)) as [o'|e]; [|done].
  by destruct (at_put idEpoch _ (local2antenna _)) as [l|e].
Qed.

Lemma testAlternatives_no_timer (ts : list Time) (alts : list GnssReceiver) (k : nat) :
  Forall (fun ev => isTimerLoop ev = false) (testAlternatives cfg ts k alts).2.
Proof.
  revert k. induction alts as [|recv rest IH]; intros k; simpl; [done|].
  assert (Hone : Forall (fun ev => isTimerLoop ev = false) (testAlternative cfg ts k recv).2).
  { unfold testAlternative, bind.
    pose proof (setupReceiver_events ts recv) as Hset.
    destruct (setupReceiver ts recv) as [[[u|e] r1] ev1]; simpl in *; subst; [|done].
    unfold readAndCount. destruct (FileName_empty (fileNameObs cfg)); [done|].
    unfold bind, get, call. simpl.
    destruct (readObservations _ r1) as [[u2|e] r2]; simpl; [|by repeat constructor].
    unfold ret. destruct (tooFewEpochs cfg r2 ts); by repeat constructor. }
  specialize (IH (S k)).
  destruct (testAlternative cfg ts k recv) as [[[[v|]|e] recv1] ev]; simpl in *; [done| |].
  - destruct (testAlternatives cfg ts (S k) rest) as [[rest1 v] evs]; simpl in *.
    by apply Forall_app.
  - destruct (testAlternatives cfg ts (S k) rest) as [[rest1 v] evs]; simpl in *.
    apply Forall_app. split; [done|]. by constructor.
Qed.

Lemma createStations_no_timer (ts : list Time) (stationName : list (list string)) :
  Forall (fun ev => isTimerLoop ev = false) (createStations cfg ts stationName).2.
Proof.
  assert (Halts : forall names,
             Forall (fun ev => isTimerLoop ev = false) (createAlternatives cfg ts names).2).
  { induction names as [|nm names IH]; simpl; [done|].
    assert (Hone : Forall (fun ev => isTimerLoop ev = false) (createReceiver cfg ts nm).2).
    { eapply Forall_impl; [apply createReceiver_once|]. by intros ev [msg ->]. }
    destruct (createReceiver cfg ts nm) as [[recv|] ev];
      destruct (createAlternatives cfg ts names) as [recvs evs]; simpl in *;
      by apply Forall_app. }
  induction stationName as [|names rest IH]; simpl; [done|].
  specialize (Halts names).
  destruct (createAlternatives cfg ts names) as [alts ev];
    destruct (createStations cfg ts rest) as [stations evs]; simpl in *.
  by apply Forall_app.
Qed.

Lemma elem_of_concat {A} (x : A) (ls : list (list A)) :
  x ∈ concat ls <-> exists l, l ∈ ls /\ x ∈ l.
Proof.
  rewrite list_elem_of_In, in_concat.
  split; intros (l & Hl & Hx); exists l; by rewrite ?list_elem_of_In in *.
Qed.

Lemma no_timer_not_elem (evs : list Event) (i n : nat) :
  Forall (fun ev => isTimerLoop ev = false) evs -> logTimerLoop i n ∉ evs.
Proof.
  intros Hall Hin. rewrite Forall_forall in Hall. by specialize (Hall _ Hin).
Qed.

(** Reading the observations does not change the rank flag. *)
Hypothesis readObservations_isMyRank :
  forall fileName recv, isMyRank_ (readObservations fileName recv).2 = isMyRank_ recv.

(** C7. On the worker [rank] of [size] workers, for the stations numbered as
    init holds them (the lines of the station list that have a receiver):
    init reads the observations of station i exactly when i mod size = rank,
    and leaves the receivers of every other station as they were; every
    receiver that init stores belongs to a station i and carries the rank flag
    exactly when i mod size = rank; preprocessing runs the pipeline on the
    receivers with the rank flag and leaves all other receivers as they
    are. *)
Theorem stations_round_robin (ts : list Time) (stationName : list (list string))
    (size rank : nat) (st : InitState) :
  init cfg ts stationName size !! rank = Some st ->
  let stations := stationsOf cfg ts stationName in
  (forall i alts, stations !! i = Some alts ->
     receiversWithAlternatives st !! i =
     Some (if decide (i mod size = rank) then (testAlternatives cfg ts 0 alts).1.1 else alts))
  /\ (forall i n, logTimerLoop i n ∈ initEvents st <->
                  n = length stations /\ i < length stations /\ i mod size = rank)
  /\ (forall recvs r, storedReceivers st = Returns recvs -> r ∈ recvs ->
        exists i alts1 v,
          receiversWithAlternatives st !! i = Some alts1
          /\ receiverAlternative st !! i = Some v /\ 0 < v /\ alts1 !! (v - 1) = Some r
          /\ isMyRank_ r = bool_decide (i mod size = rank))
  /\ (forall gnssTimes rs, exists ev,
        preprocessingLocal cfg gnssTimes rs =
        (Returns tt,
         {| receivers :=
              (fun recv => if isMyRank_ recv then stationResult cfg gnssTimes recv else recv)
                <$> rs;
            disabledStations := localCount cfg gnssTimes rs |},
         ev)).
Proof.
  intros Hst stations.
  rewrite (init_lookup cfg ts stationName size rank) in Hst by (by eapply init_lookup_rank).
  injection Hst as <-. cbn [receiversWithAlternatives receiverAlternative storedReceivers initEvents].
  fold stations.
  split.
  { intros i alts Hi. unfold stationsAfter. by rewrite list_lookup_imap, Hi. }
  split.
  { intros i n. rewrite elem_of_cons, elem_of_app, elem_of_cons, elem_of_concat.
    split.
    - intros [Heq|[Hin|[Heq|(l & Hl & Hin)]]]; try done.
      + by apply no_timer_not_elem in Hin; [|apply createStations_no_timer].
      + apply elem_of_lookup_imap in Hl as (j & alts & -> & Hj).
        destruct (decide (j mod size = rank)); [|by apply elem_of_nil in Hin].
        apply elem_of_cons in Hin as [[= -> ->]|Hin].
        * split; [done|]. split; [by eapply lookup_lt_Some|done].
        * by apply no_timer_not_elem in Hin; [|apply testAlternatives_no_timer].
    - intros (-> & Hi & Hmod). right. right. right.
      destruct (lookup_lt_is_Some_2 stations i Hi) as [alts Halts].
      exists (logTimerLoop i (length stations) :: (testAlternatives cfg ts 0 alts).2).
      split; [|apply list_elem_of_here].
      apply elem_of_lookup_imap. exists i, alts.
      by rewrite decide_True. }
  split; [|intros gnssTimes rs; apply preprocessingLocal_spec].
  intros recvs r. rewrite init_stored. intros [= <-] Hin.
  apply elem_of_take in Hin as (p & Hin%list_elem_of_lookup_2 & _).
  apply elem_of_selectedReceivers in Hin as (i & alts1 & v & Halts1 & Hv & Hpos & Hr).
  exists i, alts1, v. do 4 (split; [done|]).
  unfold stationsAfter, selectedVector in *.
  rewrite list_lookup_imap in Halts1. rewrite list_lookup_fmap in Hv.
  destruct (stations !! i) as [alts|] eqn:Hi; simpl in *; [|done].
  injection Halts1 as <-. injection Hv as <-.
  destruct (decide (i mod size = rank)) as [Hmine|Hother].
  - rewrite bool_decide_eq_true_2 by done.
    apply (testAlternatives_mine cfg readObservations_isMyRank ts alts 0 (_ - 1) r Hr). lia.
  - rewrite bool_decide_eq_false_2 by done.
    destruct (removeEmptyStations_spec cfg ts stationName alts) as (_ & _ & Hall).
    { by eapply list_elem_of_lookup_2. }
    rewrite Forall_forall in Hall.
    by destruct (Hall r (list_elem_of_lookup_2 _ _ _ Hr)) as [-> _].
Qed.

End PartitionProperties.

(** ** init: the stations of the list and the log *)

Section StationListProperties.
Context `{Collaborators}.
Variable cfg : Config.

Lemma createReceiver_events (ts : list Time) (nm : string) :
  (createReceiver cfg ts nm).2 = creationEvents cfg ts nm.
Proof.
  unfold createReceiver, creationEvents, observationsMissing.
  destruct (_ && _); [done|]. by destruct (loadStationInfo cfg ts _).
Qed.

Lemma createAlternatives_events (ts : list Time) (names : list string) :
  (createAlternatives cfg ts names).2 = concat (creationEvents cfg ts <$> names).
Proof.
  induction names as [|nm names IH]; [done|].
  cbn [createAlternatives]. rewrite fmap_cons, concat_cons.
  pose proof (createReceiver_events ts nm) as Hone.
  destruct (createReceiver cfg ts nm) as [[recv|] ev];
    destruct (createAlternatives cfg ts names) as [recvs evs]; simpl in *;
    by rewrite Hone, IH.
Qed.

Lemma createStations_spec (ts : list Time) (stationName : list (list string)) :
  (fun alts : list GnssReceiver => name <$> alts) <$> (createStations cfg ts stationName).1
    = List.filter (createsReceiver cfg ts) <$> stationName
  /\ (createStations cfg ts stationName).2
     = concat (creationEvents cfg ts <$> concat stationName).
Proof.
  induction stationName as [|names rest [IHs IHe]]; [done|].
  cbn [createStations].
  destruct (createAlternatives_spec cfg ts names) as [Hn _].
  pose proof (createAlternatives_events ts names) as He.
  destruct (createAlternatives cfg ts names) as [alts ev];
    destruct (createStations cfg ts rest) as [stations evs]; simpl in *.
  split.
  - f_equal; [exact Hn|exact IHs].
  - by rewrite fmap_app, concat_app, He, IHe.
Qed.

Lemma removeEmptyStations_names (stations : list (list GnssReceiver)) :
  (fun alts : list GnssReceiver => name <$> alts) <$> removeEmptyStations stations
  = filter (fun names : list string => names <> [])
           ((fun alts : list GnssReceiver => name <$> alts) <$> stations).
Proof.
  unfold removeEmptyStations.
  induction stations as [|alts stations IH]; [done|].
  rewrite fmap_cons, !filter_cons.
  destruct alts as [|recv alts].
  - rewrite decide_False by (intros Hn; by apply Hn).
    rewrite decide_False by (intros Hn; by apply Hn). exact IH.
  - rewrite decide_True by done. rewrite decide_True by done.
    rewrite fmap_cons. by rewrite IH.
Qed.

(** X1. The stations that init holds follow the station list: a line of the
    list yields a station exactly when a receiver is created for one of its
    names; the stations are in the order of the lines and the alternatives of
    a station are in the order of the names of its line; no station is empty
    and there are not more stations than lines. A receiver is created for a
    name exactly when its observation file is not missing (observation files
    given and System::exists false) and the station info can be loaded; the
    station position file plays no part in that. For a time axis that is not
    empty, the lines written by the creation are, name by name in the order
    of the list: nothing for a name whose observation file is missing; the
    warning with the name and the reason when the station info cannot be
    loaded; and, when it is loaded, one warning for every antenna of the
    station that overlaps the time axis (timeEnd > first epoch and
    timeStart <= last epoch) and lacks its antenna or accuracy definition,
    naming the marker, the kind of definition that is missing (antenna when
    the antenna definition is missing, accuracy otherwise) and the antenna.
    All of these lines are written with logWarningOnce. *)
Theorem init_creates_stations_in_list_order (ts : list Time)
    (stationName : list (list string)) :
  (fun alts : list GnssReceiver => name <$> alts) <$> stationsOf cfg ts stationName
    = filter (fun names : list string => names <> [])
             (List.filter (createsReceiver cfg ts) <$> stationName)
  /\ Forall (fun alts => alts <> []) (stationsOf cfg ts stationName)
  /\ length (stationsOf cfg ts stationName) <= length stationName
  /\ (forall front back, head ts = Some front -> last ts = Some back ->
        (createStations cfg ts stationName).2 =
        concat ((fun nm =>
                   if observationsMissing cfg nm then []
                   else match loadStationInfo cfg ts (stationVariables nm) with
                        | Returns i =>
                            omap (fun ant =>
                                    if Time_gt (timeEnd ant) front
                                       && Time_le (timeStart ant) back
                                       && negb (antennaComplete ant)
                                    then Some (logWarningOnce
                                                 (markerName i +:+ "." +:+ markerNumber i
                                                    +:+ ": No "
                                                    +:+ match antennaDef ant with
                                                        | None => "antenna"
                                                        | Some _ => "accuracy"
                                                        end
                                                    +:+ " definition found for "
                                                    +:+ GnssAntennaInfo_str ant))
                                    else None) (antenna i)
                        | Throws e => [logWarningOnce (nm +:+ " disabled: " +:+ e)]
                        end) <$> concat stationName))
  /\ Forall (fun ev => exists msg, ev = logWarningOnce msg) (createStations cfg ts stationName).2
  /\ (forall nm,
        createsReceiver cfg ts nm =
        negb (observationsMissing cfg nm)
        && match readFileGnssStationInfo
                   (expand (fileNameStationInfo cfg) (stationVariables nm)) with
           | Returns i0 =>
               match fillAntennaPattern i0 with
               | Returns i1 =>
                   match fillReceiverDefinition i1 with
                   | Returns i2 =>
                       match fillAntennaAccuracy i2 with
                       | Returns _ => true
                       | Throws _ => false
                       end
                   | Throws _ => false
                   end
               | Throws _ => false
               end
           | Throws _ => false
           end).
Proof.
  destruct (createStations_spec ts stationName) as [Hs He].
  split; [|split; [|split; [|split; [|split]]]].
  - unfold stationsOf. by rewrite removeEmptyStations_names, Hs.
  - unfold stationsOf, removeEmptyStations. apply Forall_forall.
    intros alts Hin. by apply list_elem_of_filter in Hin as [Hne _].
  - unfold stationsOf, removeEmptyStations.
    etransitivity; [apply length_filter|].
    apply (f_equal length) in Hs. rewrite !length_fmap in Hs. by rewrite Hs.
  - intros front back Hfront Hback. rewrite He. f_equal.
    apply list_fmap_ext. intros _ nm _. unfold creationEvents.
    destruct (observationsMissing cfg nm); [done|].
    destruct (loadStationInfo cfg ts _) as [i|e]; [|done].
    unfold completenessWarnings. rewrite Hfront, Hback.
    induction (antenna i) as [|ant ants IH]; [done|].
    cbn [omap list_omap]. rewrite IH.
    replace (lacksDefinition ant) with (negb (antennaComplete ant)); [done|].
    unfold lacksDefinition, antennaComplete.
    by destruct (antennaDef ant), (accuracyDef ant).
  - rewrite He. apply Forall_forall. intros ev Hin.
    apply elem_of_concat in Hin as (l & Hl & Hin).
    apply list_elem_of_fmap in Hl as (nm & -> & _).
    rewrite <- createReceiver_events in Hin.
    pose proof (createReceiver_once cfg ts nm) as Honce.
    rewrite Forall_forall in Honce. by apply Honce.
  - intros nm. unfold createsReceiver, createReceiver, observationsMissing.
    destruct (_ && _); [done|]. simpl. unfold loadStationInfo.
    destruct (readFileGnssStationInfo _) as [i0|e]; [|done].
    destruct (fillAntennaPattern i0) as [i1|e]; [|done].
    destruct (fillReceiverDefinition i1) as [i2|e]; [|done].
    destruct (fillAntennaAccuracy i2) as [i3|e]; [|done].
    destruct (FileName_empty (fileNameStationPosition cfg)); [done|].
    by destruct (readStationPosition _ ts).
Qed.

End StationListProperties.

Section InitLogProperties.
Context `{Collaborators}.
Variable cfg : Config.

(** The observation files are given (no simulation). *)
Hypothesis observations_given : FileName_empty (fileNameObs cfg) = false.

Lemma triedAlternatives_cons (ts : list Time) (recv : GnssReceiver) (rest : list GnssReceiver) :
  triedAlternatives cfg ts (recv :: rest) =
  if qualifies cfg ts recv then [recv] else recv :: triedAlternatives cfg ts rest.
Proof.
  unfold triedAlternatives. cbn [list_find].
  destruct (qualifies cfg ts recv) eqn:Hq.
  - by rewrite decide_True by done.
  - rewrite decide_False by congruence.
    destruct (list_find _ rest) as [[j r]|]; cbn [fmap option_fmap option_map prod_map fst snd id];
      done.
Qed.

Lemma setupReceiver_name (ts : list Time) (recv : GnssReceiver) :
  name (setupReceiver ts recv).1.2 = name recv.
Proof.
  unfold setupReceiver, bind, modify.
  pose proof (forM_preserves (fun r => name r = name recv) (setupEpoch ts)
                (seq 0 (length ts)) (sizeToEpochs ts recv)) as Hloop.
  destruct (forM_ _ _ _) as [[o r] ev]; simpl in *. apply Hloop; [|done].
  intros idEpoch r0 Hr0. unfold setupEpoch.
  destruct (ts !! idEpoch) as [t|]; [|done].
  destruct (findAntenna (info r0) t) as [idAnt|]; [|done].
  destruct (antenna (info r0) !! idAnt) as [ant|]; [|done].
  destruct (antennaComplete ant); [|done].
  destruct (at_put idEpoch _ (offset r0)) as [o'|e]; [|done].
  by destruct (at_put idEpoch _ (local2antenna _)) as [l|e].
Qed.

(** The pass over one alternative: what it yields and the events it leaves,
    with the warning of the catch block. *)
Lemma testAlternative_pass (ts : list Time) (k : nat) (recv : GnssReceiver) :
  match testAlternative cfg ts k recv with
  | (Returns (Some _), _, ev) => qualifies cfg ts recv = true /\ ev = alternativeEvents cfg ts recv
  | (Returns None, _, ev) => qualifies cfg ts recv = false /\ ev = alternativeEvents cfg ts recv
  | (Throws e, recv1, ev) =>
      qualifies cfg ts recv = false
      /\ ev ++ [logWarning (disabledMessage recv1 e)] = alternativeEvents cfg ts recv
  end.
Proof.
  unfold testAlternative, qualifies, alternativeEvents, bind.
  pose proof (setupReceiver_events ts recv) as Hev.
  pose proof (setupReceiver_name ts recv) as Hname.
  destruct (setupReceiver ts recv) as [[[u|e] recv1] ev1]; simpl in Hev, Hname; subst ev1;
    [|done].
  unfold readAndCount. rewrite observations_given.
  unfold bind, get, call, observationFile; simpl. rewrite Hname.
  destruct (readObservations _ recv1) as [[u2|e] recv2]; simpl; [|done].
  unfold ret. by destruct (tooFewEpochs cfg recv2 ts).
Qed.

Lemma testAlternatives_events (ts : list Time) (alts : list GnssReceiver) (k : nat) :
  (testAlternatives cfg ts k alts).2 =
  concat (alternativeEvents cfg ts <$> triedAlternatives cfg ts alts).
Proof.
  revert k. induction alts as [|recv rest IH]; intros k; [done|].
  rewrite triedAlternatives_cons. cbn [testAlternatives].
  pose proof (testAlternative_pass ts k recv) as Hpass. specialize (IH (S k)).
  destruct (testAlternative cfg ts k recv) as [[[[v|]|e] recv1] ev].
  - destruct Hpass as [-> ->]. simpl. by rewrite app_nil_r.
  - destruct Hpass as [-> ->].
    destruct (testAlternatives cfg ts (S k) rest) as [[rest1 v] evs]. simpl in *.
    by rewrite IH.
  - destruct Hpass as [-> Hev].
    destruct (testAlternatives cfg ts (S k) rest) as [[rest1 v] evs].
    cbn [fst snd] in *. rewrite fmap_cons, concat_cons, <- Hev, IH.
    by rewrite <- app_assoc.
Qed.

(** The index that findAntenna returns is an index of the antenna list. *)
Hypothesis findAntenna_valid :
  forall i t idAnt, findAntenna i t = Some idAnt -> idAnt < length (antenna i).

(** X2. The log of init on a worker, with observation files given and a
    time axis that is not empty: the status line; the lines of the creation
    of the receivers (for every name of the list in order: nothing when the
    observation file is missing, the warning of the catch block when the
    station info cannot be loaded, the warnings of the completeness test of
    the antennas when it is loaded); the status line of the reading; and
    then, for each station of the worker in order, the timer line followed by
    the events of the alternatives that are tried. The alternatives tried are
    those up to the first one that qualifies (all of them when none does).
    For a tried alternative the observation file named by the template for
    the name of the alternative is read exactly once; a warning with the name
    and the reason is written exactly when the read throws; an alternative
    rejected for too few epochs leaves no line. Nothing is read for the
    alternatives behind the selected one and for the stations of other
    workers. *)
Theorem init_log_of_worker (ts : list Time) (stationName : list (list string))
    (size rank : nat) (st : InitState) :
  ts <> [] ->
  init cfg ts stationName size !! rank = Some st ->
  let stations := stationsOf cfg ts stationName in
  initEvents st =
    logStatus "init station network" :: concat (creationEvents cfg ts <$> concat stationName)
      ++ logStatus "read observations"
      :: concat (imap (fun j alts =>
                         if decide (j mod size = rank)
                         then logTimerLoop j (length stations)
                              :: concat (alternativeEvents cfg ts <$> triedAlternatives cfg ts alts)
                         else []) stations)
  /\ (forall nm,
        creationEvents cfg ts nm =
        if negb (FileName_empty (fileNameObs cfg))
           && negb (System_exists (expand (fileNameObs cfg) (stationVariables nm)))
        then []
        else match loadStationInfo cfg ts (stationVariables nm) with
             | Returns i => completenessWarnings ts i
             | Throws e => [logWarningOnce (nm +:+ " disabled: " +:+ e)]
             end)
  /\ (forall alts,
        triedAlternatives cfg ts alts =
        take (if decide (selectAlternative cfg ts alts = 0) then length alts
              else selectAlternative cfg ts alts) alts)
  /\ (forall recv,
        alternativeEvents cfg ts recv =
        Call (op_readObservations (expand (fileNameObs cfg) (stationVariables (name recv)))) ::
        match readObservations (expand (fileNameObs cfg) (stationVariables (name recv)))
                               (setupReceiver ts recv).1.2 with
        | (Returns _, _) => []
        | (Throws e, recv2) => [logWarning (disabledMessage recv2 e)]
        end).
Proof.
  intros Hts Hst stations.
  rewrite (init_lookup cfg ts stationName size rank) in Hst by (by eapply init_lookup_rank).
  injection Hst as <-. cbn [initEvents]. fold stations.
  split; [|split; [|split]].
  - destruct (createStations_spec cfg ts stationName) as [_ ->].
    do 4 f_equal. apply imap_ext. intros j alts _.
    by rewrite testAlternatives_events.
  - intros nm. done.
  - intros alts. unfold triedAlternatives, selectAlternative.
    destruct (list_find _ alts) as [[k r]|]; simpl; [done|].
    by rewrite firstn_all.
  - intros recv. unfold alternativeEvents, observationFile.
    destruct (setup_loop findAntenna_valid ts (length ts) (sizeToEpochs ts recv))
      as (recv1 & Hrun & _).
    { done. }
    { simpl. by rewrite length_resize. }
    { simpl. by rewrite length_resize. }
    assert (Hsetup : setupReceiver ts recv = (Returns tt, recv1, [])).
    { unfold setupReceiver, bind, modify. by rewrite Hrun. }
    by rewrite Hsetup.
Qed.

End InitLogProperties.

(** ** init: the series of a receiver *)

Section SeriesProperties.
Context `{Collaborators}.

(** What the loop over the epochs leaves as it is. *)
Lemma setupEpoch_frame (ts : list Time) (idEpoch : nat) (recv : GnssReceiver) :
  let recv1 := (setupEpoch ts idEpoch recv).1.2 in
  name recv1 = name recv /\ info recv1 = info recv /\ times recv1 = times recv
  /\ clk recv1 = clk recv /\ pos recv1 = pos recv /\ vel recv1 = vel recv
  /\ global2local recv1 = global2local recv
  /\ length (offset recv1) = length (offset recv)
  /\ length (local2antenna recv1) = length (local2antenna recv)
  /\ length (useableEpochs recv1) = length (useableEpochs recv).
Proof.
  unfold setupEpoch.
  destruct (ts !! idEpoch) as [t|]; [|done].
  destruct (findAntenna (info recv) t) as [idAnt|];
    [|simpl; by rewrite length_insert].
  destruct (antenna (info recv) !! idAnt) as [ant|]; [|done].
  destruct (antennaComplete ant); [|simpl; by rewrite length_insert].
  unfold at_put. destruct (decide (idEpoch < length (offset recv))); [|done].
  simpl. destruct (decide (idEpoch < length (local2antenna recv))); simpl;
    by rewrite ?length_insert.
Qed.

Lemma setupReceiver_frame (ts : list Time) (recv : GnssReceiver) :
  let recv1 := (setupReceiver ts recv).1.2 in
  name recv1 = name recv /\ info recv1 = info recv /\ times recv1 = ts
  /\ clk recv1 = resize (length ts) 0%float (clk recv)
  /\ pos recv1 = resize (length ts) (approxPosition (info recv)) (pos recv)
  /\ vel recv1 = resize (length ts) Vector3d_zero (vel recv)
  /\ global2local recv1 =
     resize (length ts) (inverse_localNorthEastUp (approxPosition (info recv))) (global2local recv)
  /\ length (offset recv1) = length ts
  /\ length (local2antenna recv1) = length ts
  /\ length (useableEpochs recv1) = length (useableEpochs recv).
Proof.
  unfold setupReceiver, bind, modify.
  pose proof (forM_preserves
                (fun r => name r = name recv /\ info r = info recv /\ times r = ts
                          /\ clk r = resize (length ts) 0%float (clk recv)
                          /\ pos r = resize (length ts) (approxPosition (info recv)) (pos recv)
                          /\ vel r = resize (length ts) Vector3d_zero (vel recv)
                          /\ global2local r =
                             resize (length ts)
                                    (inverse_localNorthEastUp (approxPosition (info recv)))
                                    (global2local recv)
                          /\ length (offset r) = length ts
                          /\ length (local2antenna r) = length ts
                          /\ length (useableEpochs r) = length (useableEpochs recv))
                (setupEpoch ts) (seq 0 (length ts)) (sizeToEpochs ts recv)) as Hloop.
  destruct (forM_ _ _ _) as [[o r] ev]; simpl in *. apply Hloop.
  - intros idEpoch r0 (Hn & Hi & Ht & Hc & Hp & Hv & Hg & Ho & Hl & Hu).
    destruct (setupEpoch_frame ts idEpoch r0)
      as (Hn1 & Hi1 & Ht1 & Hc1 & Hp1 & Hv1 & Hg1 & Ho1 & Hl1 & Hu1).
    repeat split; congruence.
  - by rewrite !length_resize.
Qed.

(** X3. After the setup of an alternative in init, whether the setup returns
    or throws, every series of the receiver (clock, position, velocity,
    antenna offset, the two frames) has exactly one entry per epoch of the
    time axis and the receiver holds the time axis; clock, position and local
    frame are what resize made of them (the entries that were there are kept,
    new ones are 0, the approximate position and its local frame); the name,
    the station info and the length of the usability mask are as before. For
    a receiver that init has just created, the clock is 0 and the position is
    the approximate position at every epoch. *)
Theorem setup_sizes_series_to_epochs (ts : list Time) (recv : GnssReceiver) :
  let recv1 := (setupReceiver ts recv).1.2 in
  sizedToEpochs ts recv1
  /\ clk recv1 = resize (length ts) 0%float (clk recv)
  /\ pos recv1 = resize (length ts) (approxPosition (info recv)) (pos recv)
  /\ global2local recv1 =
     resize (length ts) (inverse_localNorthEastUp (approxPosition (info recv))) (global2local recv)
  /\ name recv1 = name recv /\ info recv1 = info recv
  /\ length (useableEpochs recv1) = length (useableEpochs recv)
  /\ (forall ts0 stationName i,
        recv = newReceiver ts0 stationName i ->
        clk recv1 = replicate (length ts) 0%float
        /\ pos recv1 = replicate (length ts) (approxPosition i)
        /\ length (useableEpochs recv1) = length ts0).
Proof.
  intros recv1.
  destruct (setupReceiver_frame ts recv) as (Hn & Hi & Ht & Hc & Hp & Hv & Hg & Ho & Hl & Hu).
  fold recv1 in Hn, Hi, Ht, Hc, Hp, Hv, Hg, Ho, Hl, Hu.
  split.
  { unfold sizedToEpochs. rewrite Hc, Hp, Hv, Hg, !length_resize. done. }
  do 6 (split; [done|]).
  intros ts0 stationName i ->. rewrite Hc, Hp, Hu. simpl.
  unfold resize. cbn [length]. by rewrite !take_nil, length_replicate, !Nat.sub_0_r.
Qed.

End SeriesProperties.

(** ** init: the stations that are stored *)

Section StoreProperties.
Context `{Collaborators}.
Variable cfg : Config.

Lemma selectedReceivers_cons (alts : list GnssReceiver) (stations : list (list GnssReceiver))
    (v : nat) (vs : list nat) :
  selectedReceivers (alts :: stations) (v :: vs) =
  match selectedReceiver alts v with
  | Some recv => recv :: selectedReceivers stations vs
  | None => selectedReceivers stations vs
  end.
Proof. done. Qed.

Lemma selectedReceivers_names (stations1 stations : list (list GnssReceiver)) (vs : list nat) :
  Forall2 (fun alts1 alts => name <$> alts1 = name <$> alts) stations1 stations ->
  name <$> selectedReceivers stations1 vs = name <$> selectedReceivers stations vs.
Proof.
  intros Hall. revert vs.
  induction Hall as [|alts1 alts stations1 stations Hn _ IH]; intros vs; [done|].
  destruct vs as [|v vs]; [done|].
  rewrite !selectedReceivers_cons.
  assert (Hk : name <$> selectedReceiver alts1 v = name <$> selectedReceiver alts v).
  { unfold selectedReceiver. destruct (decide (0 < v)); [|done].
    by rewrite <- !list_lookup_fmap, Hn. }
  destruct (selectedReceiver alts1 v) as [r1|], (selectedReceiver alts v) as [r|];
    simpl in Hk; try done.
  rewrite !fmap_cons. injection Hk as ->. f_equal. apply IH.
Qed.

Lemma length_selectedReceivers (stations : list (list GnssReceiver)) (vs : list nat) :
  Forall2 (fun alts v => v <= length alts) stations vs ->
  length (selectedReceivers stations vs) = length (List.filter (fun v => 0 <? v) vs).
Proof.
  induction 1 as [|alts v stations vs Hv _ IH]; [done|].
  rewrite selectedReceivers_cons. cbn [List.filter]. unfold selectedReceiver.
  destruct (decide (0 < v)) as [Hpos|Hzero].
  - destruct (lookup_lt_is_Some_2 alts (v - 1)) as [recv ->]; [lia|].
    apply Nat.ltb_lt in Hpos. rewrite Hpos. simpl. by rewrite IH.
  - assert (Hv0 : (0 <? v) = false) by (apply Nat.ltb_ge; lia). by rewrite Hv0.
Qed.

(** Reading the observations does not rename the receiver. *)
Hypothesis readObservations_name :
  forall fileName recv, name (readObservations fileName recv).2 = name recv.

Lemma testAlternative_name (ts : list Time) (k : nat) (recv : GnssReceiver) :
  name (testAlternative cfg ts k recv).1.2 = name recv.
Proof.
  unfold testAlternative, bind.
  destruct (setupReceiver_frame ts recv) as (Hn & _).
  destruct (setupReceiver ts recv) as [[[u|e] r1] ev1]; simpl in *; [|done].
  unfold readAndCount. destruct (FileName_empty (fileNameObs cfg)); [done|].
  unfold bind, get, call. simpl.
  pose proof (readObservations_name (expand (fileNameObs cfg) (stationVariables (name r1))) r1)
    as Hread.
  destruct (readObservations _ r1) as [[u2|e] r2]; simpl in *; [|congruence].
  unfold ret. destruct (tooFewEpochs cfg r2 ts); simpl; congruence.
Qed.

Lemma testAlternatives_names (ts : list Time) (alts : list GnssReceiver) (k : nat) :
  name <$> (testAlternatives cfg ts k alts).1.1 = name <$> alts.
Proof.
  revert k. induction alts as [|recv rest IH]; intros k; [done|].
  cbn [testAlternatives].
  pose proof (testAlternative_name ts k recv) as Hn. specialize (IH (S k)).
  destruct (testAlternative cfg ts k recv) as [[[[v|]|e] recv1] ev]; simpl in Hn.
  - cbn [fst snd]. by rewrite !fmap_cons, Hn.
  - destruct (testAlternatives cfg ts (S k) rest) as [[rest1 v] evs]; cbn [fst snd] in *.
    by rewrite !fmap_cons, Hn, IH.
  - destruct (testAlternatives cfg ts (S k) rest) as [[rest1 v] evs]; cbn [fst snd] in *.
    by rewrite !fmap_cons, Hn, IH.
Qed.

(** X4. The loop that stores the valid receivers never throws: the
    alternative that a positive entry of receiverAlternative designates
    exists. The stations stored are the same on every worker, in the same
    order: the names of the stored receivers are those of the selected
    alternatives of the stations with a positive entry, cut behind
    max(1, maxStationCount) stations, and do not depend on the rank. The
    number of stored receivers is the smaller one of max(1, maxStationCount)
    and the number of stations with a positive entry; with maxStationCount = 0
    one station is still stored. *)
Theorem init_stores_same_stations_on_all_workers (ts : list Time)
    (stationName : list (list string)) (size rank : nat) (st : InitState) :
  init cfg ts stationName size !! rank = Some st ->
  let stations := stationsOf cfg ts stationName in
  let vec := selectedVector cfg ts stations in
  exists recvs,
    storedReceivers st = Returns recvs
    /\ name <$> recvs =
       name <$> take (max 1 (maxStationCount cfg)) (selectedReceivers stations vec)
    /\ length recvs =
       min (max 1 (maxStationCount cfg)) (length (List.filter (fun v => 0 <? v) vec)).
Proof.
  intros Hst stations vec.
  rewrite (init_lookup cfg ts stationName size rank) in Hst by (by eapply init_lookup_rank).
  injection Hst as <-. cbn [storedReceivers]. fold stations. fold vec.
  eexists. split; [apply init_stored|]. fold vec.
  split.
  - rewrite !fmap_take. f_equal. apply selectedReceivers_names.
    apply Forall2_same_length_lookup_2.
    + unfold stationsAfter. by rewrite length_imap.
    + intros j alts1 alts. unfold stationsAfter. rewrite list_lookup_imap.
      intros Hafter Halts. rewrite Halts in Hafter. simpl in Hafter. injection Hafter as <-.
      destruct (decide (j mod size = rank)); [apply testAlternatives_names|done].
  - rewrite length_take. f_equal. apply length_selectedReceivers.
    apply Forall2_same_length_lookup_2.
    + unfold stationsAfter, vec, selectedVector. by rewrite length_imap, length_fmap.
    + intros j alts1 v. unfold stationsAfter, vec, selectedVector.
      rewrite list_lookup_imap, list_lookup_fmap.
      destruct (stations !! j) as [alts|]; simpl; [|done].
      intros [= <-] [= <-].
      destruct (testAlternatives_bound cfg ts alts 0) as [Hlen Hv].
      destruct (decide (j mod size = rank)); [rewrite Hlen|]; lia.
Qed.

End StoreProperties.

(** ** init without observation files (simulation case) *)

Section SimulationCaseProperties.
Context `{Collaborators}.
Variable cfg : Config.

(** The index that findAntenna returns is an index of the antenna list. *)
Hypothesis findAntenna_valid :
  forall i t idAnt, findAntenna i t = Some idAnt -> idAnt < length (antenna i).

(** No observation files are given. *)
Hypothesis simulation_case : FileName_empty (fileNameObs cfg) = true.

Lemma setupReceiver_returns (ts : list Time) (recv : GnssReceiver) :
  setupReceiver ts recv = (Returns tt, (setupReceiver ts recv).1.2, []).
Proof.
  destruct (setup_loop findAntenna_valid ts (length ts) (sizeToEpochs ts recv))
    as (recv1 & Hrun & _).
  { done. }
  { simpl. by rewrite length_resize. }
  { simpl. by rewrite length_resize. }
  unfold setupReceiver, bind, modify. by rewrite Hrun.
Qed.

Lemma testAlternatives_simulation (ts : list Time) (recv : GnssReceiver)
    (rest : list GnssReceiver) (k : nat) :
  testAlternatives cfg ts k (recv :: rest) = ((setupReceiver ts recv).1.2 :: rest, 1, []).
Proof.
  cbn [testAlternatives]. unfold testAlternative, bind.
  rewrite setupReceiver_returns. unfold readAndCount. by rewrite simulation_case.
Qed.

Lemma selectedReceivers_first (stations : list (list GnssReceiver)) :
  selectedReceivers stations (replicate (length stations) 1) = omap head stations.
Proof.
  induction stations as [|alts stations IH]; [done|].
  cbn [length replicate]. rewrite selectedReceivers_cons, IH.
  unfold selectedReceiver. simpl. by destruct alts.
Qed.

(** X5. Without observation files (the simulation case) and with a time axis
    that is not empty, on every worker:
    every station takes its first alternative (all entries of
    receiverAlternative are 1); the worker of the station sets up that first
    alternative and touches no other one; no observation file is read (the
    log holds no call of a collaborator), and the loop over the stations
    writes nothing but the timer lines of the stations of the worker, so no
    logWarning line is written by init. The creation of the receivers writes
    its logWarningOnce lines as it does with observation files, except that
    no name is skipped for a missing observation file: the existence of
    observation files plays no part, a receiver is created exactly when the
    station info can be loaded, with the warnings of the completeness test,
    and the warning of the catch block is written when it cannot. The stored
    receivers are the first alternatives of the stations, in order, up to
    maxStationCount. *)
Theorem init_simulation_takes_first_alternative (ts : list Time)
    (stationName : list (list string)) (size rank : nat) (st : InitState) :
  ts <> [] ->
  init cfg ts stationName size !! rank = Some st ->
  let stations := stationsOf cfg ts stationName in
  receiverAlternative st = replicate (length stations) 1
  /\ (forall i alts, stations !! i = Some alts ->
        exists recv rest,
          alts = recv :: rest
          /\ receiversWithAlternatives st !! i =
             Some (if decide (i mod size = rank)
                   then (setupReceiver ts recv).1.2 :: rest else alts))
  /\ initEvents st =
       logStatus "init station network" :: concat (creationEvents cfg ts <$> concat stationName)
         ++ logStatus "read observations"
         :: concat (imap (fun j (_ : list GnssReceiver) =>
                            if decide (j mod size = rank)
                            then [logTimerLoop j (length stations)] else []) stations)
  /\ (forall nm,
        creationEvents cfg ts nm =
        match loadStationInfo cfg ts (stationVariables nm) with
        | Returns i => completenessWarnings ts i
        | Throws e => [logWarningOnce (nm +:+ " disabled: " +:+ e)]
        end)
  /\ Forall (fun ev => isCall ev = false /\ isWarning ev = false) (initEvents st)
  /\ (forall nm, createsReceiver cfg ts nm =
                 match loadStationInfo cfg ts (stationVariables nm) with
                 | Returns _ => true
                 | Throws _ => false
                 end)
  /\ storedReceivers st =
     Returns (take (max 1 (maxStationCount cfg)) (omap head (receiversWithAlternatives st))).
Proof.
  intros Hts Hst stations.
  rewrite (init_lookup cfg ts stationName size rank) in Hst by (by eapply init_lookup_rank).
  injection Hst as <-.
  cbn [receiversWithAlternatives receiverAlternative storedReceivers initEvents].
  fold stations.
  assert (Hne : forall alts, alts ∈ stations -> exists recv rest, alts = recv :: rest).
  { intros alts Hin. unfold stations, stationsOf, removeEmptyStations in Hin.
    apply list_elem_of_filter in Hin as [Hne _]. destruct alts as [|recv rest]; [done|].
    by exists recv, rest. }
  assert (Hvec : selectedVector cfg ts stations = replicate (length stations) 1).
  { unfold selectedVector. apply list_eq. intros j. rewrite list_lookup_fmap.
    destruct (stations !! j) as [alts|] eqn:Hj; simpl.
    - destruct (Hne alts) as (recv & rest & ->); [by eapply list_elem_of_lookup_2|].
      rewrite testAlternatives_simulation. cbn [fst snd].
      symmetry. apply lookup_replicate_2. by eapply lookup_lt_Some.
    - symmetry. apply lookup_ge_None_2. rewrite length_replicate.
      by apply lookup_ge_None_1. }
  assert (Hloop : forall j alts, stations !! j = Some alts ->
            (if decide (j mod size = rank)
             then logTimerLoop j (length stations) :: (testAlternatives cfg ts 0 alts).2
             else []) =
            (if decide (j mod size = rank) then [logTimerLoop j (length stations)] else [])).
  { intros j alts Hj. destruct (decide (j mod size = rank)); [|done].
    destruct (Hne alts) as (recv & rest & ->); [by eapply list_elem_of_lookup_2|].
    by rewrite testAlternatives_simulation. }
  assert (Hlog : logStatus "init station network" :: (createStations cfg ts stationName).2
                   ++ logStatus "read observations"
                   :: concat (imap (fun j alts =>
                                      if decide (j mod size = rank)
                                      then logTimerLoop j (length stations)
                                             :: (testAlternatives cfg ts 0 alts).2
                                      else []) stations) =
                 logStatus "init station network"
                   :: concat (creationEvents cfg ts <$> concat stationName)
                   ++ logStatus "read observations"
                   :: concat (imap (fun j (_ : list GnssReceiver) =>
                                      if decide (j mod size = rank)
                                      then [logTimerLoop j (length stations)] else [])
                                   stations)).
  { destruct (createStations_spec cfg ts stationName) as [_ ->].
    do 4 f_equal. apply imap_ext. intros j alts Hj. by apply Hloop. }
  split; [exact Hvec|]. split.
  { intros i alts Hi.
    destruct (Hne alts) as (recv & rest & ->); [by eapply list_elem_of_lookup_2|].
    exists recv, rest. split; [done|].
    unfold stationsAfter. rewrite list_lookup_imap, Hi.
    cbn [fmap option_fmap option_map]. by rewrite testAlternatives_simulation. }
  split; [exact Hlog|].
  split.
  { intros nm. unfold creationEvents, observationsMissing. by rewrite simulation_case. }
  split.
  { rewrite Hlog. constructor; [done|]. apply Forall_app. split.
    - apply Forall_forall. intros ev Hin.
      apply elem_of_concat in Hin as (l & Hl & Hin).
      apply list_elem_of_fmap in Hl as (nm & -> & _).
      rewrite <- createReceiver_events in Hin.
      pose proof (createReceiver_once cfg ts nm) as Honce.
      rewrite Forall_forall in Honce. by destruct (Honce ev Hin) as [msg ->].
    - constructor; [done|]. apply Forall_forall. intros ev Hin.
      apply elem_of_concat in Hin as (l & Hl & Hin).
      apply elem_of_lookup_imap in Hl as (j & alts & -> & Hj).
      destruct (decide (j mod size = rank)); [|by apply elem_of_nil in Hin].
      apply elem_of_cons in Hin as [->|Hin]; [done|by apply elem_of_nil in Hin]. }
  split.
  { intros nm. unfold createsReceiver, createReceiver. rewrite simulation_case. simpl.
    by destruct (loadStationInfo cfg ts _). }
  rewrite init_stored, Hvec.
  replace (length stations) with (length (stationsAfter cfg ts size rank stations))
    by (unfold stationsAfter; by rewrite length_imap).
  by rewrite selectedReceivers_first.
Qed.

End SimulationCaseProperties.

(** ** preprocessing: the log of a worker *)

Section LogProperties.
Context `{Collaborators}.
Variable cfg : Config.

Lemma processStation_events (ts : list Time) (idRecv : nat) (w : Worker) (recv : GnssReceiver) :
  receivers w !! idRecv = Some recv ->
  (processStation cfg ts idRecv w).2 = stationEvents cfg ts recv.
Proof.
  intros Hlook. unfold processStation, stationEvents. rewrite Hlook.
  destruct (isMyRank_ recv); [|done].
  by destruct (stationPipeline cfg ts recv) as [[[b|e] recv1] ev].
Qed.

Lemma forEachStation_events (ts : list Time) (rs : list GnssReceiver) (m : nat) :
  m <= length rs ->
  (forM_ (seq 0 m) (processStation cfg ts) {| receivers := rs; disabledStations := 0 |}).2 =
  concat (stationEvents cfg ts <$> take m rs).
Proof.
  induction m as [|m IH]; intros Hm; [done|].
  destruct (forEachStation_prefix cfg ts rs m) as [ev Hrun]; [lia|].
  rewrite Hrun in IH. simpl in IH. rewrite IH in Hrun by lia. clear IH.
  destruct (lookup_lt_is_Some_2 rs m) as [recv Hrecv]; [lia|].
  match type of Hrun with _ = (_, ?W, _) => set (w1 := W) in * end.
  assert (Hw1 : receivers w1 !! m = Some recv).
  { unfold w1. simpl. rewrite list_lookup_imap, Hrecv. simpl.
    by rewrite decide_False by lia. }
  destruct (processStation_run cfg ts m w1 recv Hw1) as [ev2 Hstep].
  pose proof (processStation_events ts m w1 recv Hw1) as Hev.
  rewrite Hstep in Hev. simpl in Hev. subst ev2.
  rewrite seq_S. simpl. rewrite (forM_snoc _ _ _ _ _ _ _ _ Hrun Hstep). simpl.
  rewrite (take_S_r _ _ _ Hrecv), fmap_app, concat_app. simpl. by rewrite app_nil_r.
Qed.

Lemma filter_calls (ev : list Event) :
  Forall (fun x => isCall x = true) ev -> List.filter isWarning ev = [].
Proof.
  induction 1 as [|x l Hx _ IH]; [done|]. simpl. rewrite IH. by destruct x.
Qed.

Lemma stationPipeline_calls (ts : list Time) (recv : GnssReceiver) :
  Forall (fun x => isCall x = true) (stationPipeline cfg ts recv).2.
Proof. rewrite stationPipeline_events. apply runStages_calls. Qed.

Lemma filter_stationEvents (ts : list Time) (recv : GnssReceiver) :
  List.filter isWarning (stationEvents cfg ts recv) =
  match thrownWarning cfg ts recv with
  | Some warning => [warning]
  | None => []
  end.
Proof.
  unfold stationEvents, thrownWarning. destruct (isMyRank_ recv); [|done].
  pose proof (stationPipeline_calls ts recv) as Hcalls.
  destruct (stationPipeline cfg ts recv) as [[[b|e] recv1] ev]; simpl in Hcalls.
  - by apply filter_calls.
  - rewrite List.filter_app, (filter_calls ev Hcalls). done.
Qed.

(** X6. In the log of a worker after the loop of preprocessing, the warnings
    are, in the order of the receivers, one for every station on this rank
    whose pipeline threw, naming the station and the reason. A station that
    the test of the estimable epochs disabled is counted but not logged: the
    counter of the worker is the number of warnings plus the number of the
    stations on this rank that ended below the ratio. Every other event of
    the loop is a call of a collaborator. *)
Theorem preprocessing_logs_only_exceptions (ts : list Time) (rs : list GnssReceiver) :
  let run := preprocessingLocal cfg ts rs in
  List.filter isWarning run.2 = omap (thrownWarning cfg ts) rs
  /\ disabledStations run.1.2 =
     length (omap (thrownWarning cfg ts) rs) + length (List.filter (droppedByRatio cfg ts) rs)
  /\ List.filter (fun ev => negb (isWarning ev || isCall ev)) run.2
     = [logStatus "init observations"].
Proof.
  intros run.
  assert (Hev : run.2 = logStatus "init observations" :: concat (stationEvents cfg ts <$> rs)).
  { pose proof (forEachStation_events ts rs (length rs) (Nat.le_refl _)) as Hloop.
    rewrite firstn_all in Hloop.
    unfold run, preprocessingLocal, bind, emit, forEachStation. simpl.
    destruct (forM_ _ _ _) as [[[u|e] w] ev]; simpl in *; by rewrite Hloop. }
  split; [|split].
  - rewrite Hev. cbn [List.filter isWarning]. clear.
    induction rs as [|recv rs IH]; [done|].
    rewrite fmap_cons, concat_cons, List.filter_app, IH, filter_stationEvents.
    cbn [omap list_omap]. by destruct (thrownWarning cfg ts recv).
  - destruct (preprocessingLocal_spec cfg ts rs) as [ev Hrun].
    unfold run. rewrite Hrun. simpl. unfold localCount. clear.
    induction rs as [|recv rs IH]; [done|]. cbn [List.filter omap list_omap].
    unfold stationDisabled at 1, thrownWarning at 1, droppedByRatio at 1.
    destruct (isMyRank_ recv); cbn [andb]; [|exact IH].
    destruct (stationPipeline cfg ts recv) as [[[[|]|e] recv1] ev]; cbn [length]; lia.
  - rewrite Hev. cbn [List.filter isWarning isCall orb negb]. f_equal. clear.
    induction rs as [|recv rs IH]; [done|].
    rewrite fmap_cons, concat_cons, List.filter_app, IH, app_nil_r.
    unfold stationEvents. destruct (isMyRank_ recv); [|done].
    pose proof (stationPipeline_calls ts recv) as Hcalls.
    assert (Hnone : forall ev, Forall (fun x => isCall x = true) ev ->
              List.filter (fun ev => negb (isWarning ev || isCall ev)) ev = []).
    { induction 1 as [|x l Hx _ IHl]; [done|]. simpl. rewrite IHl, Hx.
      by rewrite orb_true_r. }
    destruct (stationPipeline cfg ts recv) as [[[b|e] recv1] ev]; simpl in Hcalls.
    + by apply Hnone.
    + rewrite List.filter_app, (Hnone ev Hcalls). done.
Qed.

End LogProperties.

(** ** simulation *)

Section SimulationProperties.
Context `{Collaborators} {env : Environment}.
Variable cfg : Config.

(** X7. simulation never ends with an exception and goes through the
    receivers once, in order: a receiver that is not on this rank is left as
    it is and nothing is logged for it; a receiver on this rank is what
    simulateObservations made of it, and when simulateObservations throws, the
    receiver is disabled (it is not usable any more) and one warning with the
    name and the reason is written. The number of receivers does not
    change. *)
Theorem simulation_contains_exceptions (rs : list GnssReceiver) :
  simulation cfg rs =
    (Returns tt, simulatedReceiver cfg <$> rs,
     logStatus "simulate observations" :: concat (simulationWarning cfg <$> rs))
  /\ length (simulatedReceiver cfg <$> rs) = length rs
  /\ (forall recv, isMyRank_ recv = false ->
        simulatedReceiver cfg recv = recv /\ simulationWarning cfg recv = [])
  /\ (forall recv recv1,
        isMyRank_ recv = true ->
        simulateObservations (minObsCountPerTrack cfg) (elevationTrackMinimum cfg) recv
          = (Returns tt, recv1) ->
        simulatedReceiver cfg recv = recv1 /\ simulationWarning cfg recv = [])
  /\ (forall recv recv1 e,
        isMyRank_ recv = true ->
        simulateObservations (minObsCountPerTrack cfg) (elevationTrackMinimum cfg) recv
          = (Throws e, recv1) ->
        simulatedReceiver cfg recv = disable recv1
        /\ useable (simulatedReceiver cfg recv) = false
        /\ simulationWarning cfg recv = [logWarning (disabledMessage recv1 e)]).
Proof.
  split; [|split; [by rewrite length_fmap|split; [|split]]].
  - unfold simulation, bind, emit, get. simpl.
    rewrite (forM_in_place (simulatedReceiver cfg) (simulationWarning cfg)); [| |done].
    + by rewrite firstn_all, drop_all, app_nil_r.
    + intros i rs0 x Hx. unfold simulateStation, simulatedReceiver, simulationWarning.
      rewrite Hx. destruct (isMyRank_ x).
      * by destruct (simulateObservations _ _ x) as [[u|e] r1].
      * by rewrite list_insert_id.
  - intros recv Hother. unfold simulatedReceiver, simulationWarning. by rewrite Hother.
  - intros recv recv1 Hmine Hrun. unfold simulatedReceiver, simulationWarning.
    by rewrite Hmine, Hrun.
  - intros recv recv1 e Hmine Hrun. unfold simulatedReceiver, simulationWarning.
    rewrite Hmine, Hrun. split; [done|]. split; [apply useable_disable|done].
Qed.

End SimulationProperties.

(** ** init: tides and loading *)

Section LoadingProperties.
Context `{Collaborators} {env : Environment}.

Lemma reduceLoveNumbers_prefix (kn hn : list Double) (j : nat) :
  j <= min (length kn) (length hn) - 2 ->
  foldl (reduceLoveNumber kn) hn (seq 2 j) =
  imap (fun n h => if decide (n < 2 + j) then reducedLoveNumber kn n h else h) hn.
Proof.
  induction j as [|j IH]; intros Hj.
  - simpl. apply list_eq. intros n. rewrite list_lookup_imap.
    destruct (hn !! n) as [h|]; [|done]. simpl. unfold reducedLoveNumber.
    destruct (decide (n < 2)); [|done]. by rewrite decide_False by lia.
  - rewrite seq_S, foldl_snoc, IH by lia. unfold reduceLoveNumber.
    destruct (lookup_lt_is_Some_2 hn (2 + j)) as [h Hh]; [lia|].
    destruct (lookup_lt_is_Some_2 kn (2 + j)) as [k Hk]; [lia|].
    unfold Double in *.
    rewrite list_lookup_imap, Hh, Hk. cbn [fmap option_fmap option_map].
    rewrite decide_False by lia.
    apply list_eq. intros n. destruct (decide (n = 2 + j)) as [->|Hne].
    + rewrite list_lookup_insert_eq by (rewrite length_imap; by eapply lookup_lt_Some).
      rewrite list_lookup_imap, Hh. cbn [fmap option_fmap option_map].
      rewrite decide_True by lia. unfold reducedLoveNumber, Double in *.
      by rewrite decide_True, Hk by lia.
    + rewrite list_lookup_insert_ne by done. rewrite !list_lookup_imap.
      destruct (hn !! n) as [h'|]; [|done]. cbn [fmap option_fmap option_map].
      destruct (decide (n < 2 + j)); [by rewrite decide_True by lia|].
      by rewrite decide_False by lia.
Qed.

Lemma reduceLoveNumbers_spec (kn hn : list Double) :
  reduceLoveNumbers kn hn = imap (reducedLoveNumber kn) hn.
Proof.
  unfold reduceLoveNumbers. rewrite reduceLoveNumbers_prefix by done.
  apply imap_ext. intros n h Hn.
  destruct (decide (n < 2 + (min (length kn) (length hn) - 2))); [done|].
  apply lookup_lt_Some in Hn. unfold reducedLoveNumber, Double in *.
  destruct (decide (2 <= n)); [|done].
  by rewrite lookup_ge_None_2 by lia.
Qed.

(** X8. Of the load Love numbers read from the deformation file, those of
    degree 0 and 1 are handed on as they were read; from degree 2 on, a
    number is divided once by (1 + kn) while the potential file holds a kn of
    that degree, and is handed on as read beyond the end of the potential
    file; the number of degrees does not change. hn and ln are treated in the
    same way. Without a potential file the numbers are handed on as read, and
    without a deformation file both vectors are empty, whatever the potential
    file is. *)
Theorem love_numbers_reduced_from_degree_two (kn hn : list Double) :
  reduceLoveNumbers kn hn = imap (reducedLoveNumber kn) hn
  /\ length (reduceLoveNumbers kn hn) = length hn
  /\ take 2 (reduceLoveNumbers kn hn) = take 2 hn
  /\ drop (length kn) (reduceLoveNumbers kn hn) = drop (length kn) hn
  /\ (forall deformationName potentialName ln,
        FileName_empty deformationName = false ->
        readDeformationLoveNumbers deformationName = Returns (hn, ln) ->
        loveNumbers deformationName potentialName =
        if FileName_empty potentialName then Returns (hn, ln)
        else match readPotentialLoveNumbers potentialName with
             | Returns kn0 =>
                 Returns (imap (reducedLoveNumber kn0) hn, imap (reducedLoveNumber kn0) ln)
             | Throws e => Throws e
             end)
  /\ (forall deformationName potentialName,
        FileName_empty deformationName = true ->
        loveNumbers deformationName potentialName = Returns ([], [])).
Proof.
  rewrite reduceLoveNumbers_spec.
  split; [done|]. split; [by rewrite length_imap|]. split; [|split; [|split]].
  - apply list_eq. intros n. rewrite !lookup_take, list_lookup_imap.
    destruct (decide (n < 2)); [|done].
    destruct (hn !! n) as [h|]; [|done]. simpl. unfold reducedLoveNumber.
    by rewrite decide_False by lia.
  - apply list_eq. intros n. rewrite !lookup_drop, list_lookup_imap.
    destruct (hn !! (length kn + n)) as [h|]; [|done]. simpl.
    unfold reducedLoveNumber, Double in *.
    destruct (decide (2 <= length kn + n)); [|done].
    by rewrite lookup_ge_None_2 by lia.
  - intros deformationName potentialName ln Hgiven Hread.
    unfold loveNumbers. rewrite Hgiven, Hread.
    destruct (FileName_empty potentialName); [done|].
    destruct (readPotentialLoveNumbers potentialName) as [kn0|e]; [|done].
    by rewrite !reduceLoveNumbers_spec.
  - intros deformationName potentialName Hempty. unfold loveNumbers. by rewrite Hempty.
Qed.

(** The frame of a receiver at an epoch does not depend on its antenna
    offsets. *)
Hypothesis global2localFrame_offset :
  forall recv o idEpoch,
    global2localFrame (set_offset o recv) idEpoch = global2localFrame recv idEpoch.

Lemma addDisplacement_loop (disp : list (list Vector3d)) (idx : nat) (row : list Vector3d)
    (recv : GnssReceiver) (n : nat) :
  disp !! idx = Some row -> n <= length row -> n <= length (offset recv) ->
  forM_ (seq 0 n) (addDisplacement disp idx) recv =
  (Returns tt,
   set_offset
     (imap (fun idEpoch o =>
              match row !! idEpoch with
              | Some d =>
                  if decide (idEpoch < n)
                  then Vector3d_add o (transform (global2localFrame recv idEpoch) d)
                  else o
              | None => o
              end) (offset recv)) recv,
   []).
Proof.
  intros Hrow. induction n as [|n IH]; intros Hn Ho.
  - simpl. unfold ret. do 2 f_equal.
    replace (imap _ (offset recv)) with (offset recv); [by destruct recv|].
    apply list_eq. intros i. rewrite list_lookup_imap.
    destruct (offset recv !! i) as [o|]; [|done]. simpl. by destruct (row !! i).
  - destruct (lookup_lt_is_Some_2 row n) as [d Hd]; [lia|].
    destruct (lookup_lt_is_Some_2 (offset recv) n) as [o Hoff]; [lia|].
    rewrite seq_S. simpl.
    erewrite forM_snoc; [|apply IH; lia|].
    2:{ unfold addDisplacement. rewrite Hrow, Hd. cbn [offset set_offset].
        rewrite list_lookup_imap, Hoff. cbn [fmap option_fmap option_map].
        rewrite Hd, decide_False by lia. reflexivity. }
    do 2 f_equal. rewrite global2localFrame_offset.
    unfold set_offset. cbn. f_equal.
    apply list_eq. intros i. destruct (decide (i = n)) as [->|Hne].
    + rewrite list_lookup_insert_eq by (rewrite length_imap; lia).
      rewrite list_lookup_imap, Hoff. cbn [fmap option_fmap option_map].
      by rewrite Hd, decide_True by lia.
    + rewrite list_lookup_insert_ne by done. rewrite !list_lookup_imap.
      destruct (offset recv !! i) as [o'|]; [|done]. cbn [fmap option_fmap option_map].
      destruct (row !! i) as [d'|]; [|done].
      destruct (decide (i < n)); [by rewrite decide_True by lia|].
      by rewrite decide_False by lia.
Qed.

Lemma addDisplacements_spec (ts : list Time) (disp : list (list Vector3d))
    (receivers : list GnssReceiver) (idx : nat) :
  Forall (fun row => length row = length ts) disp ->
  idx + length (List.filter isMyRank_ receivers) <= length disp ->
  Forall (fun recv => isMyRank_ recv = true -> length (offset recv) = length ts) receivers ->
  addDisplacements ts disp idx receivers =
  Returns (imap (fun i recv =>
                   if isMyRank_ recv
                   then displacedReceiver ts (default [] (disp !! (idx + mineBefore receivers i)))
                                          recv
                   else recv) receivers).
Proof.
  intros Hrows. revert idx.
  induction receivers as [|recv rest IH]; intros idx Hidx Hoff; [done|].
  apply Forall_cons in Hoff as [Ho Hoff].
  cbn [addDisplacements]. rewrite imap_cons.
  cbn [List.filter] in Hidx.
  destruct (isMyRank_ recv) eqn:Hmine.
  - cbn [length] in Hidx.
    destruct (lookup_lt_is_Some_2 disp idx) as [row Hrow]; [lia|].
    assert (Hlen : length row = length ts).
    { rewrite Forall_forall in Hrows. apply Hrows. by eapply list_elem_of_lookup_2. }
    rewrite (addDisplacement_loop disp idx row recv (length ts) Hrow)
      by (rewrite ?Hlen, ?Ho; done).
    rewrite IH by (done || lia).
    f_equal. f_equal.
    + unfold mineBefore. cbn [take firstn List.filter length]. rewrite Nat.add_0_r, Hrow.
      done.
    + apply imap_ext. intros i r Hr. cbn [compose].
      unfold mineBefore. cbn [take firstn List.filter]. rewrite Hmine. cbn [length].
      by replace (idx + S (length (List.filter isMyRank_ (take i rest))))
        with (S idx + length (List.filter isMyRank_ (take i rest))) by lia.
  - rewrite IH by done. f_equal. f_equal.
    apply imap_ext. intros i r Hr. cbn [compose].
    unfold mineBefore. cbn [take firstn List.filter]. by rewrite Hmine.
Qed.

(** X9. The displacements of tides and loading are computed for the
    receivers on this rank only, one position per receiver and one entry per
    epoch. When the deformation models return the displacements in the shape
    they were given (one row per position, one entry per epoch) and the
    receivers on this rank have one offset per epoch, the part never throws
    and changes nothing but antenna offsets: a receiver that is not on this
    rank is left as it is; the receiver on this rank that has j receivers on
    this rank in front of it gets row j added, epoch by epoch, after the
    transformation into its local frame. *)
Theorem displacements_follow_rank_order (ts : list Time)
    (deformationName potentialName : FileName) (receivers : list GnssReceiver)
    (hn ln : list Double) (disp1 disp2 : list (list Vector3d)) :
  loveNumbers deformationName potentialName = Returns (hn, ln) ->
  let positions := positionsOfMine receivers in
  tidesDeformation ts positions (rotaryMatrix <$> ts) (normalGravity <$> positions) hn ln
                   (replicate (length positions) (replicate (length ts) Vector3d_zero))
    = Returns disp1 ->
  gravityfieldDeformation ts positions (normalGravity <$> positions) hn ln disp1
    = Returns disp2 ->
  length disp2 = length positions ->
  Forall (fun row => length row = length ts) disp2 ->
  Forall (fun recv => isMyRank_ recv = true -> length (offset recv) = length ts) receivers ->
  tidesAndLoading ts deformationName potentialName receivers =
    Returns (displacedReceivers ts disp2 receivers)
  /\ length (displacedReceivers ts disp2 receivers) = length receivers
  /\ (forall i recv, receivers !! i = Some recv ->
        displacedReceivers ts disp2 receivers !! i =
        Some (if isMyRank_ recv
              then displacedReceiver ts (default [] (disp2 !! mineBefore receivers i)) recv
              else recv))
  /\ (forall row recv,
        let recv1 := displacedReceiver ts row recv in
        name recv1 = name recv /\ isMyRank_ recv1 = isMyRank_ recv
        /\ useableEpochs recv1 = useableEpochs recv /\ pos recv1 = pos recv
        /\ length (offset recv1) = length (offset recv)
        /\ (forall idEpoch o d, offset recv !! idEpoch = Some o -> row !! idEpoch = Some d ->
              idEpoch < length ts ->
              offset recv1 !! idEpoch =
              Some (Vector3d_add o (transform (global2localFrame recv idEpoch) d)))).
Proof.
  intros Hlove positions Htides Hgrav Hlen Hrows Hoff.
  split; [|split; [|split]].
  - unfold tidesAndLoading. rewrite Hlove. fold positions. rewrite Htides, Hgrav.
    rewrite addDisplacements_spec; [done|done| |done].
    rewrite Hlen. unfold positions, positionsOfMine. by rewrite length_fmap.
  - unfold displacedReceivers. by rewrite length_imap.
  - intros i recv Hi. unfold displacedReceivers. by rewrite list_lookup_imap, Hi.
  - intros row recv recv1. unfold recv1, displacedReceiver. cbn.
    do 4 (split; [done|]). split; [by rewrite length_imap|].
    intros idEpoch o d Ho Hd Hlt. rewrite list_lookup_imap, Ho. cbn.
    by rewrite Hd, decide_True by done.
Qed.

End LoadingProperties.

(** ** The properties on the small station network *)

Import StationNetwork.Toy.

(** GRAZ: the residual of epoch 1 (150 m) is a gross outlier, three of four
    epochs stay usable, and 3*30 = 0.75*4*30: the two sides are equal and the
    station is retained, nothing is counted. *)
Lemma usability_gate_strict_witness :
  let w := {| receivers := [Toy.receiver "GRAZ" true]; disabledStations := 0 |} in
  let run := runStages Toy.cfg (Toy.receiver "GRAZ" true) in
  (estimableLhs run.1.2 Toy.epochs =? estimableRhs Toy.cfg Toy.epochs)%float = true
  /\ processStation Toy.cfg Toy.epochs 0 w =
     (Returns tt, {| receivers := [run.1.2]; disabledStations := 0 |}, run.2).
Proof.
  intros w run.
  destruct (usability_gate_strict Toy.cfg Toy.epochs w 0
              (Toy.receiver "GRAZ" true) run.1.2 run.2) as (Hstep & _ & _ & Heq);
    [reflexivity | reflexivity | reflexivity |].
  split; [reflexivity|].
  rewrite Hstep, Heq; reflexivity.
Defined.

(** A station with two usable epochs of four is below the ratio 0.75 and is
    disabled wholesale. *)
Example usability_gate_half_is_disabled :
  let recv := set_useableEpochs [true; false; true; false] (Toy.receiver "GRAZ" true) in
  stationPipeline Toy.cfg Toy.epochs recv =
  (Returns true, disable (runStages Toy.cfg recv).1.2, (runStages Toy.cfg recv).2)
  /\ useableEpochs (stationPipeline Toy.cfg Toy.epochs recv).1.2 = [false; false; false; false].
Proof. split; reflexivity. Qed.

(** CLCK: the clock estimation throws; the station is disabled and counted,
    one warning is written. *)
Lemma station_exception_is_contained_witness :
  let w := {| receivers := [Toy.receiver "CLCK" true; Toy.receiver "GRAZ" true];
              disabledStations := 0 |} in
  processStation Toy.cfg Toy.epochs 0 w =
  (Returns tt,
   {| receivers := [disable (Toy.receiver "CLCK" true); Toy.receiver "GRAZ" true];
      disabledStations := 1 |},
   [Call op_createTracks; Call op_estimateInitialClockErrorFromCodeObservations;
    logWarning "CLCK disabled: no clock solution"]).
Proof.
  intros w.
  destruct (station_exception_is_contained Toy.cfg Toy.epochs w 0
              (Toy.receiver "CLCK" true) (Toy.receiver "CLCK" true) "no clock solution"
              [Call op_createTracks; Call op_estimateInitialClockErrorFromCodeObservations])
    as (Hstep & _); [reflexivity | reflexivity | reflexivity |].
  rewrite Hstep. reflexivity.
Defined.

(** The scenario of the specification: a code residual of 150 m against
    codeMaxPosDiff = 100 m. Epoch 1 is disabled, the other epochs and the
    station stay usable. *)
Lemma gross_outlier_disables_epoch_witness :
  let recv := Toy.receiver "GRAZ" true in
  let run := rejectGrossOutliers Toy.cfg [10; 150; 20; 5]%float recv in
  codeMaxPosDiff Toy.cfg = 100%float
  /\ useable_epoch run.1.2 1 = false
  /\ useableEpochs run.1.2 = [true; false; true; true]
  /\ useable run.1.2 = true.
Proof.
  intros recv run.
  destruct (@gross_outlier_disables_epoch Toy.carrier Toy.collaborators Toy.cfg
              (fun _ _ _ _ => eq_refl) [10; 150; 20; 5]%float recv)
    as (_ & _ & _ & Hout & Hin).
  split; [reflexivity|]. split; [|split].
  - apply Hout. reflexivity.
  - reflexivity.
  - apply (Hin 0); reflexivity.
Defined.

(** C1 (as the specification states it) does not hold: GRAZ runs through all
    components, with the track segmentation first. *)
Lemma pipeline_order_counterexample :
  ~ (forall (C : Carrier) (X : Collaborators) (cfg : Config) (ts : list Time)
            (recv : GnssReceiver) (b : bool),
        (stationPipeline cfg ts recv).1.1 = Returns b ->
        stagesOfRun (stationPipeline cfg ts recv) = specOrder).
Proof.
  intros Hclaim.
  specialize (Hclaim Toy.carrier Toy.collaborators Toy.cfg Toy.epochs
                     (Toy.receiver "GRAZ" true) false eq_refl).
  vm_compute in Hclaim. discriminate Hclaim.
Qed.

Lemma toy_findAntenna_valid (i : GnssStationInfo) (t : Time) (idAnt : nat) :
  findAntenna i t = Some idAnt -> idAnt < length (antenna i).
Proof.
  simpl. repeat case_decide; intros [= <-] || intros [=]; done.
Qed.

Lemma toy_readObservations_isMyRank (fileName : string) (recv : GnssReceiver) :
  isMyRank_ (readObservations fileName recv).2 = isMyRank_ recv.
Proof.
  simpl. destruct (String.eqb fileName "obs.BADF"); [done|].
  by destruct (String.eqb fileName "obs.FEWO").
Qed.

(** Epochs 3 to 6 of a new receiver: epoch 5 has an antenna without accuracy
    definition and epoch 6 has no antenna; these two are disabled, the station
    goes on. *)
Lemma missing_antenna_disables_epoch_witness :
  let ts : list Time := [3; 4; 5; 6] in
  let recv := newReceiver ts "GRAZ" (Toy.stationInfo "GRAZ") in
  exists recv1,
    setupReceiver ts recv = (Returns tt, recv1, [])
    /\ useableEpochs recv1 = [true; true; false; false]
    /\ (forall idEpoch t, ts !! idEpoch = Some t ->
          useable_epoch recv1 idEpoch = useable_epoch recv idEpoch && completeAt (info recv) t).
Proof.
  intros ts recv.
  destruct (missing_antenna_disables_epoch toy_findAntenna_valid ts recv)
    as (recv1 & Hrun & Hmask & _).
  exists recv1. split; [exact Hrun|]. split; [|exact Hmask].
  vm_compute in Hrun. by injection Hrun as <-.
Defined.

(** Two workers, three stations with a receiver. Station 0 has the
    alternatives BADF, FEWO, GRAZ and WTZR (the file of GONE does not exist):
    the third is the first that qualifies. The line of NOINFO yields no
    station. FEWO alone does not qualify; WTZR does. *)
Lemma init_selects_first_qualifying_witness :
  let stationName := [["GONE"; "BADF"; "FEWO"; "GRAZ"; "WTZR"]; ["NOINFO"]; ["FEWO"]; ["WTZR"]] in
  exists st,
    init Toy.cfg Toy.epochs stationName 2 !! 1 = Some st
    /\ receiverAlternative st = [3; 0; 1]
    /\ (fun recvs : list GnssReceiver => name <$> recvs) <$> receiversWithAlternatives st
       = [["BADF"; "FEWO"; "GRAZ"; "WTZR"]; ["FEWO"]; ["WTZR"]]
    /\ storedReceivers st =
       Returns (take 100 (selectedReceivers (receiversWithAlternatives st) [3; 0; 1])).
Proof.
  intros stationName.
  destruct (init Toy.cfg Toy.epochs stationName 2 !! 1) as [st|] eqn:Hst;
    [|vm_compute in Hst; discriminate Hst].
  destruct (init_selects_first_qualifying Toy.cfg eq_refl Toy.epochs stationName 2 1 st Hst)
    as (Hvec & _ & _ & _ & _ & Hstored).
  assert (Hvalue : receiverAlternative st = [3; 0; 1]).
  { rewrite Hvec. vm_compute. reflexivity. }
  exists st. split; [reflexivity|]. split; [exact Hvalue|]. split.
  - vm_compute in Hst. injection Hst as <-. vm_compute. reflexivity.
  - rewrite Hstored, Hvalue. reflexivity.
Defined.

(** The same run on worker 1: it owns station 1 (FEWO) only; of the stored
    receivers GRAZ and WTZR, which belong to stations 0 and 2, none carries its
    rank flag. *)
Lemma stations_round_robin_witness :
  let stationName := [["GONE"; "BADF"; "FEWO"; "GRAZ"; "WTZR"]; ["NOINFO"]; ["FEWO"]; ["WTZR"]] in
  exists st,
    init Toy.cfg Toy.epochs stationName 2 !! 1 = Some st
    /\ (forall i n, logTimerLoop i n ∈ initEvents st <-> n = 3 /\ i < 3 /\ i mod 2 = 1)
    /\ (fun recv : GnssReceiver => (name recv, isMyRank_ recv)) <$>
         match storedReceivers st with Returns recvs => recvs | Throws _ => [] end
       = [("GRAZ", false); ("WTZR", false)].
Proof.
  intros stationName.
  destruct (init Toy.cfg Toy.epochs stationName 2 !! 1) as [st|] eqn:Hst;
    [|vm_compute in Hst; discriminate Hst].
  destruct (stations_round_robin Toy.cfg toy_readObservations_isMyRank Toy.epochs
              stationName 2 1 st Hst) as (_ & Htimer & _).
  exists st. split; [reflexivity|]. split; [exact Htimer|].
  vm_compute in Hst. injection Hst as <-. vm_compute. reflexivity.
Defined.

(** Two workers and the stations GRAZ, FEWO (no usable epoch) and WTZR:
    both workers store the receivers of GRAZ and WTZR, in this order. *)
Lemma toy_readObservations_name (fileName : string) (recv : GnssReceiver) :
  name (readObservations fileName recv).2 = name recv.
Proof.
  simpl. destruct (String.eqb fileName "obs.BADF"); [done|].
  by destruct (String.eqb fileName "obs.FEWO").
Qed.

Lemma init_stores_same_stations_on_all_workers_witness :
  let stationName := [["GRAZ"]; ["FEWO"]; ["BADF"; "WTZR"]] in
  exists st0 st1 recvs0 recvs1,
    init Toy.cfg Toy.epochs stationName 2 !! 0 = Some st0
    /\ init Toy.cfg Toy.epochs stationName 2 !! 1 = Some st1
    /\ storedReceivers st0 = Returns recvs0 /\ storedReceivers st1 = Returns recvs1
    /\ (fun recv : GnssReceiver => name recv) <$> recvs0 = ["GRAZ"; "WTZR"]
    /\ (fun recv : GnssReceiver => name recv) <$> recvs1 = ["GRAZ"; "WTZR"].
Proof.
  intros stationName.
  destruct (init Toy.cfg Toy.epochs stationName 2 !! 0) as [st0|] eqn:Hst0;
    [|vm_compute in Hst0; discriminate Hst0].
  destruct (init Toy.cfg Toy.epochs stationName 2 !! 1) as [st1|] eqn:Hst1;
    [|vm_compute in Hst1; discriminate Hst1].
  destruct (init_stores_same_stations_on_all_workers Toy.cfg toy_readObservations_name
              Toy.epochs stationName 2 0 st0 Hst0) as (recvs0 & Hr0 & Hn0 & _).
  destruct (init_stores_same_stations_on_all_workers Toy.cfg toy_readObservations_name
              Toy.epochs stationName 2 1 st1 Hst1) as (recvs1 & Hr1 & Hn1 & _).
  exists st0, st1, recvs0, recvs1.
  do 4 (split; [done|]).
  split; (etransitivity; [first [exact Hn0 | exact Hn1]|]); vm_compute; reflexivity.
Defined.

(** One worker and the epochs 2 to 5, of which epoch 5 is served by the
    antenna without accuracy definition. GONE is skipped silently; the
    stations BADF and GRAZ are created with the warning of the completeness
    test; NOINFO yields the warning of the catch block. Of the one station
    the file of BADF is read and throws, then the file of GRAZ is read, and
    GRAZ is selected. *)
Lemma init_log_of_worker_witness :
  let ts : list Time := [2; 3; 4; 5] in
  let stationName := [["GONE"; "BADF"; "GRAZ"]; ["NOINFO"]] in
  exists st,
    init Toy.cfg ts stationName 1 !! 0 = Some st
    /\ receiverAlternative st = [2]
    /\ initEvents st =
       [logStatus "init station network";
        logWarningOnce
          "info.BADF.00000M000: No accuracy definition found for antenna from epoch 5";
        logWarningOnce
          "info.GRAZ.00000M000: No accuracy definition found for antenna from epoch 5";
        logWarningOnce "NOINFO disabled: station info not found";
        logStatus "read observations";
        logTimerLoop 0 1;
        Call (op_readObservations "obs.BADF");
        logWarning "BADF disabled: unable to read observations";
        Call (op_readObservations "obs.GRAZ")].
Proof.
  intros ts stationName.
  destruct (init Toy.cfg ts stationName 1 !! 0) as [st|] eqn:Hst;
    [|vm_compute in Hst; discriminate Hst].
  destruct (init_log_of_worker Toy.cfg eq_refl toy_findAntenna_valid ts
              stationName 1 0 st) as (Hlog & _); [done | exact Hst |].
  exists st. split; [reflexivity|]. split.
  - vm_compute in Hst. injection Hst as <-. vm_compute. reflexivity.
  - rewrite Hlog. vm_compute. reflexivity.
Defined.

(** The stations of that list: the line of NOINFO yields none, and GONE is
    not among the alternatives of the first station. *)
Example stations_of_four_lines :
  (fun alts : list GnssReceiver => name <$> alts) <$>
    stationsOf Toy.cfg Toy.epochs
      [["GONE"; "BADF"; "FEWO"; "GRAZ"; "WTZR"]; ["NOINFO"]; ["FEWO"]; ["WTZR"]]
  = [["BADF"; "FEWO"; "GRAZ"; "WTZR"]; ["FEWO"]; ["WTZR"]].
Proof. vm_compute. reflexivity. Qed.

(** A simulation with maxStationCount = 1 on two workers: the station of the
    second line takes its first alternative although no observation file of
    it is looked at, and the first station alone is stored. The creation
    writes the warning for NOINFO; the loop over the stations writes the timer
    line of station 1 and nothing else. *)
Lemma init_simulation_takes_first_alternative_witness :
  let stationName := [["GONE"; "GRAZ"]; ["NOINFO"]; ["BADF"; "WTZR"]] in
  exists st,
    init Toy.cfgSimulation Toy.epochs stationName 2 !! 1 = Some st
    /\ receiverAlternative st = [1; 1]
    /\ initEvents st =
       [logStatus "init station network";
        logWarningOnce "NOINFO disabled: station info not found";
        logStatus "read observations";
        logTimerLoop 1 2]
    /\ (fun recv : GnssReceiver => (name recv, isMyRank_ recv)) <$>
         match storedReceivers st with Returns recvs => recvs | Throws _ => [] end
       = [("GONE", false)].
Proof.
  intros stationName.
  destruct (init Toy.cfgSimulation Toy.epochs stationName 2 !! 1) as [st|] eqn:Hst;
    [|vm_compute in Hst; discriminate Hst].
  destruct (init_simulation_takes_first_alternative Toy.cfgSimulation toy_findAntenna_valid
              eq_refl Toy.epochs stationName 2 1 st) as (Hvec & _ & Hlog & _);
    [done | exact Hst |].
  exists st. split; [reflexivity|]. split; [|split].
  - rewrite Hvec. vm_compute. reflexivity.
  - rewrite Hlog. vm_compute. reflexivity.
  - vm_compute in Hst. injection Hst as <-. vm_compute. reflexivity.
Defined.

(** NOSIM and GRAZ are on this rank, WTZR is not: NOSIM is disabled with a
    warning, GRAZ gets its observations, WTZR is not touched. *)
Example simulation_of_three_stations :
  simulation Toy.cfg [Toy.receiver "NOSIM" true; Toy.receiver "GRAZ" true;
                      Toy.receiver "WTZR" false] =
  (Returns tt,
   [disable (Toy.receiver "NOSIM" true);
    Toy.set_observations 30%float [1; 2; 3; 4]%float (Toy.receiver "GRAZ" true);
    Toy.receiver "WTZR" false],
   [logStatus "simulate observations";
    logWarning "NOSIM disabled: no transmitter in view"]).
Proof. reflexivity. Qed.

(** kn = [0; 0; 1] and hn = [1; 2; 3; 4]: degree 2 is divided by 1 + 1, the
    degrees 0 and 1 and the degree 3 behind the end of kn stay. *)
Example love_numbers_of_four_degrees :
  reduceLoveNumbers [0; 0; 1]%float [1; 2; 3; 4]%float = [1; 2; 1.5; 4]%float.
Proof. reflexivity. Qed.

(** Three receivers, the second one on another rank. The displacement of a
    receiver is its position: the third receiver gets the row of the second
    position (row 1), not row 2. *)
Lemma displacements_follow_rank_order_witness :
  let receivers :=
    [Toy.positioned "GRAZ" true (1, 1, 1)%float (0, 0, 0)%float;
     Toy.positioned "WTZR" false (5, 5, 5)%float (0, 0, 0)%float;
     Toy.positioned "ZIMM" true (2, 2, 2)%float (0, 0, 1)%float] in
  tidesAndLoading Toy.epochs "loveNumbers.txt" EmptyString receivers =
  Returns [Toy.positioned "GRAZ" true (1, 1, 1)%float (1, 1, 1)%float;
           Toy.positioned "WTZR" false (5, 5, 5)%float (0, 0, 0)%float;
           Toy.positioned "ZIMM" true (2, 2, 2)%float (2, 2, 3)%float].
Proof.
  intros receivers.
  destruct (@displacements_follow_rank_order Toy.carrier Toy.environment
              (fun _ _ _ => eq_refl) Toy.epochs
              "loveNumbers.txt" EmptyString receivers
              [1; 2; 3; 4]%float [5; 6; 7; 8]%float
              [replicate 4 (1, 1, 1)%float; replicate 4 (2, 2, 2)%float]
              [replicate 4 (1, 1, 1)%float; replicate 4 (2, 2, 2)%float])
    as [Hrun _]; [reflexivity | reflexivity | reflexivity | reflexivity
                 | repeat constructor | repeat constructor |].
  rewrite Hrun. vm_compute. reflexivity.
Defined.

(** C6 (as the specification states it) does not hold for the counter of
    disabled stations. Two workers, two stations: CLCK on worker 0 is disabled,
    GRAZ on worker 1 is not. The number of disabled stations is 1; after the
    reduce worker 0 holds 1 and worker 1 holds 0. *)
Lemma aggregates_after_reduce_counterexample :
  let workers := [[Toy.receiver "CLCK" true; Toy.receiver "GRAZ" false];
                  [Toy.receiver "CLCK" false; Toy.receiver "GRAZ" true]] in
  globalCount Toy.cfg Toy.epochs workers = 1
  /\ ~ (forall rank run, preprocessing Toy.cfg Toy.epochs workers !! rank = Some run ->
                         disabledStations run.1.2 = globalCount Toy.cfg Toy.epochs workers).
Proof.
  intros workers. split; [reflexivity|].
  intros Hclaim.
  destruct (preprocessing Toy.cfg Toy.epochs workers !! 1) as [run|] eqn:Hrun;
    [|vm_compute in Hrun; discriminate Hrun].
  specialize (Hclaim 1 run Hrun).
  vm_compute in Hrun. injection Hrun as <-.
  vm_compute in Hclaim. discriminate Hclaim.
Qed.

(** * Properties of the signal biases *)

Import SignalBiases.

(** ** std::remainder *)

Lemma roundHalfEven_near (q : Q) : (Qabs (q - inject_Z (roundHalfEven q)) <= 1 # 2)%Q.
Proof.
  unfold roundHalfEven.
  pose proof (Qfloor_le q) as Hlo. pose proof (Qlt_floor q) as Hhi.
  rewrite inject_Z_plus in Hhi. change (inject_Z 1) with 1%Q in Hhi.
  set (f := Qfloor q) in *.
  destruct (Qcompare_spec (q - inject_Z f) (1 # 2)) as [Heq|Hlt|Hgt].
  - destruct (Z.even f); [|rewrite inject_Z_plus; change (inject_Z 1) with 1%Q];
      apply Qabs_Qle_condition; split; lra.
  - apply Qabs_Qle_condition; split; lra.
  - rewrite inject_Z_plus. change (inject_Z 1) with 1%Q.
    apply Qabs_Qle_condition; split; lra.
Qed.

(** The remainder lies within half of the divisor from zero. *)
Lemma remainder_bound (x y : Q) :
  ~ (y == 0)%Q -> (Qabs (remainder x y) <= Qabs y / 2)%Q.
Proof.
  intros Hy. unfold remainder.
  set (n := inject_Z (roundHalfEven (x / y))).
  assert (E : (x - n * y == (x / y - n) * y)%Q) by (field; exact Hy).
  rewrite E, Qabs_Qmult.
  pose proof (roundHalfEven_near (x / y)) as Hn. fold n in Hn.
  pose proof (Qabs_nonneg y).
  unfold Qdiv. setoid_replace (Qabs y * / 2)%Q with ((1 # 2) * Qabs y)%Q using relation Qeq by field.
  by apply Qmult_le_compat_r.
Qed.

(** Of two nearest integers the even one is taken. *)
Lemma roundHalfEven_tie (q : Q) :
  (Qabs (q - inject_Z (roundHalfEven q)) == 1 # 2)%Q -> Z.even (roundHalfEven q) = true.
Proof.
  unfold roundHalfEven.
  pose proof (Qfloor_le q) as Hlo. pose proof (Qlt_floor q) as Hhi.
  rewrite inject_Z_plus in Hhi. change (inject_Z 1) with 1%Q in Hhi.
  set (f := Qfloor q) in *.
  destruct (Qcompare_spec (q - inject_Z f) (1 # 2)) as [Heq|Hlt|Hgt].
  - intros _. destruct (Z.even f) eqn:Hf; [done|].
    rewrite Z.even_add, Hf. done.
  - intros Htie. exfalso. rewrite Qabs_pos in Htie by lra. lra.
  - rewrite inject_Z_plus. change (inject_Z 1) with 1%Q.
    intros Htie. exfalso. rewrite Qabs_neg in Htie by lra. lra.
Qed.

Lemma remainder_tie (x y : Q) :
  ~ (y == 0)%Q -> (Qabs (remainder x y) == Qabs y / 2)%Q ->
  Z.even (roundHalfEven (x / y)) = true.
Proof.
  intros Hy Htie. apply roundHalfEven_tie.
  assert (Hpos : ~ (Qabs y == 0)%Q).
  { intros H0. apply Hy. destruct (Qlt_le_dec y 0) as [Hneg|Hnn].
    - rewrite Qabs_neg in H0 by lra. lra.
    - rewrite Qabs_pos in H0 by lra. lra. }
  apply (Qmult_inj_r _ _ (Qabs y) Hpos).
  rewrite <- Qabs_Qmult.
  assert (E : ((x / y - inject_Z (roundHalfEven (x / y))) * y == remainder x y)%Q)
    by (unfold remainder; field; exact Hy).
  rewrite E, Htie. field.
Qed.

(** ** writeResults *)

Section WriteProperties.
Context `{Collaborators}.
Variable cfg : Config.

Lemma wrapBiases_spec (stored : GnssSignalBias) (k m : nat) (sb sb1 : GnssSignalBias) :
  types sb = types stored -> biases sb = wrappedUpTo stored m ->
  wrapBiases (seq m k) sb = Returns sb1 ->
  types sb1 = types stored /\ biases sb1 = wrappedUpTo stored (m + k).
Proof.
  revert m sb. induction k as [|k IH]; intros m sb Htypes Hbiases; simpl.
  - intros [= <-]. by rewrite Nat.add_0_r.
  - unfold wrapBias. rewrite Htypes.
    destruct (types stored !! m) as [type|] eqn:Htype; [|done].
    assert (Hnext : forall sb2, types sb2 = types stored ->
                      biases sb2 = wrappedUpTo stored (S m) ->
                      wrapBiases (seq (S m) k) sb2 = Returns sb1 ->
                      types sb1 = types stored /\ biases sb1 = wrappedUpTo stored (m + S k)).
    { intros sb2 Ht Hb Hrun. replace (m + S k) with (S m + k) by lia. by eapply IH. }
    destruct (isPhase type) eqn:Hphase.
    + destruct (biases sb !! m) as [b|] eqn:Hb; [|done].
      apply Hnext; simpl; [done|].
      rewrite Hbiases in *. unfold wrappedUpTo in *.
      rewrite list_lookup_imap in Hb.
      destruct (biases stored !! m) as [b0|] eqn:Hb0; simpl in Hb; [|done].
      rewrite decide_False in Hb by lia. injection Hb as <-.
      apply list_eq. intros i. destruct (decide (i = m)) as [->|Hne].
      * rewrite list_lookup_insert_eq by (rewrite length_imap; by eapply lookup_lt_Some).
        rewrite list_lookup_imap, Hb0. simpl. rewrite decide_True by lia.
        unfold wrappedBias. by rewrite Htype, Hphase.
      * rewrite list_lookup_insert_ne by done. rewrite !list_lookup_imap.
        destruct (biases stored !! i); simpl; [|done].
        destruct (decide (i < m)); [by rewrite decide_True by lia|].
        by rewrite decide_False by lia.
    + apply Hnext; [done|]. rewrite Hbiases. unfold wrappedUpTo.
      apply imap_ext. intros i b Hi. simpl.
      destruct (decide (i = m)) as [->|Hne].
      * rewrite decide_False, decide_True by lia.
        unfold wrappedBias. by rewrite Htype, Hphase.
      * destruct (decide (i < m)); [by rewrite decide_True by lia|].
        by rewrite decide_False by lia.
Qed.

Lemma wrapPhaseBiases_spec (stored sb1 : GnssSignalBias) :
  wrapPhaseBiases stored = Returns sb1 -> sb1 = writtenBias stored.
Proof.
  intros Hrun.
  destruct (wrapBiases_spec stored (length (types stored)) 0 stored sb1) as [Ht Hb];
    [done| |done|].
  { unfold wrappedUpTo. apply list_eq. intros i. rewrite list_lookup_imap.
    destruct (biases stored !! i); [|done]. cbn [fmap option_fmap option_map].
    case_decide; [lia|done]. }
  destruct sb1 as [ts bs]; simpl in *. unfold writtenBias. f_equal; [done|].
  rewrite Hb. unfold wrappedUpTo. apply imap_ext. intros i b Hi. simpl.
  destruct (decide (i < length (types stored))) as [|Hge]; [done|].
  unfold wrappedBias. by rewrite lookup_ge_None_2 by lia.
Qed.

Lemma writtenFrom_refl (w0 : World) : writtenFrom w0 w0.
Proof. split; [done|]. exists []. by rewrite app_nil_r. Qed.

Lemma writtenFrom_write (w0 w : World) (fileName : string) (t : GnssTransceiver) :
  writtenFrom w0 w ->
  t ∈ transmitters (gnss w0) \/ t ∈ receivers (gnss w0) ->
  writtenFrom w0 (writeFileGnssSignalBias fileName (writtenBias (signalBias t)) w).1.2.
Proof.
  intros (Hg & new & Hfiles & Hall) Ht. split; [done|]. simpl.
  exists (new ++ [(fileName, writtenBias (signalBias t))]).
  rewrite Hfiles, app_assoc. split; [done|].
  apply Forall_app. split; [done|]. constructor; [|done]. by exists t.
Qed.

Lemma writeTransmitter_written (w0 w : World) (selected : list bool) (suffix : string)
    (trans : GnssTransceiver) :
  trans ∈ transmitters (gnss w0) -> writtenFrom w0 w ->
  writtenFrom w0 (writeTransmitter cfg selected suffix trans w).1.2.
Proof.
  intros Hin Hw. unfold writeTransmitter.
  destruct (useable trans); [|done].
  destruct (selected !! id trans) as [[|]|]; [|done|done].
  destruct (wrapPhaseBiases (signalBias trans)) as [sb|e] eqn:Hwrap; [|done].
  apply wrapPhaseBiases_spec in Hwrap as ->.
  apply writtenFrom_write; [done|by left].
Qed.

Lemma writeReceiver_written (w0 w : World) (info : GnssNormalEquationInfo)
    (selected : list bool) (suffix : string) (recv : GnssTransceiver) :
  recv ∈ receivers (gnss w0) -> writtenFrom w0 w ->
  writtenFrom w0 (writeReceiver cfg info selected suffix recv w).1.2.
Proof.
  intros Hin Hw. unfold writeReceiver.
  destruct (isMyRank recv); [|done].
  destruct (selected !! id recv) as [[|]|]; [|done|done].
  destruct (estimateReceiver info !! id recv) as [[|]|]; [|done|done].
  destruct (wrapPhaseBiases (signalBias recv)) as [sb|e] eqn:Hwrap; [|done].
  apply wrapPhaseBiases_spec in Hwrap as ->.
  apply writtenFrom_write; [done|by right].
Qed.

Lemma writeTransmitters_written (w0 w : World) (info : GnssNormalEquationInfo)
    (suffix : string) :
  writtenFrom w0 w -> writtenFrom w0 (writeTransmitters cfg info suffix w).1.2.
Proof.
  intros Hw. unfold writeTransmitters.
  destruct (_ && _); [|done].
  unfold bind, emit, get.
  pose proof (forM_preserves_elem (writtenFrom w0)
                (writeTransmitter cfg (selectTransmitters (transmitters (gnss w))) suffix)
                (transmitters (gnss w)) w) as Hloop.
  destruct (forM_ _ _ w) as [[o w1] ev]. simpl in *. apply Hloop; [|done].
  intros trans w2 Hin Hw2. apply writeTransmitter_written; [|done].
  destruct Hw as [<- _]. done.
Qed.

Lemma writeReceivers_written (w0 w : World) (info : GnssNormalEquationInfo)
    (suffix : string) :
  writtenFrom w0 w -> writtenFrom w0 (writeReceivers cfg info suffix w).1.2.
Proof.
  intros Hw. unfold writeReceivers.
  destruct (negb _); [|done].
  unfold bind, emit, get.
  pose proof (forM_preserves_elem (writtenFrom w0)
                (writeReceiver cfg info (selectReceivers (receivers (gnss w))) suffix)
                (receivers (gnss w)) w) as Hloop.
  destruct (forM_ _ _ w) as [[o w1] ev]. simpl in *. apply Hloop; [|done].
  intros recv w2 Hin Hw2. apply writeReceiver_written; [|done].
  destruct Hw as [<- _]. done.
Qed.

(** C10. writeResults leaves the transmitters and receivers, and with them
    their stored signal biases, as they are, whether it returns or throws.
    Every file it writes holds a copy of the stored bias of a transmitter or
    receiver with the same types, in which the bias of a phase type is
    std::remainder of the stored bias by the wavelength LIGHT_VELOCITY/frequency
    of the type and the bias of any other type is the stored bias. The
    wavelength is the quotient as the code computes it, in binary64. For a
    wavelength that is not zero the written phase bias is the stored bias
    less a whole number n of wavelengths, lies within half a wavelength from
    zero, and n is even when it lies at half a wavelength exactly: it is the
    value of std::remainder. *)
Theorem writeResults_wraps_phase_biases (info : GnssNormalEquationInfo) (suffix : string)
    (w : World) :
  let w1 := (writeResults cfg info suffix w).1.2 in
  gnss w1 = gnss w
  /\ (exists new,
        files w1 = files w ++ new
        /\ Forall (fun file =>
                     exists t, (t ∈ transmitters (gnss w) \/ t ∈ receivers (gnss w))
                               /\ file.2 = writtenBias (signalBias t)) new)
  /\ (forall stored idType type b,
        types stored !! idType = Some type -> biases stored !! idType = Some b ->
        types (writtenBias stored) = types stored
        /\ biases (writtenBias stored) !! idType =
           Some (if isPhase type then remainder b (wavelength type) else b)
        /\ (isPhase type = true -> ~ (wavelength type == 0)%Q ->
            (Qabs (remainder b (wavelength type)) <= Qabs (wavelength type) / 2)%Q))
  /\ (forall stored idType type b,
        types stored !! idType = Some type -> biases stored !! idType = Some b ->
        isPhase type = false ->
        biases (writtenBias stored) !! idType = Some b)
  /\ (forall stored idType type b,
        types stored !! idType = Some type -> biases stored !! idType = Some b ->
        isPhase type = true ->
        let wl := Double_value (LIGHT_VELOCITY / frequency type)%float in
        ~ (wl == 0)%Q ->
        exists n : Z,
          biases (writtenBias stored) !! idType = Some (b - inject_Z n * wl)%Q
          /\ (Qabs (b - inject_Z n * wl) <= Qabs wl / 2)%Q
          /\ ((Qabs (b - inject_Z n * wl) == Qabs wl / 2)%Q -> Z.even n = true)).
Proof.
  intros w1.
  assert (Hw : writtenFrom w w1).
  { unfold w1, writeResults. destruct (negb (isEnabled info)); [apply writtenFrom_refl|].
    unfold bind.
    pose proof (writeTransmitters_written w w info suffix (writtenFrom_refl w)) as Ht.
    destruct (writeTransmitters cfg info suffix w) as [[[u|e] w2] ev]; simpl in *; [|done].
    pose proof (writeReceivers_written w w2 info suffix Ht) as Hr.
    by destruct (writeReceivers cfg info suffix w2) as [[o w3] ev3]. }
  destruct Hw as [Hg Hfiles]. split; [done|]. split; [done|].
  assert (Hwritten : forall stored idType type b,
            types stored !! idType = Some type -> biases stored !! idType = Some b ->
            biases (writtenBias stored) !! idType =
            Some (if isPhase type then remainder b (wavelength type) else b)).
  { intros stored idType type b Htype Hb.
    simpl. rewrite list_lookup_imap, Hb. simpl. unfold wrappedBias. by rewrite Htype. }
  split; [|split].
  - intros stored idType type b Htype Hb. split; [done|]. split.
    + by apply Hwritten.
    + intros _ Hwl. by apply remainder_bound.
  - intros stored idType type b Htype Hb Hphase.
    rewrite (Hwritten stored idType type b Htype Hb). by rewrite Hphase.
  - intros stored idType type b Htype Hb Hphase wl Hwl.
    exists (roundHalfEven (b / wl)).
    rewrite (Hwritten stored idType type b Htype Hb), Hphase.
    split; [done|]. split.
    + by apply (remainder_bound b wl).
    + by apply (remainder_tie b wl).
Qed.

End WriteProperties.

(** ** init *)

Section InitBiasProperties.
Context `{Collaborators}.
Variable cfg : Config.

Lemma useable_disable_bias (t : GnssTransceiver) : useable (disable t) = false.
Proof.
  unfold useable, disable; simpl.
  induction (length (useableEpochs t)) as [|n IH]; [done|]. by simpl.
Qed.

Lemma initReceiver_run (selected : list bool) (idRecv : nat) (gnss : Gnss) (sel : bool)
    (recv : GnssTransceiver) :
  selected !! idRecv = Some sel -> receivers gnss !! idRecv = Some recv ->
  initReceiver cfg selected idRecv gnss =
  (Returns tt,
   set_receivers (<[idRecv := receiverAfterInit cfg sel recv]> (receivers gnss)) gnss,
   receiverInitEvents cfg sel recv).
Proof.
  intros Hsel Hrecv.
  unfold initReceiver, receiverAfterInit, receiverInitEvents, receiverBiasFile.
  rewrite Hsel, Hrecv.
  destruct (sel && useable recv).
  - by destruct (readFileGnssSignalBias _).
  - rewrite list_insert_id by done. by destruct gnss.
Qed.

(** After the first [m] passes of the loop over the receivers. *)
Lemma initReceivers_prefix (selected : list bool) (gnss : Gnss) (m : nat) :
  length selected = length (receivers gnss) -> m <= length (receivers gnss) ->
  forM_ (seq 0 m) (initReceiver cfg selected) gnss =
  (Returns tt,
   set_receivers
     (zip_with (receiverAfterInit cfg) (take m selected) (take m (receivers gnss))
        ++ drop m (receivers gnss)) gnss,
   concat (zip_with (receiverInitEvents cfg) (take m selected) (take m (receivers gnss)))).
Proof.
  intros Hlen. induction m as [|m IH]; intros Hm.
  - simpl. rewrite drop_0. by destruct gnss.
  - destruct (lookup_lt_is_Some_2 (receivers gnss) m) as [recv Hrecv]; [lia|].
    destruct (lookup_lt_is_Some_2 selected m) as [sel Hsel]; [lia|].
    rewrite seq_S. simpl.
    erewrite forM_snoc; [|apply IH; lia|apply (initReceiver_run _ _ _ sel recv); [done|]].
    + rewrite (take_S_r _ _ _ Hrecv), (take_S_r _ _ _ Hsel).
      rewrite !zip_with_app by (rewrite !length_take; lia).
      rewrite concat_app. cbn [zip_with concat]. rewrite app_nil_r.
      do 2 f_equal. unfold set_receivers. cbn [transmitters receivers]. f_equal.
      rewrite insert_app_r_alt by (rewrite length_zip_with, !length_take; lia).
      rewrite length_zip_with, !length_take.
      replace (m - _) with 0 by lia.
      rewrite (drop_S _ _ _ Hrecv). simpl. by rewrite <- app_assoc.
    + simpl. rewrite lookup_app_r by (rewrite length_zip_with, !length_take; lia).
      rewrite length_zip_with, !length_take.
      replace (m - _) with 0 by lia. by rewrite lookup_drop, Nat.add_0_r.
Qed.

(** C2. When init reads the signal biases of the receivers, the file read for
    every selected usable receiver is the one that the template of the
    transmitters (inputfileSignalBiasTransmitter) names for the station, not
    the one of the template of the receivers. When the read fails, the
    warning names the file of the template of the receivers and the receiver
    is disabled. *)
Theorem receiver_bias_read_with_transmitter_template (gnss : Gnss) :
  FileName_empty (fileNameInReceiver cfg) = false ->
  length (selectReceivers (receivers gnss)) = length (receivers gnss) ->
  let selected := selectReceivers (receivers gnss) in
  initReceivers cfg gnss =
    (Returns tt,
     set_receivers (zip_with (receiverAfterInit cfg) selected (receivers gnss)) gnss,
     concat (zip_with (receiverInitEvents cfg) selected (receivers gnss)))
  /\ (forall recv, useable recv = true ->
        let vars := variables "station" (name recv) in
        let fileRead := expand (fileNameInTransmitter cfg) vars in
        let fileWarned := expand (fileNameInReceiver cfg) vars in
        match readFileGnssSignalBias fileRead with
        | Returns sb =>
            receiverInitEvents cfg true recv = [Call (op_readFileGnssSignalBias fileRead)]
            /\ receiverAfterInit cfg true recv = set_signalBias sb recv
        | Throws _ =>
            receiverInitEvents cfg true recv =
              [Call (op_readFileGnssSignalBias fileRead);
               logWarningOnce (unableToRead fileWarned "receiver")]
            /\ receiverAfterInit cfg true recv = disable recv
            /\ useable (receiverAfterInit cfg true recv) = false
        end).
Proof.
  intros Hgiven Hlen selected. subst selected. split.
  - unfold initReceivers. rewrite Hgiven.
    rewrite (initReceivers_prefix _ gnss (length (receivers gnss))) by done.
    rewrite firstn_all, drop_all, app_nil_r.
    by rewrite <- Hlen, firstn_all.
  - intros recv Hus vars fileRead fileWarned.
    unfold receiverInitEvents, receiverAfterInit, receiverBiasFile. rewrite Hus. simpl.
    fold vars. fold fileRead.
    destruct (readFileGnssSignalBias fileRead); [done|].
    split; [done|]. split; [done|]. apply useable_disable_bias.
Qed.

End InitBiasProperties.

(** ** init: the transmitters and the run as a whole *)

Section InitRunProperties.
Context `{Collaborators}.
Variable cfg : Config.

Lemma initTransmitter_run (selected : list bool) (idTrans : nat) (gnss : Gnss) (sel : bool)
    (trans : GnssTransceiver) :
  selected !! idTrans = Some sel -> transmitters gnss !! idTrans = Some trans ->
  initTransmitter cfg selected idTrans gnss =
  (Returns tt,
   set_transmitters (<[idTrans := transmitterAfterInit cfg sel trans]> (transmitters gnss)) gnss,
   transmitterInitEvents cfg sel trans).
Proof.
  intros Hsel Htrans.
  unfold initTransmitter, transmitterAfterInit, transmitterInitEvents, transmitterBiasFile.
  rewrite Hsel, Htrans.
  destruct (sel && useable trans).
  - by destruct (readFileGnssSignalBias _).
  - rewrite list_insert_id by done. by destruct gnss.
Qed.

(** After the first [m] passes of the loop over the transmitters. *)
Lemma initTransmitters_prefix (selected : list bool) (gnss : Gnss) (m : nat) :
  m <= length selected -> m <= length (transmitters gnss) ->
  forM_ (seq 0 m) (initTransmitter cfg selected) gnss =
  (Returns tt,
   set_transmitters
     (zip_with (transmitterAfterInit cfg) (take m selected) (take m (transmitters gnss))
        ++ drop m (transmitters gnss)) gnss,
   concat (zip_with (transmitterInitEvents cfg) (take m selected) (take m (transmitters gnss)))).
Proof.
  induction m as [|m IH]; intros Hsel Hm.
  - simpl. rewrite drop_0. by destruct gnss.
  - destruct (lookup_lt_is_Some_2 (transmitters gnss) m) as [trans Htrans]; [lia|].
    destruct (lookup_lt_is_Some_2 selected m) as [sel Hs]; [lia|].
    rewrite seq_S. simpl.
    erewrite forM_snoc; [|apply IH; lia|apply (initTransmitter_run _ _ _ sel trans); [done|]].
    + rewrite (take_S_r _ _ _ Htrans), (take_S_r _ _ _ Hs).
      rewrite !zip_with_app by (rewrite !length_take; lia).
      rewrite concat_app. cbn [zip_with concat]. rewrite app_nil_r.
      do 2 f_equal. unfold set_transmitters. cbn [transmitters receivers]. f_equal.
      rewrite insert_app_r_alt by (rewrite length_zip_with, !length_take; lia).
      rewrite length_zip_with, !length_take.
      replace (m - _) with 0 by lia.
      rewrite (drop_S _ _ _ Htrans). simpl. by rewrite <- app_assoc.
    + simpl. rewrite lookup_app_r by (rewrite length_zip_with, !length_take; lia).
      rewrite length_zip_with, !length_take.
      replace (m - _) with 0 by lia. by rewrite lookup_drop, Nat.add_0_r.
Qed.

Lemma initTransmitters_run (gnss : Gnss) :
  length (selectTransmitters (transmitters gnss)) = length (transmitters gnss) ->
  initTransmitters cfg gnss =
  (Returns tt,
   set_transmitters (transmittersAfterInit cfg gnss) gnss,
   if FileName_empty (fileNameInTransmitter cfg) then []
   else concat (zip_with (transmitterInitEvents cfg) (selectTransmitters (transmitters gnss))
                         (transmitters gnss))).
Proof.
  intros Hlen. unfold initTransmitters, transmittersAfterInit.
  destruct (FileName_empty (fileNameInTransmitter cfg)); [by destruct gnss|].
  rewrite (initTransmitters_prefix _ gnss (length (transmitters gnss))) by lia.
  rewrite firstn_all, drop_all, app_nil_r.
  by rewrite <- Hlen, firstn_all.
Qed.

Lemma initReceivers_run (gnss : Gnss) :
  length (selectReceivers (receivers gnss)) = length (receivers gnss) ->
  initReceivers cfg gnss =
  (Returns tt,
   set_receivers (receiversAfterInit cfg gnss) gnss,
   if FileName_empty (fileNameInReceiver cfg) then []
   else concat (zip_with (receiverInitEvents cfg) (selectReceivers (receivers gnss))
                         (receivers gnss))).
Proof.
  intros Hlen. unfold initReceivers, receiversAfterInit.
  destruct (FileName_empty (fileNameInReceiver cfg)); [by destruct gnss|].
  rewrite (initReceivers_prefix cfg _ gnss (length (receivers gnss))) by done.
  rewrite firstn_all, drop_all, app_nil_r.
  by rewrite <- Hlen, firstn_all.
Qed.

(** X10. When init reads the signal biases of the transmitters, every
    selected usable transmitter is visited once, in order: the file read is
    the one that the template of the transmitters names for its PRN; when the
    read succeeds the stored bias is replaced by the content of the file, when
    it fails the warning names the same file and the transmitter is disabled.
    A transmitter that is not selected or not usable is left as it is and no
    file is read for it. The receivers are not touched by this loop. *)
Theorem transmitter_bias_read_and_warned_with_same_file (gnss : Gnss) :
  FileName_empty (fileNameInTransmitter cfg) = false ->
  length (selectTransmitters (transmitters gnss)) = length (transmitters gnss) ->
  let selected := selectTransmitters (transmitters gnss) in
  initTransmitters cfg gnss =
    (Returns tt,
     {| transmitters := zip_with (transmitterAfterInit cfg) selected (transmitters gnss);
        receivers := receivers gnss |},
     concat (zip_with (transmitterInitEvents cfg) selected (transmitters gnss)))
  /\ (forall trans, useable trans = true ->
        let fileName := expand (fileNameInTransmitter cfg) (variables "prn" (name trans)) in
        match readFileGnssSignalBias fileName with
        | Returns sb =>
            transmitterInitEvents cfg true trans = [Call (op_readFileGnssSignalBias fileName)]
            /\ transmitterAfterInit cfg true trans = set_signalBias sb trans
            /\ useable (transmitterAfterInit cfg true trans) = true
        | Throws _ =>
            transmitterInitEvents cfg true trans =
              [Call (op_readFileGnssSignalBias fileName);
               logWarningOnce (unableToRead fileName "transmitter")]
            /\ transmitterAfterInit cfg true trans = disable trans
            /\ useable (transmitterAfterInit cfg true trans) = false
        end)
  /\ (forall sel trans, sel && useable trans = false ->
        transmitterAfterInit cfg sel trans = trans /\ transmitterInitEvents cfg sel trans = []).
Proof.
  intros Hgiven Hlen selected. subst selected. split; [|split].
  - rewrite initTransmitters_run by done. unfold transmittersAfterInit. by rewrite Hgiven.
  - intros trans Hus fileName.
    unfold transmitterInitEvents, transmitterAfterInit, transmitterBiasFile. rewrite Hus. simpl.
    fold fileName.
    destruct (readFileGnssSignalBias fileName); [done|].
    split; [done|]. split; [done|]. apply useable_disable_bias.
  - intros sel trans Hno. unfold transmitterAfterInit, transmitterInitEvents. by rewrite Hno.
Qed.

(** X11. init as a whole, when each selection has one entry per object: it
    returns normally; the transmitters are read first, then the receivers;
    the loop of the transmitters leaves the receivers as they are and the loop
    of the receivers leaves the transmitters as the first loop made them; the
    numbers of transmitters and of receivers do not change; a block whose
    input file name is empty is skipped. With both input file names empty
    init changes nothing and reads no file. *)
Theorem init_reads_transmitters_then_receivers (gnss : Gnss) :
  length (selectTransmitters (transmitters gnss)) = length (transmitters gnss) ->
  length (selectReceivers (receivers gnss)) = length (receivers gnss) ->
  init cfg gnss =
    (Returns tt,
     {| transmitters := transmittersAfterInit cfg gnss;
        receivers := receiversAfterInit cfg gnss |},
     initLog cfg gnss)
  /\ length (transmittersAfterInit cfg gnss) = length (transmitters gnss)
  /\ length (receiversAfterInit cfg gnss) = length (receivers gnss)
  /\ (FileName_empty (fileNameInTransmitter cfg) = true ->
      FileName_empty (fileNameInReceiver cfg) = true ->
      init cfg gnss = (Returns tt, gnss, [])).
Proof.
  intros HlenT HlenR.
  assert (Hrun : init cfg gnss =
                 (Returns tt,
                  {| transmitters := transmittersAfterInit cfg gnss;
                     receivers := receiversAfterInit cfg gnss |},
                  initLog cfg gnss)).
  { unfold init, bind. rewrite initTransmitters_run by done.
    rewrite initReceivers_run by done. done. }
  split; [exact Hrun|]. split; [|split].
  - unfold transmittersAfterInit. destruct (FileName_empty _); [done|].
    rewrite length_zip_with. lia.
  - unfold receiversAfterInit. destruct (FileName_empty _); [done|].
    rewrite length_zip_with. lia.
  - intros HT HR. rewrite Hrun.
    unfold transmittersAfterInit, receiversAfterInit, initLog. rewrite HT, HR.
    by destruct gnss.
Qed.

(** X12. When the selection of the transmitters has fewer entries than
    there are transmitters, init ends with an exception (the range check of
    selectedTransmitters.at fails): the transmitters covered by the selection
    have been processed and stay as the loop made them, bias read or
    transmitter disabled; the transmitters behind them and all receivers are
    as they were. The block of the receivers is not reached. *)
Theorem init_short_selection_throws (gnss : Gnss) :
  FileName_empty (fileNameInTransmitter cfg) = false ->
  length (selectTransmitters (transmitters gnss)) < length (transmitters gnss) ->
  let selected := selectTransmitters (transmitters gnss) in
  exists e,
    init cfg gnss =
      (Throws e,
       {| transmitters :=
            zip_with (transmitterAfterInit cfg) selected (transmitters gnss)
              ++ drop (length selected) (transmitters gnss);
          receivers := receivers gnss |},
       concat (zip_with (transmitterInitEvents cfg) selected (transmitters gnss))).
Proof.
  intros Hgiven Hshort selected. exists out_of_range.
  unfold init, bind, initTransmitters. rewrite Hgiven. fold selected.
  replace (length (transmitters gnss))
    with (length selected + S (length (transmitters gnss) - length selected - 1)) at 1
    by (unfold selected; lia).
  rewrite seq_app, forM_app. unfold bind.
  rewrite (initTransmitters_prefix selected gnss (length selected)) by (unfold selected; lia).
  rewrite firstn_all. cbn [seq forM_ Nat.add]. unfold bind.
  unfold initTransmitter at 1.
  rewrite (lookup_ge_None_2 selected (length selected)) by lia.
  rewrite app_nil_r.
  assert (Hzip : forall {A B C} (f : A -> B -> C) (l : list A) (k : list B),
            zip_with f l (take (length l) k) = zip_with f l k).
  { intros A B C f l. induction l as [|x l IHl]; intros [|y k]; simpl; [done..|].
    by rewrite IHl. }
  by rewrite !Hzip.
Qed.

End InitRunProperties.

(** ** writeResults: the files *)

Section FileProperties.
Context `{Collaborators}.
Variable cfg : Config.

Lemma wrapBiases_returns (k m : nat) (sb : GnssSignalBias) :
  m + k <= length (types sb) -> complete sb ->
  exists sb1, wrapBiases (seq m k) sb = Returns sb1.
Proof.
  revert m sb. induction k as [|k IH]; intros m sb Hm Hc; simpl; [by eexists|].
  unfold wrapBias.
  destruct (lookup_lt_is_Some_2 (types sb) m) as [type ->]; [lia|].
  destruct (isPhase type).
  - destruct (lookup_lt_is_Some_2 (biases sb) m) as [b ->]; [unfold complete in Hc; lia|].
    apply IH; simpl; [lia|]. unfold complete in *. simpl. by rewrite length_insert.
  - apply IH; [lia|done].
Qed.

Lemma wrapPhaseBiases_complete (sb : GnssSignalBias) :
  complete sb -> wrapPhaseBiases sb = Returns (writtenBias sb).
Proof.
  intros Hc.
  destruct (wrapBiases_returns (length (types sb)) 0 sb) as [sb1 Hrun]; [done|done|].
  unfold wrapPhaseBiases. rewrite Hrun. f_equal. by apply wrapPhaseBiases_spec.
Qed.

(** A loop whose passes only append files. *)
Lemma forM_files {X} (body : X -> M World unit)
    (fileOf : X -> option (string * GnssSignalBias)) (xs : list X) (w : World) :
  Forall (fun x => forall w0,
            body x w0 =
            (Returns tt,
             {| gnss := gnss w0;
                files := files w0 ++ match fileOf x with Some file => [file] | None => [] end |},
             [])) xs ->
  forM_ xs body w =
  (Returns tt, {| gnss := gnss w; files := files w ++ omap fileOf xs |}, []).
Proof.
  intros Hall. revert w. induction Hall as [|x xs Hx _ IH]; intros w.
  - simpl. rewrite app_nil_r. by destruct w.
  - simpl. unfold bind. rewrite Hx, IH. cbn [gnss files omap list_omap].
    rewrite <- app_assoc. by destruct (fileOf x).
Qed.

Lemma writeTransmitter_run (selected : list bool) (suffix : string) (trans : GnssTransceiver)
    (w : World) :
  (useable trans = true -> id trans < length selected) ->
  complete (signalBias trans) ->
  writeTransmitter cfg selected suffix trans w =
  (Returns tt,
   {| gnss := gnss w;
      files := files w ++ match transmitterFile cfg selected suffix trans with
                          | Some file => [file]
                          | None => []
                          end |},
   []).
Proof.
  intros Hid Hc. unfold writeTransmitter, transmitterFile.
  destruct (useable trans); simpl; [|rewrite app_nil_r; by destruct w].
  destruct (lookup_lt_is_Some_2 selected (id trans)) as [sel ->]; [by apply Hid|].
  destruct sel; simpl; [|rewrite app_nil_r; by destruct w].
  by rewrite wrapPhaseBiases_complete.
Qed.

Lemma writeReceiver_run (info : GnssNormalEquationInfo) (selected : list bool)
    (suffix : string) (recv : GnssTransceiver) (w : World) :
  (isMyRank recv = true ->
   id recv < length selected /\ id recv < length (estimateReceiver info)) ->
  complete (signalBias recv) ->
  writeReceiver cfg info selected suffix recv w =
  (Returns tt,
   {| gnss := gnss w;
      files := files w ++ match receiverFile cfg info selected suffix recv with
                          | Some file => [file]
                          | None => []
                          end |},
   []).
Proof.
  intros Hid Hc. unfold writeReceiver, receiverFile.
  destruct (isMyRank recv); simpl; [|rewrite app_nil_r; by destruct w].
  destruct Hid as [Hsel Hest]; [done|].
  destruct (lookup_lt_is_Some_2 selected (id recv)) as [sel ->]; [done|].
  destruct sel; simpl; [|rewrite app_nil_r; by destruct w].
  destruct (lookup_lt_is_Some_2 (estimateReceiver info) (id recv)) as [est ->]; [done|].
  destruct est; simpl; [|rewrite app_nil_r; by destruct w].
  by rewrite wrapPhaseBiases_complete.
Qed.

(** X13. writeResults, when every stored bias holds a value for each of its
    types and the ids of the objects are covered by the selections (and, for
    the receivers, by estimateReceiver): it returns normally and leaves the
    transmitters and receivers as they are. The files written are, in this
    order, one for every usable selected transmitter (only on the master, only
    when the receivers are not processed separately and the output name of the
    transmitters is given), then one for every selected receiver of this rank
    whose parameters are estimated (when the output name of the receivers is
    given); each file is named by the output template with the PRN or station
    name and the suffix, and holds the wrapped copy of the stored bias. A
    parametrization that is not enabled writes no file and no log line. *)
Theorem writeResults_files (info : GnssNormalEquationInfo) (suffix : string) (w : World) :
  Forall (fun trans => complete (signalBias trans)
                       /\ (useable trans = true ->
                           id trans < length (selectTransmitters (transmitters (gnss w)))))
         (transmitters (gnss w)) ->
  Forall (fun recv => complete (signalBias recv)
                      /\ (isMyRank recv = true ->
                          id recv < length (selectReceivers (receivers (gnss w)))
                          /\ id recv < length (estimateReceiver info)))
         (receivers (gnss w)) ->
  writeResults cfg info suffix w =
  (Returns tt,
   {| gnss := gnss w; files := files w ++ filesWritten cfg info suffix (gnss w) |},
   statusLines cfg info suffix).
Proof.
  intros Htrans Hrecv.
  unfold writeResults, filesWritten, statusLines.
  destruct (isEnabled info); simpl; [|rewrite app_nil_r; by destruct w].
  unfold bind, writeTransmitters, writesTransmitters.
  set (tfiles := omap _ (transmitters (gnss w))).
  set (rfiles := omap _ (receivers (gnss w))).
  assert (Hr : forall w1 : World, gnss w1 = gnss w ->
            writeReceivers cfg info suffix w1 =
            (Returns tt,
             {| gnss := gnss w;
                files := files w1 ++ (if FileName_empty (fileNameOutReceiver cfg)
                                      then [] else rfiles) |},
             if FileName_empty (fileNameOutReceiver cfg) then []
             else [logStatus ("write receiver signal biases to files <"
                                +:+ appendBaseName (expand (fileNameOutReceiver cfg)
                                                           (<["station" := "****"]> ∅)) suffix
                                +:+ ">")])).
  { intros w1 Hg. unfold writeReceivers.
    destruct (FileName_empty (fileNameOutReceiver cfg)); simpl;
      [rewrite app_nil_r, <- Hg; by destruct w1|].
    unfold bind, emit, get. rewrite Hg.
    rewrite (forM_files _ (receiverFile cfg info (selectReceivers (receivers (gnss w))) suffix)).
    - by rewrite Hg.
    - eapply Forall_impl; [exact Hrecv|]. simpl. intros recv [Hc Hid] w0.
      by apply writeReceiver_run. }
  destruct (negb (FileName_empty (fileNameOutTransmitter cfg))
            && negb (isEachReceiverSeparately info) && isMaster info).
  - unfold bind, emit, get.
    rewrite (forM_files _ (transmitterFile cfg (selectTransmitters (transmitters (gnss w)))
                                           suffix)).
    + rewrite Hr by done. cbn [files]. rewrite app_nil_r, <- app_assoc. done.
    + eapply Forall_impl; [exact Htrans|]. simpl. intros trans [Hc Hid] w0.
      by apply writeTransmitter_run.
  - unfold ret. rewrite Hr by done. done.
Qed.

End FileProperties.

(** ** writeResults: wrapping twice *)

Lemma roundHalfEven_small (q : Q) : (Qabs q <= 1 # 2)%Q -> roundHalfEven q = 0%Z.
Proof.
  intros Hq. apply Qabs_Qle_condition in Hq as [Hlo Hhi].
  unfold roundHalfEven.
  pose proof (Qfloor_le q) as Hfl. pose proof (Qlt_floor q) as Hfu.
  set (f := Qfloor q) in *.
  assert (Hf : (f = 0 \/ f = -1)%Z).
  { assert (H1 : (inject_Z f < 1)%Q) by lra.
    assert (H2 : (- (1) < inject_Z (f + 1))%Q) by lra.
    unfold Qlt, inject_Z in H1, H2. simpl in H1, H2. lia. }
  destruct Hf as [Hf|Hf]; rewrite Hf in *.
  - destruct (Qcompare_spec (q - inject_Z 0) (1 # 2)) as [Heq|Hlt|Hgt]; [done|done|].
    change (inject_Z 0) with 0%Q in Hgt. lra.
  - destruct (Qcompare_spec (q - inject_Z (-1)) (1 # 2)) as [Heq|Hlt|Hgt]; [done| |done].
    change (inject_Z (-1)) with (-(1))%Q in Hlt. lra.
Qed.

(** Wrapping a wrapped value changes nothing. *)
Lemma remainder_idempotent (x y : Q) :
  ~ (y == 0)%Q -> (remainder (remainder x y) y == remainder x y)%Q.
Proof.
  intros Hy.
  assert (Hsmall : roundHalfEven (remainder x y / y) = 0%Z).
  { apply roundHalfEven_small. unfold remainder.
    set (n := inject_Z (roundHalfEven (x / y))).
    assert (E : ((x - n * y) / y == x / y - n)%Q) by (field; exact Hy).
    rewrite E. apply roundHalfEven_near. }
  unfold remainder at 1. rewrite Hsmall. change (inject_Z 0) with 0%Q. ring.
Qed.

Section StableProperties.
Context `{Collaborators}.

(** X14. Wrapping is idempotent: the written copy of a written copy has the
    same types and, bias by bias, the same values as the written copy, for
    phase types with a wavelength that is not zero. Biases that were written,
    read back and written again do not change. *)
Theorem written_bias_is_stable (stored : GnssSignalBias) :
  (forall type, type ∈ types stored -> isPhase type = true -> ~ (wavelength type == 0)%Q) ->
  types (writtenBias (writtenBias stored)) = types stored
  /\ Forall2 Qeq (biases (writtenBias (writtenBias stored))) (biases (writtenBias stored)).
Proof.
  intros Hwl. split; [done|].
  apply Forall2_same_length_lookup_2.
  - simpl. by rewrite !length_imap.
  - intros i b2 b1. simpl. rewrite !list_lookup_imap.
    destruct (biases stored !! i) as [b|]; simpl; [|done].
    intros [= <-] [= <-]. unfold wrappedBias. simpl.
    destruct (types stored !! i) as [type|] eqn:Htype; [|reflexivity].
    destruct (isPhase type) eqn:Hphase; [|reflexivity].
    apply remainder_idempotent. apply Hwl; [|done]. by eapply list_elem_of_lookup_2.
Qed.

End StableProperties.

(** ** The properties on the small constellation *)

Import SignalBiases.Toy.

(** The bias file of GRAZ exists under the template of the receivers, but init
    looks for the file that the template of the transmitters names for GRAZ;
    that read fails, the warning names the file of the receivers, and GRAZ is
    disabled. *)
Lemma receiver_bias_read_with_transmitter_template_witness :
  readFileGnssSignalBias "biasReceiver.GRAZ" = Returns (Toy.bias 5 6)
  /\ initReceivers Toy.cfg Toy.constellation =
     (Returns tt,
      set_receivers [disable Toy.GRAZ] Toy.constellation,
      [Call (op_readFileGnssSignalBias "biasTransmitter.GRAZ");
       logWarningOnce "Unable to read signal bias file <biasReceiver.GRAZ>, disabling receiver."]).
Proof.
  destruct (receiver_bias_read_with_transmitter_template Toy.cfg Toy.constellation)
    as [Hrun _]; [reflexivity | reflexivity |].
  split; [reflexivity|]. rewrite Hrun. reflexivity.
Defined.

(** The transmitter G01 with a bias of 1 m on L1 and 25 m on C1: the
    wavelength of L1 is the double 0x1.85b8b06a70079p-3 (about 0.19 m); the
    file holds the remainder of 1 m by it, the double 0x1.8d9237af3f68cp-5
    (about 0.0485 m), which is within half a wavelength, and the code bias as
    it is; the stored bias stays 1 m. *)
Example writeResults_wraps_G01 :
  let info := {| isEnabled := true; isEachReceiverSeparately := false; isMaster := true;
                 estimateReceiver := [false] |} in
  let w := {| gnss := Toy.constellation; files := [] |} in
  writeResults Toy.cfg info ".final" w =
  (Returns tt,
   {| gnss := Toy.constellation;
      files := [("outTransmitter.G01.final",
                 {| types := [Toy.L1; Toy.C1];
                    biases := [remainder 1 (wavelength Toy.L1); 25%Q] |})] |},
   [logStatus "write transmitter signal biases to files <outTransmitter.***.final>";
    logStatus "write receiver signal biases to files <outReceiver.****.final>"])
  /\ wavelength Toy.L1 = Double_value 0x1.85b8b06a70079p-3%float
  /\ (remainder 1 (wavelength Toy.L1) == Double_value 0x1.8d9237af3f68cp-5%float)%Q
  /\ (Qabs (remainder 1 (wavelength Toy.L1)) <= Qabs (wavelength Toy.L1) / 2)%Q.
Proof.
  split; [reflexivity|]. split; [reflexivity|]. split; [by vm_compute|].
  apply remainder_bound. by vm_compute.
Qed.

(** The numbers of some doubles. *)
Example Double_value_of_doubles :
  (Double_value 1.5%float == 3 # 2)%Q
  /\ (Double_value (-0.25)%float == - (1 # 4))%Q
  /\ Double_value infinity = 0%Q /\ Double_value nan = 0%Q.
Proof. repeat split; by vm_compute. Qed.

(** A bias next to three and a half wavelengths of L1: the quotient of the
    bias by the wavelength as the code computes it, in binary64, lies above
    3.5, so four wavelengths are taken off and the written bias is negative;
    by the quotient of the exact numbers 299792458/1575420000 it would lie
    below 3.5. *)
Example wraps_by_the_binary64_wavelength :
  let b := Double_value 0x1.55019a5d2206ap-1%float in
  (remainder b (wavelength Toy.L1) == Double_value (-0x1.85b8b06a70078p-4)%float)%Q
  /\ roundHalfEven (b / wavelength Toy.L1) = 4%Z
  /\ roundHalfEven (b / (299792458 / 1575420000)) = 3%Z.
Proof. intros b. split; [by vm_compute|]. split; by vm_compute. Qed.

(** Two transmitters: the bias file of G01 exists and replaces the stored
    bias; the one of G02 does not, G02 is disabled and the warning names the
    file that was looked for. *)
Lemma transmitter_bias_read_and_warned_with_same_file_witness :
  let g := {| transmitters := [Toy.G01; Toy.G02]; receivers := [Toy.GRAZ] |} in
  initTransmitters Toy.cfg g =
  (Returns tt,
   {| transmitters := [set_signalBias (Toy.bias 3 4) Toy.G01; disable Toy.G02];
      receivers := [Toy.GRAZ] |},
   [Call (op_readFileGnssSignalBias "biasTransmitter.G01");
    Call (op_readFileGnssSignalBias "biasTransmitter.G02");
    logWarningOnce "Unable to read signal bias file <biasTransmitter.G02>, disabling transmitter."]).
Proof.
  intros g.
  destruct (transmitter_bias_read_and_warned_with_same_file Toy.cfg g)
    as [Hrun _]; [reflexivity | reflexivity |].
  rewrite Hrun. reflexivity.
Defined.

(** init on G01 and GRAZ: the bias of G01 is read; the file looked for GRAZ
    is the one of the transmitter template, GRAZ is disabled. *)
Lemma init_reads_transmitters_then_receivers_witness :
  init Toy.cfg Toy.constellation =
  (Returns tt,
   {| transmitters := [set_signalBias (Toy.bias 3 4) Toy.G01];
      receivers := [disable Toy.GRAZ] |},
   [Call (op_readFileGnssSignalBias "biasTransmitter.G01");
    Call (op_readFileGnssSignalBias "biasTransmitter.GRAZ");
    logWarningOnce "Unable to read signal bias file <biasReceiver.GRAZ>, disabling receiver."]).
Proof.
  destruct (init_reads_transmitters_then_receivers Toy.cfg Toy.constellation)
    as [Hrun _]; [reflexivity | reflexivity |].
  rewrite Hrun. reflexivity.
Defined.

(** A selection with one entry for two transmitters: G01 is processed, then
    init ends with an exception; G02 and GRAZ are as they were. *)
Lemma init_short_selection_throws_witness :
  let g := {| transmitters := [Toy.G01; Toy.G02]; receivers := [Toy.GRAZ] |} in
  exists e,
    @init Toy.carrier Toy.shortSelection Toy.cfg g =
    (Throws e,
     {| transmitters := [set_signalBias (Toy.bias 3 4) Toy.G01; Toy.G02];
        receivers := [Toy.GRAZ] |},
     [Call (op_readFileGnssSignalBias "biasTransmitter.G01")]).
Proof.
  intros g.
  destruct (@init_short_selection_throws Toy.carrier Toy.shortSelection Toy.cfg g)
    as [e Hrun]; [reflexivity | simpl; lia |].
  exists e. rewrite Hrun. reflexivity.
Defined.

(** G01 and G02 are usable and selected, GRAZ is on this rank but its
    parameters are not estimated: two files, in the order of the
    transmitters. The L1 biases of 1 m and 2 m are written as their
    remainders by the wavelength, the doubles 0x1.8d9237af3f68cp-5 and
    -0x1.7ddf2925a0a66p-4; the C1 biases are written as they are. *)
Lemma writeResults_files_witness :
  let info := {| isEnabled := true; isEachReceiverSeparately := false; isMaster := true;
                 estimateReceiver := [false] |} in
  let w := {| gnss := {| transmitters := [Toy.G01; Toy.G02]; receivers := [Toy.GRAZ] |};
              files := [] |} in
  files (writeResults Toy.cfg info ".final" w).1.2
  = [("outTransmitter.G01.final",
      {| types := [Toy.L1; Toy.C1]; biases := [remainder 1 (wavelength Toy.L1); 25%Q] |});
     ("outTransmitter.G02.final",
      {| types := [Toy.L1; Toy.C1]; biases := [remainder 2 (wavelength Toy.L1); 26%Q] |})]
  /\ (remainder 1 (wavelength Toy.L1) == Double_value 0x1.8d9237af3f68cp-5%float)%Q
  /\ (remainder 2 (wavelength Toy.L1) == Double_value (-0x1.7ddf2925a0a66p-4)%float)%Q.
Proof.
  intros info w. split; [|split; by vm_compute].
  rewrite (writeResults_files Toy.cfg info ".final" w).
  - reflexivity.
  - repeat constructor; simpl; lia.
  - repeat constructor; simpl; lia.
Defined.

(** The bias of G01: 1 m on L1 is wrapped to about 0.19 m; wrapping again
    leaves it there. *)
Lemma written_bias_is_stable_witness :
  Forall2 Qeq (biases (writtenBias (writtenBias (Toy.bias 1 25))))
              (biases (writtenBias (Toy.bias 1 25))).
Proof.
  apply (written_bias_is_stable (Toy.bias 1 25)).
  intros type _ _. destruct type; vm_compute; discriminate.
Defined.
